(** * Loop safety: the loop detector hook and the loop-safe orchestrator

    A shallow embedding of
    - [hooks-loop-detector/amplifier_module_hooks_loop_detector/detector.py]
      (module [Detector]),
    - [orchestrator-loop-safe/amplifier_module_orchestrator_loop_safe/orchestrator.py]
      (module [Orchestrator]),
    - [orchestrator-loop-safe/orchestrator_loop_safe/orchestrator.py]
      (module [Legacy], the tool executor only),
    followed by the properties proved about them. *)

From Stdlib Require Import ZArith QArith String Ascii List DecimalString Lia.
From stdpp Require Import base gmap list strings.

Local Open Scope string_scope.

(** ** Python primitives shared by the modules *)

Module Py.

(** [str(n)] for a Python [int]. *)
Definition str_int (z : Z) : string := NilZero.string_of_int (Z.to_int z).

(** The characters that cannot be written inside a string literal. *)
Definition dquote : string := String (ascii_of_nat 34) EmptyString.
Definition nl : string := String (ascii_of_nat 10) EmptyString.

(** Truthiness of a Python [str]. *)
Definition truthy_str (s : string) : bool :=
  match s with EmptyString => false | _ => true end.

(** Truthiness of a value that may be absent ([dict.get] without default
    returns [None], which is falsy). *)
Definition truthy_opt (o : option string) : bool :=
  match o with Some s => truthy_str s | None => false end.

(** [s.split(sep, 1)] for a one-character separator: a list of one element
    when [sep] does not occur, of two elements otherwise (cut at the first
    occurrence). *)
Fixpoint split1 (sep : ascii) (s : string) : list string :=
  match s with
  | EmptyString => [EmptyString]
  | String c rest =>
      if Ascii.eqb c sep then [EmptyString; rest]
      else match split1 sep rest with
           | [a] => [String c a]
           | a :: more => String c a :: more
           | [] => []
           end
  end.

(** [s.startswith(p)]. *)
Fixpoint starts_with (p s : string) : bool :=
  match p with
  | EmptyString => true
  | String a p' =>
      match s with
      | EmptyString => false
      | String b s' => Ascii.eqb a b && starts_with p' s'
      end
  end.

(** [sep.join(parts)]. *)
Fixpoint join (sep : string) (parts : list string) : string :=
  match parts with
  | [] => ""
  | [p] => p
  | p :: rest => p ++ sep ++ join sep rest
  end.

(** [collections.deque(maxlen=n).append(x)]: the oldest entry is dropped
    when the deque is full; a deque of capacity 0 stays empty. *)
Definition deque_append {A} (maxlen : nat) (dq : list A) (x : A) : list A :=
  if Nat.eqb maxlen 0 then dq
  else if Nat.leb maxlen (length dq) then tail dq ++ [x]
  else dq ++ [x].

(** The last [n] entries of a list, all of it when it has fewer. *)
Definition last_n {A} (n : nat) (l : list A) : list A := drop (length l - n) l.

(** Rounding [n / d] to the nearest integer, ties to even ([0 <= n], [0 < d]). *)
Definition round_half_even (n d : Z) : Z :=
  let q := (n / d)%Z in
  let r := (n mod d)%Z in
  if (2 * r <? d)%Z then q
  else if (d <? 2 * r)%Z then (q + 1)%Z
  else if Z.even q then q else (q + 1)%Z.

(** [f"{x:.2f}"] for a float whose value is exactly the rational [x]. *)
Definition format_2f (x : Q) : string :=
  let h := round_half_even (Z.abs (Qnum x) * 100) (Zpos (Qden x)) in
  let frac := (h mod 100)%Z in
  (if (Qnum x <? 0)%Z then "-" else "")
  ++ str_int (h / 100) ++ "."
  ++ (if (frac <? 10)%Z then "0" else "") ++ str_int frac.

(** *** [repr] of a string and the arithmetic of doubles *)

Fixpoint contains_char (c : ascii) (s : string) : bool :=
  match s with
  | EmptyString => false
  | String a rest => Ascii.eqb a c || contains_char c rest
  end.

Definition hex_digit (n : N) : ascii :=
  ascii_of_N (if (n <? 10)%N then 48 + n else 87 + n).

(** One character of [repr(s)] inside the quotes [q]. *)
Definition repr_char (q c : ascii) : string :=
  let n := N_of_ascii c in
  if Ascii.eqb c q || Ascii.eqb c "\"%char then String "\"%char (String c "")
  else if (n =? 9)%N then "\t"
  else if (n =? 10)%N then "\n"
  else if (n =? 13)%N then "\r"
  else if (n <? 32)%N || (n =? 127)%N then
    String "\"%char (String "x"%char (String (hex_digit (n / 16))
                                        (String (hex_digit (n mod 16)) "")))
  else String c "".

Fixpoint repr_body (q : ascii) (s : string) : string :=
  match s with
  | EmptyString => ""
  | String c rest => repr_char q c ++ repr_body q rest
  end.

(** [repr(s)] for a [str] given by its UTF-8 bytes: single quotes unless
    the string has a single quote and no double quote; code points above
    127 are taken to be printable and kept as they are. This is also
    [str(KeyError(s))]. *)
Definition repr_str (s : string) : string :=
  let q : ascii :=
    if contains_char "'"%char s && negb (contains_char (ascii_of_nat 34) s)
    then ascii_of_nat 34 else "'"%char in
  String q (repr_body q s ++ String q "").

(** The double nearest to the rational [n / d] ([0 < n], [0 < d], within
    the range of normal doubles), as [(m, e)] with value [m * 2^e]: 53
    significant bits, ties to even. *)
Definition float_of_ratio (n d : Z) : Z * Z :=
  let e := (Z.log2 n - Z.log2 d - 53)%Z in
  let scaled (e : Z) :=
    if (0 <=? e)%Z then (n, d * 2 ^ e)%Z else (n * 2 ^ (- e), d)%Z in
  let e :=
    if (2 ^ 53 * snd (scaled e) <=? fst (scaled e))%Z then (e + 1)%Z else e in
  (round_half_even (fst (scaled e)) (snd (scaled e)), e).

(** [int((count / max) * 100)] on two [int]s, as Python computes it: a
    correctly rounded true division, a correctly rounded product and a
    truncation toward zero ([max] is not 0). *)
Definition float_percentage (count max : Z) : Z :=
  if (count =? 0)%Z then 0%Z
  else
    let '(m, e) := float_of_ratio (Z.abs count) (Z.abs max) in
    let '(m, e) :=
      if (0 <=? e)%Z then float_of_ratio (m * 100 * 2 ^ e) 1
      else float_of_ratio (m * 100) (2 ^ (- e)) in
    let magnitude := if (0 <=? e)%Z then (m * 2 ^ e)%Z else (m / 2 ^ (- e))%Z in
    (Z.sgn count * Z.sgn max * magnitude)%Z.

End Py.

(** ** The parts of [amplifier_core] that both modules use *)

Module Core.

(** [HookResult] of [amplifier_core.models], with the fields this code
    passes; a field that is not passed is [None]. *)
Record HookResult := mkHookResult {
  action : string;
  reason : option string;
  context_injection : option string;
  context_injection_role : option string;
}.

Definition HookResult_continue : HookResult :=
  mkHookResult "continue" None None None.

End Core.

(** ** The loop detector hook ([detector.py]) *)

Module Detector.
Import Py Core.

(** The configuration dict of [__init__]; an absent key is [None]. *)
Record Config := mkConfig {
  cfg_detection_window : option nat;
  cfg_similarity_threshold : option Q;
  cfg_action_on_detect : option string;
  cfg_apply_to_sub_sessions : option bool;
}.

(** The instance attributes of [LoopDetectorHook]. *)
Record LoopDetectorHook := mkHook {
  detection_window : nat;
  similarity_threshold : Q;
  action_on_detect : string;
  apply_to_sub_sessions : bool;
  recent_calls : list string;
  already_warned : bool;
}.

(** The float literal [0.85]: the double nearest to 85/100. *)
Definition default_similarity_threshold : Q :=
  (7656119366529843 # 9007199254740992)%Q.

Definition __init__ (config : Config) : LoopDetectorHook :=
  {| detection_window := default 10%nat (cfg_detection_window config);
     similarity_threshold :=
       default default_similarity_threshold (cfg_similarity_threshold config);
     action_on_detect := default "warn" (cfg_action_on_detect config);
     apply_to_sub_sessions := default false (cfg_apply_to_sub_sessions config);
     recent_calls := [];
     already_warned := false |}.

Definition set_recent_calls (self : LoopDetectorHook) (l : list string) :=
  {| detection_window := detection_window self;
     similarity_threshold := similarity_threshold self;
     action_on_detect := action_on_detect self;
     apply_to_sub_sessions := apply_to_sub_sessions self;
     recent_calls := l;
     already_warned := already_warned self |}.

Definition set_already_warned (self : LoopDetectorHook) (b : bool) :=
  {| detection_window := detection_window self;
     similarity_threshold := similarity_threshold self;
     action_on_detect := action_on_detect self;
     apply_to_sub_sessions := apply_to_sub_sessions self;
     recent_calls := recent_calls self;
     already_warned := b |}.

(** [_calculate_similarity]: the scores are the floats 0.0, 0.5 and 1.0,
    which are exact, so they are kept as rationals. Unpacking a split
    that has no second part raises [ValueError], caught by the [except]. *)
Definition _calculate_similarity (sig1 sig2 : string) : Q :=
  match split1 ":" sig1, split1 ":" sig2 with
  | [name1; hash1], [name2; hash2] =>
      if negb (String.eqb name1 name2) then 0%Q
      else if String.eqb hash1 hash2 then 1%Q
      else (1 # 2)%Q
  | _, _ => 0%Q
  end.

(** [sum(xs)] over floats that are exact. *)
Definition sumQ (xs : list Q) : Q := fold_left Qplus xs 0%Q.

Definition exact_repeat_description (tool_name : string) (n : nat) : string :=
  "Same tool '" ++ tool_name ++ "' called " ++ str_int (Z.of_nat n)
  ++ " times with identical arguments".

Definition similarity_description (tool_name : string) (avg : Q) : string :=
  "Repetitive pattern detected: tool '" ++ tool_name ++ "' similarity="
  ++ format_2f avg.

(** [_detect_loop]. [recent[0]] and the division by [len(similarities)]
    are only reached with at least five entries, where the first exists and
    the length is 4; sums of four scores and their quarter are exact in
    binary floating point, so the average is the rational computed here. *)
Definition _detect_loop (self : LoopDetectorHook) : bool * string :=
  if (length (recent_calls self) <? 5)%nat then (false, "")
  else
    let recent := recent_calls self in
    let first_sig := nth 0 recent "" in
    let identical_count :=
      length (filter (fun sig => sig = first_sig) recent) in
    if (identical_count =? length recent)%nat then
      let tool_name := nth 0 (split1 ":" first_sig) "" in
      (true, exact_repeat_description tool_name (length recent))
    else if (5 <=? length recent)%nat then
      let last_five := drop (length recent - 5) recent in
      let similarities :=
        map (fun i => _calculate_similarity (nth i last_five "")
                                            (nth (i + 1) last_five ""))
            (seq 0 (length last_five - 1)) in
      let avg_similarity :=
        (sumQ similarities / inject_Z (Z.of_nat (length similarities)))%Q in
      if Qle_bool (similarity_threshold self) avg_similarity then
        let tool_name := nth 0 (split1 ":" (nth 0 last_five "")) "" in
        (true, similarity_description tool_name avg_similarity)
      else (false, "")
    else (false, "").

Definition detection_message (description : string) : string :=
  "<system-reminder source=" ++ dquote ++ "hooks-loop-detector" ++ dquote ++ ">" ++ nl
  ++ "⚠️ **Repetitive Pattern Detected**" ++ nl
  ++ nl
  ++ description ++ nl
  ++ nl
  ++ "This may indicate an infinite loop. Consider:" ++ nl
  ++ "- Is this task making measurable progress?" ++ nl
  ++ "- Should you try a different approach?" ++ nl
  ++ "- Can you delegate to an agent instead of polling?" ++ nl
  ++ "- Should you return results to the user?" ++ nl
  ++ nl
  ++ "For analysis: delegate to loop-safety:loop-diagnostician" ++ nl
  ++ "</system-reminder>".

Definition _handle_detection (self : LoopDetectorHook) (description : string)
  : HookResult :=
  let message := detection_message description in
  if String.eqb (action_on_detect self) "deny" then
    mkHookResult "deny"
      (Some ("Loop detected - blocking to prevent infinite execution: "
             ++ description))
      None None
  else if String.eqb (action_on_detect self) "warn" then
    mkHookResult "inject_context" None (Some message) (Some "system")
  else HookResult_continue.

(** A result that is not the continue result. *)
Definition escalated (r : HookResult) : bool :=
  negb (String.eqb (action r) "continue").

(** The vocabulary of the statements about the classifier. *)

(** The tool name the classifier reads off a signature:
    [sig.split(":", 1)[0]]. *)
Definition sig_name (sig : string) : string := nth 0 (split1 ":" sig) "".

(** The average of four scores, as [_detect_loop] computes it. *)
Definition average4 (s1 s2 s3 s4 : Q) : Q :=
  (sumQ [s1; s2; s3; s4] / inject_Z (Z.of_nat 4))%Q.

(** Every entry of the window equals the first one. *)
Definition all_identical (recent : list string) : Prop :=
  Forall (fun s => s = nth 0 recent "") recent.

Fixpoint contains_colon (s : string) : bool :=
  match s with
  | EmptyString => false
  | String c rest => Ascii.eqb c ":" || contains_colon rest
  end.

(** The parts of the runtime that the detector calls and that are not
    fixed by the source: the type of tool arguments, [json.dumps(_,
    sort_keys=True)] ([None] when it raises [TypeError] or [ValueError]),
    [str] on arguments, the built-in [hash] on strings, and the empty
    dict used as the default of [tool_input]. *)
Class Runtime (Value : Type) := {
  json_dumps : Value -> option string;
  str_value : Value -> string;
  hash : string -> Z;
  empty_dict : Value;
}.

(** The [data] dict of an event, with the keys the detector reads. *)
Record EventData (Value : Type) := mkData {
  parent_id : option string;
  tool_name : option string;
  tool_input : option Value;
}.
Arguments mkData {Value} _ _ _.
Arguments parent_id {Value} _.
Arguments tool_name {Value} _.
Arguments tool_input {Value} _.

Section WithRuntime.
Context {Value : Type} `{Runtime Value}.

Definition _compute_signature (data : EventData Value) : string :=
  let tool_name := default "unknown" (tool_name data) in
  let tool_input := default empty_dict (tool_input data) in
  let args_hash :=
    match json_dumps tool_input with
    | Some args_normalized => hash args_normalized
    | None => hash (str_value tool_input)
    end in
  tool_name ++ ":" ++ str_int args_hash.

Definition __call__ (self : LoopDetectorHook) (event : string)
    (data : EventData Value) : LoopDetectorHook * HookResult :=
  if negb (apply_to_sub_sessions self) && truthy_opt (parent_id data) then
    (self, HookResult_continue)
  else if String.eqb event "tool:post" then
    let signature := _compute_signature data in
    let self :=
      set_recent_calls self
        (deque_append (detection_window self) (recent_calls self) signature) in
    let '(is_loop, description) := _detect_loop self in
    if is_loop && negb (already_warned self) then
      let self := set_already_warned self true in
      (self, _handle_detection self description)
    else (self, HookResult_continue)
  else (self, HookResult_continue).

(** Delivering a sequence of events to one instance, collecting the
    results. *)
Fixpoint deliver (self : LoopDetectorHook)
    (events : list (string * EventData Value))
  : LoopDetectorHook * list HookResult :=
  match events with
  | [] => (self, [])
  | (event, data) :: rest =>
      let '(self, r) := __call__ self event data in
      let '(self, rs) := deliver self rest in
      (self, r :: rs)
  end.

(** An event that the instance does not skip as a sub-session event. *)
Definition handled (self : LoopDetectorHook) (data : EventData Value) : Prop :=
  negb (apply_to_sub_sessions self) && truthy_opt (parent_id data) = false.

(** An event whose signature [__call__] appends to the window: a
    [tool:post] event that is not skipped as a sub-session event. *)
Definition observed (self : LoopDetectorHook) (ev : string * EventData Value)
  : bool :=
  negb (negb (apply_to_sub_sessions self) && truthy_opt (parent_id (snd ev)))
  && String.eqb (fst ev) "tool:post".

(** The signatures of the observed events, oldest first. *)
Definition observed_signatures (self : LoopDetectorHook)
    (events : list (string * EventData Value)) : list string :=
  map (fun ev => _compute_signature (snd ev)) (List.filter (observed self) events).

End WithRuntime.

End Detector.


(** ** The loop-safe orchestrator ([amplifier_module_orchestrator_loop_safe]) *)

Module Orchestrator.
Import Py Core.

(** *** Values exchanged with the collaborators *)

(** Python scalars a tool may return. *)
Inductive scalar :=
| VNone
| VBool (b : bool)
| VInt (z : Z)
| VStr (s : string).

Definition str_scalar (v : scalar) : string :=
  match v with
  | VNone => "None"
  | VBool true => "True"
  | VBool false => "False"
  | VInt z => str_int z
  | VStr s => s
  end.

Definition truthy_scalar (v : scalar) : bool :=
  match v with
  | VNone => false
  | VBool b => b
  | VInt z => negb (z =? 0)%Z
  | VStr s => truthy_str s
  end.

(** The [output] attribute of a tool result: a scalar, or a dict with string
    values (the shape of the bash tool's results). *)
Inductive output :=
| OScalar (v : scalar)
| ODict (d : gmap string string).

(** What [tool.execute] returns: an object with an [output] attribute, or a
    plain value without one. *)
Inductive tool_result :=
| RPlain (v : scalar)
| RObject (out : output).

(** Response content: a string or a list of content blocks; a block either
    carries a [text] or does not. *)
Inductive block :=
| TextBlock (text : string)
| OtherBlock (dump : string).

Inductive content :=
| CStr (s : string)
| CBlocks (bs : list block).

Record ToolCall := mkToolCall {
  tc_id : string;
  tc_name : string;
  tc_arguments : gmap string scalar;
}.

(** A message dict: [role] and [content] always ([content] may be [None]),
    the other keys when set. *)
Record Message := mkMessage {
  msg_role : string;
  msg_content : option content;
  msg_tool_calls : option (list ToolCall);
  msg_name : option string;
  msg_tool_call_id : option string;
}.

Record ToolSpec := mkToolSpec {
  spec_name : string;
  spec_description : string;
  spec_parameters : string;
}.

Record ChatRequest := mkChatRequest {
  req_messages : list Message;
  req_tools : option (list ToolSpec);
}.

(** A provider response: its [content] attribute ([None] when missing) and
    the tool calls that [provider.parse_tool_calls] extracts from it. *)
Record Response := mkResponse {
  resp_content : option content;
  resp_tool_calls : list ToolCall;
}.

(** A registered tool: the attributes read when the tool list is built.
    Its [execute] is a collaborator, see [Collaborators]. *)
Record Tool := mkTool {
  tool_name : string;
  tool_description : string;
  tool_input_schema : string;
}.

(** An exception, by its [str(e)]. *)
Definition exn := string.

(** The events passed to [hooks.emit], one constructor per event name, with
    the payload keys as arguments. *)
Inductive event :=
| orchestrator_limit_reached (iteration max_iterations : Z)
| orchestrator_complete (turn_count : Z) (status : string)
| provider_request (provider : string) (messages : list Message)
    (iteration : Z) (wrap_up : bool)
| provider_error (provider : string) (error : string)
| provider_response (provider : string) (response : Response)
| tool_pre (name : string) (input : gmap string scalar) (tool_call_id : string)
| tool_post (name : string) (input : gmap string scalar) (result : tool_result)
| tool_error (name : string) (error : string).

Inductive level := INFO | WARNING | ERROR.

(** Every call the orchestrator makes on a collaborator, in order. *)
Inductive effect :=
| AddMessage (m : Message)
| GetMessages
| Emit (e : event)
| Complete (provider : string) (request : ChatRequest)
| Execute (tool : string) (arguments : gmap string scalar)
| Log (lvl : level) (text : string).

(** The collaborators, over a state [W] of the outside world that they
    read and change: the conversation context, the provider, the hook
    registry and the tools. [percentage count max] is
    [int((count / max) * 100)], computed in double precision by the source
    and not fixed here ([max] is not 0 where it is used). *)
Class Collaborators (W : Type) := {
  ctx_add_message : Message -> W -> W;
  ctx_get_messages_for_request : W -> list Message * W;
  provider_complete : string -> ChatRequest -> W -> (exn + Response) * W;
  hooks_emit : event -> W -> option HookResult * W;
  tool_execute : string -> gmap string scalar -> W -> (exn + tool_result) * W;
  percentage : Z -> Z -> Z;
}.

(** *** Module-level helpers *)

Definition block_text (b : block) : string :=
  match b with TextBlock t => t | OtherBlock _ => "" end.

(** [_content_to_string] *)
Definition _content_to_string (c : content) : string :=
  match c with
  | CStr s => s
  | CBlocks bs => String.concat "" (map block_text bs)
  end.

(** [_serialize_content]: a string is kept, and each block is replaced by
    its dump, which the block datatype already is. *)
Definition _serialize_content (c : content) : content :=
  match c with
  | CStr s => CStr s
  | CBlocks bs => CBlocks (map (fun b => b) bs)
  end.

(** [getattr(response, "content", None) or ""] *)
Definition raw_content_of (response : Response) : content :=
  match resp_content response with
  | None => CStr ""
  | Some (CStr s) => if truthy_str s then CStr s else CStr ""
  | Some (CBlocks []) => CStr ""
  | Some (CBlocks bs) => CBlocks bs
  end.

(** [tools.get(name)] on the tool dict, kept in insertion order. *)
Fixpoint tools_get (tools : list (string * Tool)) (name : string) : option Tool :=
  match tools with
  | [] => None
  | (k, t) :: rest => if String.eqb k name then Some t else tools_get rest name
  end.

(** *** The instance *)

Record Config := mkConfig {
  cfg_max_iterations : option Z;
  cfg_warn_at : option (list Z);
  cfg_default_provider : option string;
  cfg_stop_on_error : option bool;
}.

Record LoopSafeOrchestrator := mkOrchestrator {
  max_iterations : Z;
  warn_at : list Z;
  default_provider_name : option string;
  stop_on_error : bool;
  iteration_count : Z;
}.

Definition __init__ (config : Config) : LoopSafeOrchestrator :=
  {| max_iterations := default 100%Z (cfg_max_iterations config);
     warn_at := default [75; 90]%Z (cfg_warn_at config);
     default_provider_name := cfg_default_provider config;
     stop_on_error := default false (cfg_stop_on_error config);
     iteration_count := 0 |}.

Definition set_iteration_count (self : LoopSafeOrchestrator) (n : Z) :=
  {| max_iterations := max_iterations self;
     warn_at := warn_at self;
     default_provider_name := default_provider_name self;
     stop_on_error := stop_on_error self;
     iteration_count := n |}.

Definition warning_text (count max pct : Z) : string :=
  "<system-reminder source=" ++ dquote ++ "orchestrator-loop-safe" ++ dquote ++ ">" ++ nl
  ++ "‚ö†Ô∏è **Iteration Warning**" ++ nl
  ++ "You are at iteration " ++ str_int count ++ " of " ++ str_int max
  ++ " maximum (" ++ str_int pct ++ "%)." ++ nl
  ++ nl
  ++ "Consider:" ++ nl
  ++ "- Have you made progress toward the goal?" ++ nl
  ++ "- Are you stuck in a monitoring or polling loop?" ++ nl
  ++ "- Should you summarize progress and return to the user?" ++ nl
  ++ "</system-reminder>".

Definition termination_text (max : Z) : string :=
  "<system-reminder source=" ++ dquote ++ "orchestrator-loop-safe" ++ dquote ++ ">" ++ nl
  ++ "üõë **Maximum Iterations Reached**" ++ nl
  ++ "Stopped at " ++ str_int max ++ " iterations to prevent runaway execution." ++ nl
  ++ nl
  ++ "You MUST now:" ++ nl
  ++ "1. Summarize the progress made" ++ nl
  ++ "2. Explain what was accomplished" ++ nl
  ++ "3. Indicate what remains to be done" ++ nl
  ++ "4. Return control to the user" ++ nl
  ++ nl
  ++ "Do NOT attempt to continue the task. Provide a summary and stop." ++ nl
  ++ "</system-reminder>".

Definition system_message (text : string) : Message :=
  mkMessage "system" (Some (CStr text)) None None None.

Definition empty_output : string := "(empty output)".

(** Lines 264-276 of [_execute_tool]: the result as a string. *)
Definition result_text (result : tool_result) : string :=
  match result with
  | RObject (ODict output) =>
      let stdout_part :=
        if truthy_opt (output !! "stdout")
        then [default "" (output !! "stdout")] else [] in
      let stderr_part :=
        if truthy_opt (output !! "stderr")
        then ["stderr: " ++ default "" (output !! "stderr")] else [] in
      let parts := app stdout_part stderr_part in
      match parts with [] => empty_output | _ => join nl parts end
  | RObject (OScalar output) =>
      if truthy_scalar output then str_scalar output else empty_output
  | RPlain result =>
      if truthy_scalar result then str_scalar result else empty_output
  end.

(** *** Reading a trace *)

Definition is_complete (e : effect) : bool :=
  match e with Complete _ _ => true | _ => false end.

Definition is_execute (e : effect) : bool :=
  match e with Execute _ _ => true | _ => false end.

(** The log line that [_inject_warning] writes at iteration [count]. *)
Definition warning_log (count : Z) : effect :=
  Log INFO ("Injected iteration warning at " ++ str_int count).

Definition is_warning_log (e : effect) : bool :=
  match e with
  | Log INFO text => starts_with "Injected iteration warning at " text
  | _ => false
  end.

(** The number of [provider.complete] calls in a trace. *)
Definition provider_calls (t : list effect) : nat :=
  length (List.filter is_complete t).

(** The [tool.execute] calls in a trace. *)
Definition tool_executions (t : list effect) : list effect :=
  List.filter is_execute t.

(** The log lines of the injected warnings in a trace. *)
Definition warning_logs (t : list effect) : list effect :=
  List.filter is_warning_log t.

(** The [status] of every [orchestrator:complete] event in a trace. *)
Fixpoint completion_statuses (t : list effect) : list string :=
  match t with
  | [] => []
  | Emit (orchestrator_complete _ status) :: rest =>
      status :: completion_statuses rest
  | _ :: rest => completion_statuses rest
  end.

(** The [provider.complete] calls in a trace: the provider and the
    request. *)
Fixpoint provider_requests (t : list effect) : list (string * ChatRequest) :=
  match t with
  | [] => []
  | Complete provider request :: rest =>
      (provider, request) :: provider_requests rest
  | _ :: rest => provider_requests rest
  end.

(** The tool messages appended in a trace (the messages that carry a
    [name] and a [tool_call_id]), by name and id. *)
Fixpoint tool_replies (t : list effect) : list (string * string) :=
  match t with
  | [] => []
  | AddMessage (mkMessage _ _ _ (Some name) (Some id)) :: rest =>
      (name, id) :: tool_replies rest
  | _ :: rest => tool_replies rest
  end.

(** The effects of the loop over the tool calls: tool events, executions,
    log lines and context messages. *)
Definition tool_effect (e : effect) : bool :=
  match e with
  | Emit (tool_pre _ _ _) | Emit (tool_post _ _ _) | Emit (tool_error _ _) => true
  | Execute _ _ | Log _ _ | AddMessage _ => true
  | _ => false
  end.

(** The tool message appended for a tool call (lines 216-224). *)
Definition tool_message (tool_call : ToolCall) (text : string) : Message :=
  mkMessage "tool" (Some (CStr text)) None
            (Some (tc_name tool_call)) (Some (tc_id tool_call)).

(** An execution of a tool that is registered under the name called. *)
Definition registered_execution (tools : list (string * Tool)) (e : effect)
  : Prop :=
  exists name args, e = Execute name args /\ is_Some (tools_get tools name).

(** The effects of the tool dispatch: everything but provider calls and
    the log line of an injected warning. *)
Definition dispatch_effect (e : effect) : bool :=
  negb (is_complete e) && negb (is_warning_log e).

(** The opening of the warning that [_inject_warning] appends. *)
Definition warning_header : string :=
  "<system-reminder source=" ++ dquote ++ "orchestrator-loop-safe" ++ dquote ++ ">" ++ nl
  ++ "‚ö†Ô∏è **Iteration Warning**".

(** A system message that opens as an iteration warning does. *)
Definition is_warning_message (m : Message) : bool :=
  String.eqb (msg_role m) "system"
  && match msg_content m with
     | Some (CStr text) => starts_with warning_header text
     | _ => false
     end.

Definition is_tool_pre (e : effect) : bool :=
  match e with Emit (tool_pre _ _ _) => true | _ => false end.

(** The messages that the orchestrator appends on its own account, in
    order: every appended message but a hook's injection, which is the one
    appended directly after the [tool:pre] event (lines 193-213; a denied
    call logs first, and [_execute_tool] starts with a log line or with the
    tool's execution). [after_pre] says that the effect before the trace
    was a [tool:pre] event. *)
Fixpoint own_messages_from (after_pre : bool) (t : list effect) : list Message :=
  match t with
  | [] => []
  | AddMessage m :: rest =>
      (if after_pre then [] else [m]) ++ own_messages_from false rest
  | e :: rest => own_messages_from (is_tool_pre e) rest
  end.

Definition own_messages (t : list effect) : list Message :=
  own_messages_from false t.


Definition warning_messages_from (after_pre : bool) (t : list effect)
  : list Message :=
  List.filter is_warning_message (own_messages_from after_pre t).

(** The iteration warnings among the messages that the orchestrator
    appends on its own account in a trace. *)
Definition warning_messages (t : list effect) : list Message :=
  warning_messages_from false t.



(** *** The state and error monad of one invocation *)

Inductive outcome (A : Type) :=
| Returned (a : A)
| Raised (e : exn).
Arguments Returned {A} _.
Arguments Raised {A} _.

Section WithCollaborators.
Context {W : Type} `{Collaborators W}.

(** The instance attributes, the outside world and the calls made so far. *)
Record state := mkState {
  self : LoopSafeOrchestrator;
  world : W;
  trace : list effect;
}.

Definition M (A : Type) : Type := state -> outcome A * state.

Definition ret {A} (a : A) : M A := fun st => (Returned a, st).

Definition raise {A} (e : exn) : M A := fun st => (Raised e, st).

Definition bind {A B} (m : M A) (k : A -> M B) : M B :=
  fun st =>
    match m st with
    | (Returned a, st') => k a st'
    | (Raised e, st') => (Raised e, st')
    end.

Notation "'let!' x ':=' m 'in' k" := (bind m (fun x => k))
  (at level 10, x name, m at level 100, k at level 200).
Notation "m ';;' k" := (bind m (fun _ => k))
  (at level 100, k at level 200, right associativity).

(** [try: m except Exception as e: handler e] *)
Definition try_except {A} (m : M A) (handler : exn -> M A) : M A :=
  fun st =>
    match m st with
    | (Returned a, st') => (Returned a, st')
    | (Raised e, st') => handler e st'
    end.

Definition get_self : M LoopSafeOrchestrator :=
  fun st => (Returned (self st), st).

Definition put_self (s : LoopSafeOrchestrator) : M unit :=
  fun st => (Returned tt, mkState s (world st) (trace st)).

Definition context_add_message (m : Message) : M unit :=
  fun st =>
    (Returned tt,
     mkState (self st) (ctx_add_message m (world st))
             (trace st ++ [AddMessage m])).

Definition context_get_messages_for_request : M (list Message) :=
  fun st =>
    let '(msgs, w) := ctx_get_messages_for_request (world st) in
    (Returned msgs, mkState (self st) w (trace st ++ [GetMessages])).

Definition hooks_emit_event (e : event) : M (option HookResult) :=
  fun st =>
    let '(r, w) := hooks_emit e (world st) in
    (Returned r, mkState (self st) w (trace st ++ [Emit e])).

Definition provider_complete_request (provider : string) (req : ChatRequest)
  : M Response :=
  fun st =>
    let '(r, w) := provider_complete provider req (world st) in
    let st' := mkState (self st) w (trace st ++ [Complete provider req]) in
    match r with
    | inl e => (Raised e, st')
    | inr response => (Returned response, st')
    end.

Definition tool_execute_call (name : string) (args : gmap string scalar)
  : M tool_result :=
  fun st =>
    let '(r, w) := tool_execute name args (world st) in
    let st' := mkState (self st) w (trace st ++ [Execute name args]) in
    match r with
    | inl e => (Raised e, st')
    | inr result => (Returned result, st')
    end.

Definition logger (lvl : level) (text : string) : M unit :=
  fun st =>
    (Returned tt, mkState (self st) (world st) (trace st ++ [Log lvl text])).

(** *** The methods *)

(** [_execute_tool] *)
Definition _execute_tool (tool_call : ToolCall) (tools : list (string * Tool))
  : M string :=
  match tools_get tools (tc_name tool_call) with
  | None =>
      let error_msg := "Tool '" ++ tc_name tool_call ++ "' not found" in
      logger ERROR error_msg ;;
      hooks_emit_event (tool_error (tc_name tool_call) error_msg) ;;
      ret ("Error: " ++ error_msg)
  | Some tool =>
      try_except
        (let! result :=
           tool_execute_call (tc_name tool_call) (tc_arguments tool_call) in
         hooks_emit_event
           (tool_post (tc_name tool_call) (tc_arguments tool_call) result) ;;
         ret (result_text result))
        (fun e =>
           let error_msg := "Tool execution failed: " ++ e in
           logger ERROR ("Tool " ++ tc_name tool_call ++ " failed: " ++ e) ;;
           hooks_emit_event (tool_error (tc_name tool_call) e) ;;
           let! self := get_self in
           if stop_on_error self then raise e else ret error_msg)
  end.

(** [_inject_warning]; the division raises when [max_iterations] is 0. *)
Definition _inject_warning : M unit :=
  let! self := get_self in
  if (max_iterations self =? 0)%Z then raise "division by zero"
  else
    let pct := percentage (iteration_count self) (max_iterations self) in
    let warning :=
      warning_text (iteration_count self) (max_iterations self) pct in
    context_add_message (system_message warning) ;;
    logger INFO
      ("Injected iteration warning at " ++ str_int (iteration_count self)).

(** [_handle_limit_reached] *)
Definition _handle_limit_reached (provider_name : string)
    (tools_list : option (list ToolSpec)) : M string :=
  let! self := get_self in
  let termination_msg := termination_text (max_iterations self) in
  context_add_message (system_message termination_msg) ;;
  let! message_dicts := context_get_messages_for_request in
  let chat_request := mkChatRequest message_dicts None in
  hooks_emit_event
    (provider_request provider_name message_dicts (iteration_count self) true) ;;
  try_except
    (let! response := provider_complete_request provider_name chat_request in
     hooks_emit_event (provider_response provider_name response) ;;
     let raw_content := raw_content_of response in
     context_add_message
       (mkMessage "assistant" (Some (_serialize_content raw_content)) None None
                  None) ;;
     hooks_emit_event
       (orchestrator_complete (iteration_count self) "incomplete") ;;
     ret (_content_to_string raw_content))
    (fun e =>
       logger ERROR ("Wrap-up LLM call failed: " ++ e) ;;
       hooks_emit_event
         (orchestrator_complete (iteration_count self) "error") ;;
       ret ("Reached iteration limit. Failed to generate summary: " ++ e)).

(** The body of [for tool_call in tool_calls] (lines 191-225). *)
Definition dispatch_tool_call (tools : list (string * Tool))
    (tool_call : ToolCall) : M unit :=
  let! pre_result :=
    hooks_emit_event
      (tool_pre (tc_name tool_call) (tc_arguments tool_call)
                (tc_id tool_call)) in
  let! tool_result_content :=
    match pre_result with
    | Some pre =>
        if String.eqb (action pre) "deny" then
          logger INFO ("Tool " ++ tc_name tool_call ++ " denied by hook") ;;
          ret ("Tool blocked by hook: " ++ default "None" (reason pre))
        else if String.eqb (action pre) "inject_context" then
          context_add_message
            (mkMessage
               (if truthy_opt (context_injection_role pre)
                then default "system" (context_injection_role pre)
                else "system")
               (CStr <$> context_injection pre)
               None None None) ;;
          _execute_tool tool_call tools
        else _execute_tool tool_call tools
    | None => _execute_tool tool_call tools
    end in
  context_add_message
    (mkMessage "tool" (Some (CStr tool_result_content)) None
               (Some (tc_name tool_call)) (Some (tc_id tool_call))).

Fixpoint for_each {A} (xs : list A) (body : A -> M unit) : M unit :=
  match xs with
  | [] => ret tt
  | x :: rest => body x ;; for_each rest body
  end.

(** The branch of the pass taken at the iteration limit (lines 99-110). *)
Definition limit_branch (self : LoopSafeOrchestrator) (provider_name : string)
    (tools_list : option (list ToolSpec)) : M (option string) :=
  logger WARNING
    ("Reached max_iterations limit: " ++ str_int (max_iterations self)) ;;
  hooks_emit_event
    (orchestrator_limit_reached (iteration_count self) (max_iterations self)) ;;
  let! text := _handle_limit_reached provider_name tools_list in
  ret (Some text).

(** The rest of the pass below the limit (lines 112-225). *)
Definition request_branch (self : LoopSafeOrchestrator)
    (provider_name : string) (tools : list (string * Tool))
    (tools_list : option (list ToolSpec)) : M (option string) :=
  let! message_dicts := context_get_messages_for_request in
  let chat_request := mkChatRequest message_dicts tools_list in
  hooks_emit_event
    (provider_request provider_name message_dicts (iteration_count self)
                      false) ;;
  let! response :=
    try_except (provider_complete_request provider_name chat_request)
      (fun e =>
         logger ERROR ("Provider error: " ++ e) ;;
         hooks_emit_event (provider_error provider_name e) ;;
         raise e) in
  hooks_emit_event (provider_response provider_name response) ;;
  let raw_content := raw_content_of response in
  let response_text := _content_to_string raw_content in
  let tool_calls := resp_tool_calls response in
  let assistant_msg :=
    match tool_calls with
    | [] =>
        mkMessage "assistant" (Some (_serialize_content raw_content)) None None
                  None
    | _ =>
        mkMessage "assistant" (Some (_serialize_content raw_content))
                  (Some tool_calls) None None
    end in
  context_add_message assistant_msg ;;
  match tool_calls with
  | [] =>
      hooks_emit_event
        (orchestrator_complete (iteration_count self) "success") ;;
      ret (Some response_text)
  | _ =>
      for_each tool_calls (dispatch_tool_call tools) ;;
      ret None
  end.

(** One pass of [while True] (lines 92-225): [Some text] when the pass
    returns [text] from [execute], [None] when the loop goes round again. *)
Definition loop_body (provider_name : string) (tools : list (string * Tool))
    (tools_list : option (list ToolSpec)) : M (option string) :=
  let! self := get_self in
  put_self (set_iteration_count self (iteration_count self + 1)) ;;
  let! self := get_self in
  (if bool_decide (iteration_count self ∈ warn_at self)
   then _inject_warning else ret tt) ;;
  if (max_iterations self <=? iteration_count self)%Z
  then limit_branch self provider_name tools_list
  else request_branch self provider_name tools tools_list.

(** [while True: ...], with a bound on the number of passes: [None] when
    the bound is used up before the loop returns or raises. *)
Fixpoint while_true (fuel : nat) (body : M (option string)) (st : state)
  : option (outcome string * state) :=
  match fuel with
  | O => None
  | S fuel' =>
      match body st with
      | (Returned (Some text), st') => Some (Returned text, st')
      | (Returned None, st') => while_true fuel' body st'
      | (Raised e, st') => Some (Raised e, st')
      end
  end.

(** Provider selection (lines 69-70). [next(iter(...))] on an empty dict
    raises [StopIteration], which leaves the coroutine [execute] as the
    [RuntimeError] whose text is [coroutine raised StopIteration]; a name
    that is not a key raises [KeyError], whose text is the [repr] of the
    name. *)
Definition select_provider (providers : list string) : M string :=
  let! self := get_self in
  let! provider_name :=
    (if truthy_opt (default_provider_name self)
     then ret (default "" (default_provider_name self))
     else match providers with
          | [] => raise "coroutine raised StopIteration"
          | first :: _ => ret first
          end) in
  if bool_decide (provider_name ∈ providers) then ret provider_name
  else raise (repr_str provider_name).

Definition build_tools_list (tools : list (string * Tool))
  : option (list ToolSpec) :=
  match tools with
  | [] => None
  | _ =>
      Some (map (fun kt =>
                   mkToolSpec (tool_name (snd kt)) (tool_description (snd kt))
                              (tool_input_schema (snd kt)))
                tools)
  end.

(** The part of [execute] before the loop (lines 66-88). *)
Definition execute_prologue (prompt : string) (providers : list string)
    (tools : list (string * Tool)) : M (string * option (list ToolSpec)) :=
  let! provider_name := select_provider providers in
  context_add_message (mkMessage "user" (Some (CStr prompt)) None None None) ;;
  let! self := get_self in
  put_self (set_iteration_count self 0) ;;
  ret (provider_name, build_tools_list tools).

(** [execute], started on the instance [orch] in the world [w]; [fuel]
    bounds the passes of the main loop. *)
Definition execute (fuel : nat) (orch : LoopSafeOrchestrator) (w : W)
    (prompt : string) (providers : list string) (tools : list (string * Tool))
  : option (outcome string * state) :=
  match execute_prologue prompt providers tools (mkState orch w []) with
  | (Returned (provider_name, tools_list), st) =>
      while_true fuel (loop_body provider_name tools tools_list) st
  | (Raised e, st) => Some (Raised e, st)
  end.

(** *** Summaries of a computation's effects *)

(** A computation that leaves the instance alone and only adds effects
    that satisfy [p] to the trace. *)
Definition quiet {A} (p : effect -> bool) (m : M A) : Prop :=
  forall st,
    self (snd (m st)) = self st
    /\ exists added,
         trace (snd (m st)) = (trace st ++ added)%list
         /\ forallb p added = true.

(** At most one provider call, no warning log line, the instance left
    alone. *)
Definition quiet1 {A} (m : M A) : Prop :=
  forall st,
    self (snd (m st)) = self st
    /\ exists added,
         trace (snd (m st)) = (trace st ++ added)%list
         /\ warning_logs added = []
         /\ (provider_calls added <= 1)%nat.

(** A computation that never asks for another pass of the loop. *)
Definition final {A} (m : M (option A)) : Prop :=
  forall st, fst (m st) <> Returned None.

(** The warning of the iteration [count] (lines 291-302). *)
Definition warning_message (self : LoopSafeOrchestrator) (count : Z) : Message :=
  system_message
    (warning_text count (max_iterations self)
                  (percentage count (max_iterations self))).


(** *** The parts of a pass *)

(** The pass below the limit after the provider's answer (lines 138-225):
    the rest of [request_branch]. *)
Definition handle_response (self : LoopSafeOrchestrator)
    (provider_name : string) (tools : list (string * Tool))
    (response : Response) : M (option string) :=
  hooks_emit_event (provider_response provider_name response) ;;
  let raw_content := raw_content_of response in
  let response_text := _content_to_string raw_content in
  let tool_calls := resp_tool_calls response in
  let assistant_msg :=
    match tool_calls with
    | [] =>
        mkMessage "assistant" (Some (_serialize_content raw_content)) None None
                  None
    | _ =>
        mkMessage "assistant" (Some (_serialize_content raw_content))
                  (Some tool_calls) None None
    end in
  context_add_message assistant_msg ;;
  match tool_calls with
  | [] =>
      hooks_emit_event
        (orchestrator_complete (iteration_count self) "success") ;;
      ret (Some response_text)
  | _ =>
      for_each tool_calls (dispatch_tool_call tools) ;;
      ret None
  end.

End WithCollaborators.

Arguments state W : clear implicits.
Arguments M W A : clear implicits.

End Orchestrator.

(** ** The earlier copy of the orchestrator ([orchestrator_loop_safe]) *)

Module Legacy.
Import Py Core Orchestrator.

Section WithCollaborators.
Context {W : Type} `{Collaborators W}.

(** [_execute_tool] of [orchestrator_loop_safe/orchestrator.py] (lines
    211-257); what it returns becomes the [content] of the tool message,
    and is not always a string. The tool call's [input] attribute is the
    [arguments] of the other copy. *)
Definition _execute_tool (tool_call : ToolCall) (tools : list (string * Tool))
  : M W output :=
  match tools_get tools (tc_name tool_call) with
  | None =>
      let error_msg := "Tool '" ++ tc_name tool_call ++ "' not found" in
      bind (logger ERROR error_msg) (fun _ =>
      bind (hooks_emit_event (tool_error (tc_name tool_call) error_msg)) (fun _ =>
      ret (OScalar (VStr ("Error: " ++ error_msg)))))
  | Some tool =>
      try_except
        (bind (tool_execute_call (tc_name tool_call) (tc_arguments tool_call))
           (fun result =>
         bind (hooks_emit_event
                 (tool_post (tc_name tool_call) (tc_arguments tool_call) result))
           (fun _ =>
         ret (match result with
              | RObject out => out
              | RPlain v => OScalar (VStr (str_scalar v))
              end))))
        (fun e =>
           let error_msg := "Tool execution failed: " ++ e in
           bind (logger ERROR ("Tool " ++ tc_name tool_call ++ " failed: " ++ e))
             (fun _ =>
           bind (hooks_emit_event (tool_error (tc_name tool_call) e)) (fun _ =>
           bind get_self (fun self =>
           if stop_on_error self then raise e
           else ret (OScalar (VStr error_msg))))))
  end.

End WithCollaborators.

End Legacy.

(** ** Concrete collaborators, used to run the model *)

Module Scenario.
Import Py Core Orchestrator.

Definition bash : Tool := mkTool "bash" "run a command" "{}".

Definition bash_call : ToolCall := mkToolCall "call_1" "bash" ∅.

(** A provider that asks for the same tool call on every response, no
    hooks, and a tool that prints one line. The world counts the calls to
    the provider. *)
Definition looping : Collaborators nat :=
  {| ctx_add_message := fun _ w => w;
     ctx_get_messages_for_request := fun w => ([], w);
     provider_complete := fun _ _ w =>
       (inr (mkResponse (Some (CStr "working")) [bash_call]), S w);
     hooks_emit := fun _ w => (None, w);
     tool_execute := fun _ _ w =>
       (inr (RObject (ODict {[ "stdout" := "a" ]})), w);
     percentage := float_percentage |}.

(** A provider whose every call fails. *)
Definition failing : Collaborators nat :=
  {| ctx_add_message := fun _ w => w;
     ctx_get_messages_for_request := fun w => ([], w);
     provider_complete := fun _ _ w => (inl "boom", S w);
     hooks_emit := fun _ w => (None, w);
     tool_execute := fun _ _ w => (inr (RPlain VNone), w);
     percentage := float_percentage |}.

(** A hook that denies every tool call, around the looping provider. *)
Definition denying : Collaborators nat :=
  {| ctx_add_message := fun _ w => w;
     ctx_get_messages_for_request := fun w => ([], w);
     provider_complete := fun _ _ w =>
       (inr (mkResponse (Some (CStr "working")) [bash_call]), S w);
     hooks_emit := fun e w =>
       match e with
       | tool_pre _ _ _ =>
           (Some (mkHookResult "deny" (Some "not allowed") None None), w)
       | _ => (None, w)
       end;
     tool_execute := fun _ _ w => (inr (RPlain (VStr "ran")), w);
     percentage := float_percentage |}.

(** A tool that returns a given result. *)
Definition returning (r : tool_result) : Collaborators nat :=
  {| ctx_add_message := fun _ w => w;
     ctx_get_messages_for_request := fun w => ([], w);
     provider_complete := fun _ _ w => (inr (mkResponse None []), S w);
     hooks_emit := fun _ w => (None, w);
     tool_execute := fun _ _ w => (inr r, w);
     percentage := float_percentage |}.

(** A tool whose [execute] raises, around the looping provider. *)
Definition breaking : Collaborators nat :=
  {| ctx_add_message := fun _ w => w;
     ctx_get_messages_for_request := fun w => ([], w);
     provider_complete := fun _ _ w =>
       (inr (mkResponse (Some (CStr "working")) [bash_call]), S w);
     hooks_emit := fun _ w => (None, w);
     tool_execute := fun _ _ w => (inl "tool broke", w);
     percentage := float_percentage |}.

(** A runtime for the detector: arguments are numbers, serialised in
    decimal, and a string hashes to its length. *)
Definition counting_runtime : Detector.Runtime nat :=
  {| Detector.json_dumps := fun n => Some (str_int (Z.of_nat n));
     Detector.str_value := fun _ => "?";
     Detector.hash := fun s => Z.of_nat (String.length s);
     Detector.empty_dict := 0%nat |}.

Definition post (tool : string) (args : nat)
  : string * Detector.EventData nat :=
  ("tool:post", Detector.mkData None (Some tool) (Some args)).

Definition default_detector : Detector.LoopDetectorHook :=
  Detector.__init__ (Detector.mkConfig None None None None).

Definition detector_with_window (recent : list string)
  : Detector.LoopDetectorHook :=
  Detector.mkHook 10 Detector.default_similarity_threshold "warn" false
                  recent false.

Definition orchestrator_with (max : Z) (warn : list Z) : LoopSafeOrchestrator :=
  __init__ (mkConfig (Some max) (Some warn) None None).

(** An instance with [stop_on_error] set. *)
Definition stopping_orchestrator : LoopSafeOrchestrator :=
  __init__ (mkConfig (Some 3%Z) (Some []) None (Some true)).

End Scenario.

(** * Properties of the loop detector *)

Section DetectorClaims.
Import Py Core Detector Scenario.

(** *** The classifier *)

Lemma filter_all_eq (x : string) (l : list string) :
  Forall (fun s => s = x) l -> filter (fun s => s = x) l = l.
Proof.
  induction 1 as [|y l Hy _ IH]; [reflexivity|].
  rewrite filter_cons. destruct (decide (y = x)); [by rewrite IH | contradiction].
Qed.

Lemma filter_length_eq (x : string) (l : list string) :
  length (filter (fun s => s = x) l) = length l -> Forall (fun s => s = x) l.
Proof.
  induction l as [|y l IH]; intros Hlen; [constructor|].
  rewrite filter_cons in Hlen. destruct (decide (y = x)) as [->|Hne].
  - simpl in Hlen. constructor; [reflexivity | apply IH; lia].
  - pose proof (length_filter (fun s => s = x) l) as Hle. simpl in Hlen. lia.
Qed.

Lemma detect_loop_similarity self older a b c d e :
  recent_calls self = (older ++ [a; b; c; d; e])%list ->
  ~ all_identical (recent_calls self) ->
  let avg := average4 (_calculate_similarity a b) (_calculate_similarity b c)
                      (_calculate_similarity c d) (_calculate_similarity d e) in
  _detect_loop self =
    if Qle_bool (similarity_threshold self) avg
    then (true, similarity_description (sig_name a) avg)
    else (false, "").
Proof.
  intros Hrec Hnot avg. unfold _detect_loop.
  assert (Hlen : length (recent_calls self) = (length older + 5)%nat)
    by (rewrite Hrec, length_app; reflexivity).
  destruct (Nat.ltb_spec (length (recent_calls self)) 5); [lia|].
  destruct (Nat.eqb_spec
              (length (filter (fun sig => sig = nth 0 (recent_calls self) "")
                              (recent_calls self)))
              (length (recent_calls self))) as [Heq|_].
  { exfalso. apply Hnot. apply filter_length_eq. exact Heq. }
  destruct (Nat.leb_spec 5 (length (recent_calls self))); [|lia].
  replace (length (recent_calls self) - 5)%nat with (length older) by lia.
  rewrite Hrec, drop_app_length. reflexivity.
Qed.

Lemma similarity_values s1 s2 :
  _calculate_similarity s1 s2 = 0%Q \/
  _calculate_similarity s1 s2 = (1 # 2)%Q \/
  _calculate_similarity s1 s2 = 1%Q.
Proof.
  unfold _calculate_similarity.
  destruct (split1 ":" s1) as [|n1 [|h1 [|? ?]]]; auto.
  destruct (split1 ":" s2) as [|n2 [|h2 [|? ?]]]; auto.
  destruct (negb (n1 =? n2)); auto. destruct (h1 =? h2); auto.
Qed.

Lemma similarity_parsed s1 s2 n1 h1 n2 h2 :
  split1 ":" s1 = [n1; h1] -> split1 ":" s2 = [n2; h2] ->
  _calculate_similarity s1 s2 =
    if decide (n1 = n2) then if decide (h1 = h2) then 1%Q else (1 # 2)%Q
    else 0%Q.
Proof.
  intros H1 H2. unfold _calculate_similarity. rewrite H1, H2.
  destruct (String.eqb_spec n1 n2), (decide (n1 = n2)); try contradiction; simpl;
    [|reflexivity].
  destruct (String.eqb_spec h1 h2), (decide (h1 = h2)); try contradiction;
    reflexivity.
Qed.

Lemma similarity_positive s1 s2 :
  (_calculate_similarity s1 s2 == 0 -> False)%Q ->
  exists n h1 h2, split1 ":" s1 = [n; h1] /\ split1 ":" s2 = [n; h2].
Proof.
  unfold _calculate_similarity. intros Hpos.
  destruct (split1 ":" s1) as [|n1 [|h1 [|? ?]]];
    try (exfalso; apply Hpos; reflexivity).
  destruct (split1 ":" s2) as [|n2 [|h2 [|? ?]]];
    try (exfalso; apply Hpos; reflexivity).
  destruct (String.eqb_spec n1 n2) as [->|]; simpl in Hpos;
    [| exfalso; apply Hpos; reflexivity].
  eauto.
Qed.

Lemma average4_eq s1 s2 s3 s4 :
  (average4 s1 s2 s3 s4 == (s1 + s2 + s3 + s4) / 4)%Q.
Proof. unfold average4, sumQ. simpl. field. Qed.

Lemma average_above_three_quarters s1 s2 s3 s4 thr :
  (s1 = 0 \/ s1 = 1 # 2 \/ s1 = 1)%Q -> (s2 = 0 \/ s2 = 1 # 2 \/ s2 = 1)%Q ->
  (s3 = 0 \/ s3 = 1 # 2 \/ s3 = 1)%Q -> (s4 = 0 \/ s4 = 1 # 2 \/ s4 = 1)%Q ->
  (3 # 4 < thr)%Q -> (thr <= average4 s1 s2 s3 s4)%Q ->
  (1 # 2 <= s1 /\ 1 # 2 <= s2 /\ 1 # 2 <= s3 /\ 1 # 2 <= s4)%Q.
Proof.
  intros H1 H2 H3 H4 Hthr Havg. rewrite average4_eq in Havg.
  destruct H1 as [->|[->| ->]], H2 as [->|[->| ->]], H3 as [->|[->| ->]],
    H4 as [->|[->| ->]].
  all: pose proof (Qlt_le_trans _ _ _ Hthr Havg) as Hc.
  all: try (exfalso; vm_compute in Hc; discriminate).
  all: repeat split; vm_compute; discriminate.
Qed.

Lemma detect_loop_short self :
  (length (recent_calls self) < 5)%nat -> _detect_loop self = (false, "").
Proof.
  intros Hlt. unfold _detect_loop.
  destruct (Nat.ltb_spec (length (recent_calls self)) 5); [reflexivity | lia].
Qed.

Lemma detect_loop_exact self :
  (5 <= length (recent_calls self))%nat ->
  all_identical (recent_calls self) ->
  _detect_loop self =
    (true, exact_repeat_description (sig_name (nth 0 (recent_calls self) ""))
             (length (recent_calls self))).
Proof.
  intros Hlen Hall. unfold _detect_loop.
  destruct (Nat.ltb_spec (length (recent_calls self)) 5); [lia|].
  rewrite (filter_all_eq _ _ Hall), Nat.eqb_refl. reflexivity.
Qed.

Lemma split1_cons ch (s : string) :
  split1 ":" (String ch s) =
    if Ascii.eqb ch ":" then [EmptyString; s]
    else match split1 ":" s with
         | [a] => [String ch a]
         | a :: more => String ch a :: more
         | [] => []
         end.
Proof. reflexivity. Qed.

Lemma split1_prefix (t rest : string) :
  contains_colon t = false -> split1 ":" (t ++ ":" ++ rest) = [t; rest].
Proof.
  induction t as [|ch t IH]; [reflexivity|].
  cbn [contains_colon]. intros Hno. apply orb_false_elim in Hno as [Hch Hno].
  change (String ch t ++ ":" ++ rest) with (String ch (t ++ ":" ++ rest)).
  rewrite split1_cons, Hch, (IH Hno). reflexivity.
Qed.

Lemma split1_with_colon (t rest : string) :
  exists n h, split1 ":" (t ++ ":" ++ rest) = [n; h].
Proof.
  induction t as [|ch t (n & h & IH)]; [simpl; eauto|].
  change (String ch t ++ ":" ++ rest) with (String ch (t ++ ":" ++ rest)).
  rewrite split1_cons, IH. destruct (Ascii.eqb ch ":"); eauto.
Qed.

Section DetectorCalls.
Context {Value : Type} `{Runtime Value}.

Lemma call_post_fields self data :
  handled self data ->
  let self' := fst (__call__ self "tool:post" data) in
  recent_calls self' =
    deque_append (detection_window self) (recent_calls self)
                 (_compute_signature data)
  /\ detection_window self' = detection_window self
  /\ apply_to_sub_sessions self' = apply_to_sub_sessions self
  /\ similarity_threshold self' = similarity_threshold self.
Proof.
  unfold handled, __call__. intros ->. simpl.
  destruct (_detect_loop _) as [is_loop description].
  destruct (is_loop && negb _); simpl; auto.
Qed.

Lemma call_warned self event data :
  already_warned self = true ->
  already_warned (fst (__call__ self event data)) = true
  /\ snd (__call__ self event data) = HookResult_continue.
Proof.
  intros Hw. unfold __call__.
  destruct (negb _ && truthy_opt _); [auto|].
  destruct (event =? "tool:post"); [|auto].
  destruct (_detect_loop _) as [is_loop description]. simpl.
  rewrite Hw, andb_false_r. simpl. auto.
Qed.

Lemma handle_detection_continue self description :
  action (_handle_detection self description) = "continue" ->
  _handle_detection self description = HookResult_continue.
Proof.
  unfold _handle_detection.
  destruct (action_on_detect self =? "deny"); [discriminate|].
  destruct (action_on_detect self =? "warn"); [discriminate | reflexivity].
Qed.

Lemma call_escalation_sets_flag self event data :
  snd (__call__ self event data) <> HookResult_continue ->
  already_warned (fst (__call__ self event data)) = true.
Proof.
  unfold __call__.
  destruct (negb _ && truthy_opt _); [intros []; reflexivity|].
  destruct (event =? "tool:post"); [|intros []; reflexivity].
  destruct (_detect_loop _) as [is_loop description].
  destruct (is_loop && negb _); simpl; [reflexivity | intros []; reflexivity].
Qed.

Lemma deliver_cons self event data rest :
  deliver self ((event, data) :: rest) =
    (fst (deliver (fst (__call__ self event data)) rest),
     snd (__call__ self event data)
       :: snd (deliver (fst (__call__ self event data)) rest)).
Proof.
  simpl. destruct (__call__ self event data) as [self' r]. simpl.
  destruct (deliver self' rest). reflexivity.
Qed.

Lemma deliver_warned self events :
  already_warned self = true ->
  already_warned (fst (deliver self events)) = true
  /\ Forall (fun r => r = HookResult_continue) (snd (deliver self events)).
Proof.
  revert self. induction events as [|[event data] rest IH]; intros self Hw.
  - simpl. auto.
  - rewrite deliver_cons. simpl.
    destruct (call_warned self event data Hw) as [Hw' Hr].
    destruct (IH _ Hw') as [Hflag Hrest]. split; [exact Hflag|].
    constructor; assumption.
Qed.

Lemma identical_posts_window config data :
  handled (__init__ config) data ->
  forall n self m,
    detection_window self = default 10%nat (cfg_detection_window config) ->
    apply_to_sub_sessions self = apply_to_sub_sessions (__init__ config) ->
    recent_calls self = replicate m (_compute_signature data) ->
    (m + n <= default 10%nat (cfg_detection_window config))%nat ->
    recent_calls (fst (deliver self (replicate n ("tool:post", data))))
    = replicate (m + n) (_compute_signature data).
Proof.
  intros Hh. induction n as [|n IH]; intros self m Hw Ha Hr Hn.
  - rewrite Nat.add_0_r. exact Hr.
  - cbn [replicate]. rewrite deliver_cons. cbn [fst].
    assert (Hh' : handled self data)
      by (unfold handled in *; rewrite Ha; exact Hh).
    destruct (call_post_fields self data Hh') as (Hrc & Hdw & Hap & _).
    cbv zeta in Hrc, Hdw, Hap.
    replace (m + S n)%nat with (S m + n)%nat by lia.
    apply IH; [congruence | congruence | | lia].
    rewrite Hrc, Hw, Hr. unfold deque_append. rewrite length_replicate.
    destruct (Nat.eqb_spec (default 10%nat (cfg_detection_window config)) 0);
      [lia|].
    destruct (Nat.leb_spec (default 10%nat (cfg_detection_window config)) m);
      [lia|].
    change (S m) with (1 + m)%nat. rewrite Nat.add_comm, replicate_add.
    reflexivity.
Qed.

Lemma five_identical_window config data :
  (5 <= default 10%nat (cfg_detection_window config))%nat ->
  handled (__init__ config) data ->
  recent_calls
    (fst (deliver (__init__ config) (replicate 5 ("tool:post", data))))
  = replicate 5 (_compute_signature data).
Proof.
  intros Hwin Hh.
  apply (identical_posts_window config data Hh 5 (__init__ config) 0);
    [reflexivity | reflexivity | reflexivity | exact Hwin].
Qed.

Lemma deque_append_Forall {A} (P : A -> Prop) maxlen dq x :
  Forall P dq -> P x -> Forall P (deque_append maxlen dq x).
Proof.
  intros Hdq Hx. unfold deque_append.
  destruct (Nat.eqb maxlen 0); [assumption|].
  destruct (Nat.leb maxlen (length dq)).
  - apply Forall_app. split; [|by constructor].
    destruct Hdq; [constructor | assumption].
  - apply Forall_app. split; [assumption | by constructor].
Qed.

(** Every signature that reaches the window has a tool name and a
    fingerprint. *)
Lemma call_window_parses self event data :
  Forall (fun s => exists n h, split1 ":" s = [n; h]) (recent_calls self) ->
  Forall (fun s => exists n h, split1 ":" s = [n; h])
         (recent_calls (fst (__call__ self event data))).
Proof.
  intros Hwin. unfold __call__.
  destruct (negb _ && truthy_opt _); [assumption|].
  destruct (event =? "tool:post"); [|assumption].
  destruct (_detect_loop _) as [is_loop description] eqn:Hd.
  assert (Hnew : Forall (fun s => exists n h, split1 ":" s = [n; h])
                   (deque_append (detection_window self) (recent_calls self)
                                 (_compute_signature data))).
  { apply deque_append_Forall; [assumption|]. apply split1_with_colon. }
  destruct (is_loop && negb _); exact Hnew.
Qed.

Lemma delivered_window_parses config events :
  Forall (fun s => exists n h, split1 ":" s = [n; h])
         (recent_calls (fst (deliver (__init__ config) events))).
Proof.
  assert (Hgen : forall self,
            Forall (fun s => exists n h, split1 ":" s = [n; h])
                   (recent_calls self) ->
            Forall (fun s => exists n h, split1 ":" s = [n; h])
                   (recent_calls (fst (deliver self events)))).
  { induction events as [|[event data] rest IH]; intros self Hwin;
      [exact Hwin|].
    rewrite deliver_cons. cbn [fst]. apply IH, call_window_parses, Hwin. }
  apply Hgen. constructor.
Qed.

End DetectorCalls.

(** *** The claims about the classifier and the detector *)

(** The exact-repeat verdict on signatures. A window of fewer than five
    signatures gives the no-pattern verdict. A window of [N >= 5]
    signatures that all equal the first gives a pattern verdict that says
    [N] calls with identical arguments and names the part of the signature
    before its first colon. Five handled tool-post notifications with the
    same tool and arguments, delivered to a fresh instance whose window
    holds at least five entries, give that verdict with [N = 5]; it carries
    the tool's own name when that name has no colon. *)
Theorem detect_loop_exact_repeat :
  (forall self,
     (length (recent_calls self) < 5)%nat -> _detect_loop self = (false, ""))
  /\ (forall self,
        (5 <= length (recent_calls self))%nat ->
        all_identical (recent_calls self) ->
        _detect_loop self =
          (true,
           "Same tool '" ++ sig_name (nth 0 (recent_calls self) "")
           ++ "' called " ++ str_int (Z.of_nat (length (recent_calls self)))
           ++ " times with identical arguments"))
  /\ (forall (Value : Type) (R : Runtime Value) config (data : EventData Value)
             (tool : string),
        (5 <= default 10%nat (cfg_detection_window config))%nat ->
        handled (__init__ config) data ->
        tool_name data = Some tool ->
        contains_colon tool = false ->
        _detect_loop
          (fst (deliver (__init__ config) (replicate 5 ("tool:post", data))))
        = (true,
           "Same tool '" ++ tool
           ++ "' called 5 times with identical arguments")).
Proof.
  split; [exact detect_loop_short|]. split; [exact detect_loop_exact|].
  intros Value R config data tool Hwin Hh Htool Hcolon.
  pose proof (five_identical_window config data Hwin Hh) as Hrec.
  rewrite detect_loop_exact.
  - rewrite Hrec. cbn [replicate nth length]. unfold sig_name, _compute_signature.
    rewrite Htool. cbn [default]. rewrite (split1_prefix _ _ Hcolon).
    reflexivity.
  - rewrite Hrec. simpl. lia.
  - rewrite Hrec. unfold all_identical. simpl. repeat constructor.
Qed.

Lemma detect_loop_exact_repeat_witness :
  _detect_loop (detector_with_window ["bash:1"; "bash:1"; "bash:1"; "bash:1";
                                      "bash:1"; "bash:1"])
  = (true, "Same tool 'bash' called 6 times with identical arguments").
Proof.
  apply (proj1 (proj2 detect_loop_exact_repeat)
           (detector_with_window ["bash:1"; "bash:1"; "bash:1"; "bash:1";
                                  "bash:1"; "bash:1"])).
  - simpl. lia.
  - unfold all_identical. simpl. repeat constructor.
Defined.

(** The similarity verdict on signatures. On a window of at least five
    signatures that are not all identical: two signatures, each cut at its
    first colon, score 1 when both parts agree, 1/2 when only the first
    parts agree and 0 when the first parts differ; the verdict is a pattern
    exactly when the average of the scores of the four adjacent pairs of
    the five most recent signatures is at least the threshold; and with a
    positive threshold (the default included) five signatures that
    alternate between two distinct first parts give the no-pattern
    verdict. *)
Theorem detect_loop_similarity_repeat self older a b c d e :
  recent_calls self = (older ++ [a; b; c; d; e])%list ->
  ~ all_identical (recent_calls self) ->
  (forall s1 s2 n1 h1 n2 h2,
     split1 ":" s1 = [n1; h1] -> split1 ":" s2 = [n2; h2] ->
     _calculate_similarity s1 s2 =
       if decide (n1 = n2)
       then if decide (h1 = h2) then 1%Q else (1 # 2)%Q
       else 0%Q)
  /\ (fst (_detect_loop self) = true <->
      (similarity_threshold self <=
       (_calculate_similarity a b + _calculate_similarity b c
        + _calculate_similarity c d + _calculate_similarity d e) / 4)%Q)
  /\ (forall nA nB h1 h2 h3 h4 h5,
        split1 ":" a = [nA; h1] -> split1 ":" b = [nB; h2] ->
        split1 ":" c = [nA; h3] -> split1 ":" d = [nB; h4] ->
        split1 ":" e = [nA; h5] -> nA <> nB ->
        (0 < similarity_threshold self)%Q ->
        _detect_loop self = (false, ""))
  /\ (0 < default_similarity_threshold)%Q.
Proof.
  intros Hrec Hnot. split; [exact similarity_parsed|].
  pose proof (detect_loop_similarity self older a b c d e Hrec Hnot) as Hd.
  cbv zeta in Hd. split; [|split; [|reflexivity]].
  - rewrite Hd, <- average4_eq.
    destruct (Qle_bool _ _) eqn:Hle; simpl.
    + apply Qle_bool_iff in Hle. tauto.
    + split; [discriminate|]. intros Hq. apply Qle_bool_iff in Hq. congruence.
  - intros nA nB h1 h2 h3 h4 h5 Ha Hb Hc Hdd He Hne Hpos. rewrite Hd.
    clear Hd.
    assert (Hne' : nB <> nA) by congruence.
    rewrite (similarity_parsed a b _ _ _ _ Ha Hb),
            (similarity_parsed b c _ _ _ _ Hb Hc),
            (similarity_parsed c d _ _ _ _ Hc Hdd),
            (similarity_parsed d e _ _ _ _ Hdd He).
    destruct (decide (nA = nB)); [contradiction|].
    destruct (decide (nB = nA)); [contradiction|].
    destruct (Qle_bool _ _) eqn:Hle; [|reflexivity].
    apply Qle_bool_iff in Hle. exfalso.
    apply (Qlt_irrefl 0). eapply Qlt_le_trans; [exact Hpos|].
    eapply Qle_trans; [exact Hle|]. vm_compute. discriminate.
Qed.

Lemma detect_loop_similarity_repeat_witness :
  _detect_loop (detector_with_window ["read:1"; "bash:2"; "read:1"; "bash:2";
                                      "read:1"])
  = (false, "").
Proof.
  refine (proj1 (proj2 (proj2
            (detect_loop_similarity_repeat
               (detector_with_window ["read:1"; "bash:2"; "read:1"; "bash:2";
                                      "read:1"])
               [] "read:1" "bash:2" "read:1" "bash:2" "read:1" _ _)))
            "read" "bash" "1" "2" "1" "2" "1" _ _ _ _ _ _ _);
    try reflexivity.
  - unfold all_identical. simpl. intros Hall.
    apply Forall_cons in Hall as [_ Hall].
    apply Forall_cons in Hall as [Hb _]. discriminate Hb.
  - discriminate.
Defined.

(** C6. Once [already_warned] is true it stays true, and every later call
    returns the no-op continue result, whatever the window holds; and a call
    that returns anything else leaves [already_warned] true. *)
Theorem already_warned_is_final
    (Value : Type) (R : Runtime Value) (self : LoopDetectorHook) :
  (already_warned self = true ->
   forall events : list (string * EventData Value),
     already_warned (fst (deliver self events)) = true
     /\ Forall (fun r => r = HookResult_continue) (snd (deliver self events)))
  /\ (forall event (data : EventData Value),
        snd (__call__ self event data) <> HookResult_continue ->
        already_warned (fst (__call__ self event data)) = true).
Proof.
  split.
  - intros Hw events. apply deliver_warned. exact Hw.
  - intros event data. apply call_escalation_sets_flag.
Qed.

Lemma already_warned_is_final_witness :
  let self :=
    fst (@deliver nat counting_runtime default_detector
           (replicate 5 (post "bash" 1))) in
  already_warned
    (fst (@deliver nat counting_runtime self (replicate 5 (post "bash" 1))))
  = true
  /\ Forall (fun r => r = HookResult_continue)
       (snd (@deliver nat counting_runtime self (replicate 5 (post "bash" 1)))).
Proof.
  intros self.
  exact (proj1 (already_warned_is_final nat counting_runtime self) eq_refl
           (replicate 5 (post "bash" 1))).
Defined.

(** With a threshold above 3/4, when the similarity check reports a
    pattern every adjacent pair of the five most recent signatures scored at
    least 1/2, the five signatures agree up to their first colon, and that
    common part is the name the verdict states. *)
Theorem similarity_pattern_shares_tool self older a b c d e :
  recent_calls self = (older ++ [a; b; c; d; e])%list ->
  ~ all_identical (recent_calls self) ->
  (3 # 4 < similarity_threshold self)%Q ->
  fst (_detect_loop self) = true ->
  (1 # 2 <= _calculate_similarity a b /\ 1 # 2 <= _calculate_similarity b c
   /\ 1 # 2 <= _calculate_similarity c d
   /\ 1 # 2 <= _calculate_similarity d e)%Q
  /\ exists name,
       Forall (fun s => exists h, split1 ":" s = [name; h]) [a; b; c; d; e]
       /\ Forall (fun s => sig_name s = name) [a; b; c; d; e]
       /\ snd (_detect_loop self) =
            "Repetitive pattern detected: tool '" ++ name ++ "' similarity="
            ++ format_2f
                 (average4 (_calculate_similarity a b)
                           (_calculate_similarity b c)
                           (_calculate_similarity c d)
                           (_calculate_similarity d e)).
Proof.
  intros Hrec Hnot Hthr Hloop.
  pose proof (detect_loop_similarity self older a b c d e Hrec Hnot) as Hd.
  cbv zeta in Hd. rewrite Hd in Hloop |- *.
  destruct (Qle_bool _ _) eqn:Hle; [|discriminate Hloop].
  apply Qle_bool_iff in Hle.
  destruct (average_above_three_quarters _ _ _ _ _
              (similarity_values a b) (similarity_values b c)
              (similarity_values c d) (similarity_values d e) Hthr Hle)
    as (Hab & Hbc & Hcd & Hde).
  split; [auto|].
  assert (Hpos : forall x y, (1 # 2 <= _calculate_similarity x y)%Q ->
            exists n h1 h2, split1 ":" x = [n; h1] /\ split1 ":" y = [n; h2]).
  { intros x y Hxy. apply similarity_positive. intros Hz.
    rewrite Hz in Hxy. vm_compute in Hxy. apply Hxy. reflexivity. }
  destruct (Hpos _ _ Hab) as (n & ha & hb & Ha & Hb).
  destruct (Hpos _ _ Hbc) as (n2 & hb' & hc & Hb' & Hc).
  destruct (Hpos _ _ Hcd) as (n3 & hc' & hd & Hc' & Hdd).
  destruct (Hpos _ _ Hde) as (n4 & hd' & he & Hd' & He).
  assert (n2 = n) by congruence. subst n2.
  assert (n3 = n) by congruence. subst n3.
  assert (n4 = n) by congruence. subst n4.
  exists n. split; [|split].
  - repeat constructor; eauto.
  - repeat constructor; unfold sig_name;
      [rewrite Ha | rewrite Hb | rewrite Hc | rewrite Hdd | rewrite He];
      reflexivity.
  - simpl. unfold sig_name. rewrite Ha. reflexivity.
Qed.

Lemma similarity_pattern_shares_tool_witness :
  exists name,
    Forall (fun s => exists h, split1 ":" s = [name; h])
           ["bash:2"; "bash:2"; "bash:2"; "bash:2"; "bash:3"]
    /\ Forall (fun s => sig_name s = name)
              ["bash:2"; "bash:2"; "bash:2"; "bash:2"; "bash:3"]
    /\ snd (_detect_loop
              (detector_with_window
                 ["bash:1"; "bash:2"; "bash:2"; "bash:2"; "bash:2"; "bash:3"]))
       = "Repetitive pattern detected: tool '" ++ name ++ "' similarity="
         ++ format_2f (average4 1 1 1 (1 # 2)).
Proof.
  refine (proj2 (similarity_pattern_shares_tool
            (detector_with_window
               ["bash:1"; "bash:2"; "bash:2"; "bash:2"; "bash:2"; "bash:3"])
            ["bash:1"] "bash:2" "bash:2" "bash:2" "bash:2" "bash:3" _ _ _ _));
    try reflexivity.
  unfold all_identical. simpl. intros Hall.
  apply Forall_cons in Hall as [_ Hall].
  apply Forall_cons in Hall as [Hb _]. discriminate Hb.
Defined.

(** *** Tool names with a colon *)

(** C4. The verdict of an exact repeat does not always name the tool.
    Five tool-post notifications for the tool [mcp:read] with the same
    arguments, delivered to a fresh default instance, fill the window with
    five copies of one signature; the verdict says five calls with
    identical arguments, and names the tool [mcp], which is the tool's name
    up to its first colon. The fifth call returns the reminder with that
    description. For the tool [bash] the same events name [bash]. *)
Theorem exact_repeat_names_colon_prefix :
  let events := replicate 5 (post "mcp:read" 1) in
  let delivered := @deliver nat counting_runtime default_detector events in
  recent_calls (fst delivered) = replicate 5 "mcp:read:1"
  /\ _detect_loop (fst delivered)
     = (true, "Same tool 'mcp' called 5 times with identical arguments")
  /\ nth 4 (snd delivered) HookResult_continue
     = mkHookResult "inject_context" None
         (Some (detection_message
                  "Same tool 'mcp' called 5 times with identical arguments"))
         (Some "system")
  /\ _detect_loop
       (fst (@deliver nat counting_runtime default_detector
               (replicate 5 (post "bash" 1))))
     = (true, "Same tool 'bash' called 5 times with identical arguments").
Proof. repeat split; vm_compute; reflexivity. Qed.

(** C5. Two different tool names do not always score 0. The signatures
    of a call of [mcp:read] and of a call of [mcp:write] score 1/2, the
    score of one tool called with different arguments, because each is cut
    at its first colon. With a threshold of 3/10, five tool-post
    notifications alternating between these two tools are reported as a
    pattern of the tool [mcp] with similarity 0.50, where notifications
    alternating between [read] and [write] are not reported. *)
Theorem different_tools_with_common_prefix_score_half :
  let read := @_compute_signature nat counting_runtime (snd (post "mcp:read" 1)) in
  let write := @_compute_signature nat counting_runtime (snd (post "mcp:write" 1)) in
  let lenient := __init__ (mkConfig None (Some (3 # 10)) None None) in
  let alternating a b := [post a 1; post b 1; post a 1; post b 1; post a 1] in
  _calculate_similarity read write = (1 # 2)%Q
  /\ _calculate_similarity write read = (1 # 2)%Q
  /\ _detect_loop
       (fst (@deliver nat counting_runtime lenient
               (alternating "mcp:read" "mcp:write")))
     = (true, "Repetitive pattern detected: tool 'mcp' similarity=0.50")
  /\ _detect_loop
       (fst (@deliver nat counting_runtime lenient (alternating "read" "write")))
     = (false, "").
Proof. repeat split; vm_compute; reflexivity. Qed.

(** C10. A similarity verdict does not always name a tool that the
    recent calls share. Four tool-post notifications for [mcp:read]
    followed by one for [mcp:write], delivered to a fresh default instance
    (threshold 0.85, above 3/4), are reported as a pattern of the tool
    [mcp] with similarity 0.88: the five calls are not calls of one tool,
    and none of them is a call of [mcp]. *)
Theorem similarity_verdict_names_uncalled_tool :
  let events :=
    [post "mcp:read" 1; post "mcp:read" 1; post "mcp:read" 1;
     post "mcp:read" 1; post "mcp:write" 1] in
  let delivered := @deliver nat counting_runtime default_detector events in
  (3 # 4 < similarity_threshold default_detector)%Q
  /\ _detect_loop (fst delivered)
     = (true, "Repetitive pattern detected: tool 'mcp' similarity=0.88")
  /\ map (fun ev => tool_name (snd ev)) events
     = [Some "mcp:read"; Some "mcp:read"; Some "mcp:read"; Some "mcp:read";
        Some "mcp:write"]
  /\ Forall (fun ev => tool_name (snd ev) <> Some "mcp") events.
Proof.
  repeat split; try (vm_compute; reflexivity).
  repeat constructor; discriminate.
Qed.

End DetectorClaims.

(** * Properties of the orchestrator *)

Section OrchestratorClaims.
Import Py Core Orchestrator Scenario.

Section OrchestratorFacts.
Context {W : Type} `{Collaborators W}.

(** The summaries, read at the world of this section. *)
Local Abbreviation quiet := (Orchestrator.quiet (W:=W)) (only parsing).
Local Abbreviation quiet1 := (Orchestrator.quiet1 (W:=W)) (only parsing).
Local Abbreviation final := (Orchestrator.final (W:=W)) (only parsing).

Lemma quiet_ret {A} p (a : A) : quiet p (ret a).
Proof. intros st. split; [reflexivity|]. exists []. by rewrite app_nil_r. Qed.

Lemma quiet_raise {A} p e : quiet p (@raise W A e).
Proof. intros st. split; [reflexivity|]. exists []. by rewrite app_nil_r. Qed.

Lemma quiet_bind {A B} p (m : M W A) (k : A -> M W B) :
  quiet p m -> (forall a, quiet p (k a)) -> quiet p (bind m k).
Proof.
  intros Hm Hk st. unfold bind.
  destruct (Hm st) as (Hs & added & Ht & Hp).
  destruct (m st) as [[a|e] st1]; simpl in *.
  - destruct (Hk a st1) as (Hs2 & added2 & Ht2 & Hp2).
    split; [congruence|]. exists (added ++ added2)%list.
    rewrite Ht2, Ht, <- app_assoc, forallb_app, Hp, Hp2. auto.
  - split; [assumption|]. eauto.
Qed.

Lemma quiet_try {A} p (m : M W A) (h : exn -> M W A) :
  quiet p m -> (forall e, quiet p (h e)) -> quiet p (try_except m h).
Proof.
  intros Hm Hh st. unfold try_except.
  destruct (Hm st) as (Hs & added & Ht & Hp).
  destruct (m st) as [[a|e] st1]; simpl in *.
  - split; [assumption|]. eauto.
  - destruct (Hh e st1) as (Hs2 & added2 & Ht2 & Hp2).
    split; [congruence|]. exists (added ++ added2)%list.
    rewrite Ht2, Ht, <- app_assoc, forallb_app, Hp, Hp2. auto.
Qed.

Lemma quiet_one {A} p (m : M W A) (e : effect) :
  p e = true ->
  (forall st, self (snd (m st)) = self st
              /\ trace (snd (m st)) = (trace st ++ [e])%list) ->
  quiet p m.
Proof.
  intros Hp Hm st. destruct (Hm st) as [Hs Ht]. split; [assumption|].
  exists [e]. simpl. rewrite Hp. auto.
Qed.

Lemma quiet_get_self p : quiet p get_self.
Proof. intros st. split; [reflexivity|]. exists []. by rewrite app_nil_r. Qed.

Lemma quiet_add_message p m :
  p (AddMessage m) = true -> quiet p (context_add_message m).
Proof. intros Hp. apply (quiet_one p _ _ Hp). intros st. auto. Qed.

Lemma quiet_get_messages p :
  p GetMessages = true -> quiet p context_get_messages_for_request.
Proof.
  intros Hp. apply (quiet_one p _ _ Hp). intros st.
  unfold context_get_messages_for_request.
  destruct (ctx_get_messages_for_request (world st)). auto.
Qed.

Lemma quiet_emit p e : p (Emit e) = true -> quiet p (hooks_emit_event e).
Proof.
  intros Hp. apply (quiet_one p _ _ Hp). intros st. unfold hooks_emit_event.
  destruct (hooks_emit e (world st)). auto.
Qed.

Lemma quiet_tool_execute p name args :
  p (Execute name args) = true -> quiet p (tool_execute_call name args).
Proof.
  intros Hp. apply (quiet_one p _ _ Hp). intros st. unfold tool_execute_call.
  destruct (tool_execute name args (world st)) as [[e|r] w]; auto.
Qed.

Lemma quiet_complete p name req :
  p (Complete name req) = true -> quiet p (provider_complete_request name req).
Proof.
  intros Hp. apply (quiet_one p _ _ Hp). intros st.
  unfold provider_complete_request.
  destruct (provider_complete name req (world st)) as [[e|r] w]; auto.
Qed.

Lemma quiet_logger p lvl text :
  p (Log lvl text) = true -> quiet p (logger lvl text).
Proof. intros Hp. apply (quiet_one p _ _ Hp). intros st. auto. Qed.

Lemma execute_tool_quiet p tool_call tools :
  (forall e, p (Emit e) = true) ->
  (forall n a, p (Execute n a) = true) ->
  (forall s, p (Log ERROR s) = true) ->
  quiet p (_execute_tool tool_call tools).
Proof.
  intros He Hx Hl. unfold _execute_tool.
  destruct (tools_get tools (tc_name tool_call)).
  - apply quiet_try.
    + apply quiet_bind; [apply quiet_tool_execute, Hx|]. intros r.
      apply quiet_bind; [apply quiet_emit, He|]. intros _. apply quiet_ret.
    + intros e. apply quiet_bind; [apply quiet_logger, Hl|]. intros _.
      apply quiet_bind; [apply quiet_emit, He|]. intros _.
      apply quiet_bind; [apply quiet_get_self|]. intros s.
      destruct (stop_on_error s); [apply quiet_raise | apply quiet_ret].
  - apply quiet_bind; [apply quiet_logger, Hl|]. intros _.
    apply quiet_bind; [apply quiet_emit, He|]. intros _. apply quiet_ret.
Qed.

Lemma dispatch_quiet tools tool_call :
  quiet dispatch_effect (dispatch_tool_call tools tool_call).
Proof.
  unfold dispatch_tool_call.
  apply quiet_bind; [apply quiet_emit; reflexivity|]. intros pre.
  apply quiet_bind.
  - destruct pre as [pre|]; [|apply execute_tool_quiet; reflexivity].
    destruct (action pre =? "deny").
    { apply quiet_bind; [apply quiet_logger; reflexivity|]. intros _.
      apply quiet_ret. }
    destruct (action pre =? "inject_context");
      [|apply execute_tool_quiet; reflexivity].
    apply quiet_bind; [apply quiet_add_message; reflexivity|]. intros _.
    apply execute_tool_quiet; reflexivity.
  - intros text. apply quiet_add_message. reflexivity.
Qed.

Lemma for_each_quiet {A} p (xs : list A) (body : A -> M W unit) :
  (forall x, quiet p (body x)) -> quiet p (for_each xs body).
Proof.
  intros Hb. induction xs as [|x xs IH]; simpl; [apply quiet_ret|].
  apply quiet_bind; [apply Hb | intros _; exact IH].
Qed.

Lemma provider_calls_app t1 t2 :
  provider_calls (t1 ++ t2) = (provider_calls t1 + provider_calls t2)%nat.
Proof. unfold provider_calls. by rewrite List.filter_app, length_app. Qed.

Lemma warning_logs_app t1 t2 :
  warning_logs (t1 ++ t2) = (warning_logs t1 ++ warning_logs t2)%list.
Proof. unfold warning_logs. by rewrite List.filter_app. Qed.

Lemma tool_executions_app t1 t2 :
  tool_executions (t1 ++ t2) = (tool_executions t1 ++ tool_executions t2)%list.
Proof. unfold tool_executions. by rewrite List.filter_app. Qed.

Lemma dispatch_effects_summary added :
  forallb dispatch_effect added = true ->
  warning_logs added = [] /\ provider_calls added = 0%nat.
Proof.
  unfold warning_logs, provider_calls, dispatch_effect.
  induction added as [|e added IH]; simpl; [auto|].
  intros Hall. apply andb_prop in Hall as [He Hall].
  apply andb_prop in He as [Hc Hw].
  apply negb_true_iff in Hc. apply negb_true_iff in Hw.
  rewrite Hc, Hw. auto.
Qed.

Lemma quiet_quiet1 {A} (m : M W A) : quiet dispatch_effect m -> quiet1 m.
Proof.
  intros Hm st. destruct (Hm st) as (Hs & added & Ht & Hp).
  destruct (dispatch_effects_summary _ Hp) as [Hw Hc].
  split; [assumption|]. exists added. rewrite Hw, Hc. auto.
Qed.

Lemma quiet1_bind_l {A B} (m : M W A) (k : A -> M W B) :
  quiet dispatch_effect m -> (forall a, quiet1 (k a)) -> quiet1 (bind m k).
Proof.
  intros Hm Hk st. unfold bind.
  destruct (Hm st) as (Hs & added & Ht & Hp).
  destruct (dispatch_effects_summary _ Hp) as [Hw Hc].
  destruct (m st) as [[a|e] st1]; simpl in *.
  - destruct (Hk a st1) as (Hs2 & added2 & Ht2 & Hw2 & Hc2).
    split; [congruence|]. exists (added ++ added2)%list.
    rewrite Ht2, Ht, <- app_assoc, warning_logs_app, provider_calls_app,
      Hw, Hw2, Hc. auto.
  - split; [assumption|]. exists added. rewrite Hw, Hc. auto.
Qed.

Lemma quiet1_bind_r {A B} (m : M W A) (k : A -> M W B) :
  quiet1 m -> (forall a, quiet dispatch_effect (k a)) -> quiet1 (bind m k).
Proof.
  intros Hm Hk st. unfold bind.
  destruct (Hm st) as (Hs & added & Ht & Hw & Hc).
  destruct (m st) as [[a|e] st1]; simpl in *.
  - destruct (Hk a st1) as (Hs2 & added2 & Ht2 & Hp2).
    destruct (dispatch_effects_summary _ Hp2) as [Hw2 Hc2].
    split; [congruence|]. exists (added ++ added2)%list.
    rewrite Ht2, Ht, <- app_assoc, warning_logs_app, provider_calls_app,
      Hw, Hw2, Hc2. split; [reflexivity|]. split; [reflexivity | lia].
  - split; [assumption|]. eauto.
Qed.

Lemma quiet1_try {A} (m : M W A) (h : exn -> M W A) :
  quiet1 m -> (forall e, quiet dispatch_effect (h e)) ->
  quiet1 (try_except m h).
Proof.
  intros Hm Hh st. unfold try_except.
  destruct (Hm st) as (Hs & added & Ht & Hw & Hc).
  destruct (m st) as [[a|e] st1]; simpl in *.
  - split; [assumption|]. eauto.
  - destruct (Hh e st1) as (Hs2 & added2 & Ht2 & Hp2).
    destruct (dispatch_effects_summary _ Hp2) as [Hw2 Hc2].
    split; [congruence|]. exists (added ++ added2)%list.
    rewrite Ht2, Ht, <- app_assoc, warning_logs_app, provider_calls_app,
      Hw, Hw2, Hc2. split; [reflexivity|]. split; [reflexivity | lia].
Qed.

Lemma quiet1_complete name req : quiet1 (provider_complete_request name req).
Proof.
  intros st. unfold provider_complete_request.
  destruct (provider_complete name req (world st)) as [[e|r] w]; simpl;
    (split; [reflexivity|]); exists [Complete name req]; auto.
Qed.

Ltac quiet_step :=
  first
    [ apply quiet_ret
    | apply quiet_raise
    | apply quiet_get_self
    | apply quiet_logger; reflexivity
    | apply quiet_emit; reflexivity
    | apply quiet_add_message; reflexivity
    | apply quiet_get_messages; reflexivity
    | apply quiet_bind; [|intros ?] ].

Lemma handle_limit_reached_quiet1 provider tools_list :
  quiet1 (_handle_limit_reached provider tools_list).
Proof.
  unfold _handle_limit_reached.
  apply quiet1_bind_l; [quiet_step|]. intros s.
  apply quiet1_bind_l; [quiet_step|]. intros _.
  apply quiet1_bind_l; [quiet_step|]. intros msgs.
  apply quiet1_bind_l; [quiet_step|]. intros _.
  apply quiet1_try.
  - apply quiet1_bind_r; [apply quiet1_complete|]. intros response.
    repeat quiet_step.
  - intros e. repeat quiet_step.
Qed.

Lemma limit_branch_quiet1 s provider tools_list :
  quiet1 (limit_branch s provider tools_list).
Proof.
  unfold limit_branch.
  apply quiet1_bind_l; [quiet_step|]. intros _.
  apply quiet1_bind_l; [quiet_step|]. intros _.
  apply quiet1_bind_r; [apply handle_limit_reached_quiet1|].
  intros text. quiet_step.
Qed.

Lemma request_branch_quiet1 s provider tools tools_list :
  quiet1 (request_branch s provider tools tools_list).
Proof.
  unfold request_branch.
  apply quiet1_bind_l; [quiet_step|]. intros msgs.
  apply quiet1_bind_l; [quiet_step|]. intros _.
  apply quiet1_bind_r.
  - apply quiet1_try; [apply quiet1_complete|]. intros e. repeat quiet_step.
  - intros response.
    apply quiet_bind; [quiet_step|]. intros _.
    apply quiet_bind; [quiet_step|]. intros _.
    destruct (resp_tool_calls response); [repeat quiet_step|].
    apply quiet_bind; [|intros _; quiet_step].
    apply for_each_quiet. intros x. apply dispatch_quiet.
Qed.

Lemma final_bind {A B} (m : M W A) (k : A -> M W (option B)) :
  (forall a, final (k a)) -> final (bind m k).
Proof.
  intros Hk st. unfold bind. destruct (m st) as [[a|e] st1]; [apply Hk|].
  discriminate.
Qed.

Lemma limit_branch_final s provider tools_list :
  final (limit_branch s provider tools_list).
Proof.
  unfold limit_branch. repeat (apply final_bind; intros ?).
  intros st. discriminate.
Qed.

Lemma inject_warning_spec st :
  _inject_warning st =
    if (max_iterations (self st) =? 0)%Z then (Raised "division by zero", st)
    else
      let m :=
        system_message
          (warning_text (iteration_count (self st)) (max_iterations (self st))
             (percentage (iteration_count (self st))
                         (max_iterations (self st)))) in
      (Returned tt,
       mkState (self st) (ctx_add_message m (world st))
         (trace st ++ [AddMessage m; warning_log (iteration_count (self st))])).
Proof.
  unfold _inject_warning, bind, get_self. simpl.
  destruct (max_iterations (self st) =? 0)%Z; [reflexivity|].
  unfold context_add_message, logger, warning_log. simpl.
  rewrite <- app_assoc. reflexivity.
Qed.

Lemma branch_step s provider tools tools_list st :
  let m :=
    if (max_iterations s <=? iteration_count s)%Z
    then limit_branch s provider tools_list
    else request_branch s provider tools tools_list in
  self (snd (m st)) = self st
  /\ (exists added,
        trace (snd (m st)) = (trace st ++ added)%list
        /\ warning_logs added = []
        /\ (provider_calls added <= 1)%nat)
  /\ (fst (m st) = Returned None -> (iteration_count s < max_iterations s)%Z).
Proof.
  intros m. subst m. destruct (Z.leb_spec (max_iterations s) (iteration_count s)).
  - destruct (limit_branch_quiet1 s provider tools_list st) as [Hs Ha].
    split; [assumption|]. split; [assumption|].
    intros Hn. destruct (limit_branch_final s provider tools_list st Hn).
  - destruct (request_branch_quiet1 s provider tools tools_list st) as [Hs Ha].
    auto.
Qed.

Lemma warning_log_is_warning c : is_warning_log (warning_log c) = true.
Proof. reflexivity. Qed.

Lemma injected_warning_summary m c :
  warning_logs [AddMessage m; warning_log c] = [warning_log c]
  /\ provider_calls [AddMessage m; warning_log c] = 0%nat.
Proof.
  unfold warning_logs, provider_calls. cbn [List.filter is_warning_log].
  rewrite warning_log_is_warning. auto.
Qed.

Lemma loop_body_eq provider tools tools_list st :
  loop_body provider tools tools_list st =
    let s := set_iteration_count (self st) (iteration_count (self st) + 1) in
    bind (if bool_decide (iteration_count s ∈ warn_at s)
          then _inject_warning else ret tt)
         (fun _ =>
            if (max_iterations s <=? iteration_count s)%Z
            then limit_branch s provider tools_list
            else request_branch s provider tools tools_list)
         (mkState s (world st) (trace st)).
Proof. reflexivity. Qed.

Lemma loop_body_step provider tools tools_list st :
  let c := (iteration_count (self st) + 1)%Z in
  let r := loop_body provider tools tools_list st in
  self (snd r) = set_iteration_count (self st) c
  /\ (exists added,
        trace (snd r) = (trace st ++ added)%list
        /\ (provider_calls added <= 1)%nat
        /\ warning_logs added =
             if bool_decide (c ∈ warn_at (self st))
                && negb (max_iterations (self st) =? 0)%Z
             then [warning_log c] else [])
  /\ (fst r = Returned None -> (c < max_iterations (self st))%Z).
Proof.
  intros c r. subst r. rewrite loop_body_eq. cbv zeta.
  fold c. set (s := set_iteration_count (self st) c).
  set (st1 := mkState s (world st) (trace st)).
  change (iteration_count s) with c. change (warn_at s) with (warn_at (self st)).
  change (max_iterations s) with (max_iterations (self st)).
  pose proof (branch_step s provider tools tools_list) as Hbranch.
  cbv zeta in Hbranch.
  change (iteration_count s) with c in Hbranch.
  change (max_iterations s) with (max_iterations (self st)) in Hbranch.
  unfold bind.
  destruct (bool_decide (c ∈ warn_at (self st))); cbn [andb].
  - rewrite inject_warning_spec. cbn [self st1].
    change (max_iterations s) with (max_iterations (self st)).
    destruct (max_iterations (self st) =? 0)%Z eqn:Hmax; cbn [negb].
    + cbn [fst snd self trace st1]. split; [reflexivity|].
      split; [|discriminate]. exists []. rewrite app_nil_r. auto.
    + cbv zeta. cbn [world trace st1].
      match goal with
      | |- context [(if (_ <=? _)%Z then _ else _) ?st2] => set (st2' := st2)
      end.
      destruct (Hbranch st2') as (Hs & (added & Ht & Hw & Hc) & Hn).
      split; [exact Hs|]. split; [|exact Hn].
      eexists. rewrite Ht. cbn [trace st2']. rewrite <- app_assoc.
      split; [reflexivity|].
      rewrite provider_calls_app, warning_logs_app, Hw.
      match goal with
      | |- context [AddMessage ?m] =>
          destruct (injected_warning_summary m (iteration_count s))
            as [Hwl Hpc]
      end.
      rewrite Hwl, Hpc. split; [lia | reflexivity].
  - cbn [ret].
    destruct (Hbranch st1) as (Hs & (added & Ht & Hw & Hc) & Hn).
    split; [exact Hs|]. split; [|exact Hn].
    exists added. auto.
Qed.

Lemma while_true_terminates provider tools tools_list :
  forall fuel st,
    (Z.to_nat (max_iterations (self st) - iteration_count (self st)) <= fuel)%nat ->
    (1 <= fuel)%nat ->
    exists r,
      while_true fuel (loop_body provider tools tools_list) st = Some r.
Proof.
  induction fuel as [|fuel IH]; intros st Hfuel Hpos; [lia|].
  cbn [while_true].
  destruct (loop_body_step provider tools tools_list st) as (Hs & _ & Hn).
  cbv zeta in Hs, Hn.
  destruct (loop_body provider tools tools_list st) as [[[text|]|e] st1];
    simpl in *; eauto.
  specialize (Hn eq_refl). apply IH; [rewrite Hs; simpl; lia | lia].
Qed.

Lemma offsets_step (c0 : Z) (n : nat) :
  map (fun i => (c0 + Z.of_nat i)%Z) (seq 1 (S n)) =
  (c0 + 1)%Z :: map (fun i => (c0 + 1 + Z.of_nat i)%Z) (seq 1 n).
Proof.
  cbn [seq map]. f_equal. rewrite <- seq_shift, map_map.
  apply map_ext. intros i. lia.
Qed.

Lemma while_true_summary provider tools tools_list :
  forall fuel st out st',
    while_true fuel (loop_body provider tools tools_list) st = Some (out, st') ->
    max_iterations (self st) <> 0%Z ->
    let c0 := iteration_count (self st) in
    let k := iteration_count (self st') in
    max_iterations (self st') = max_iterations (self st)
    /\ warn_at (self st') = warn_at (self st)
    /\ (c0 < k)%Z
    /\ (k <= Z.max (c0 + 1) (max_iterations (self st)))%Z
    /\ exists added,
         trace st' = (trace st ++ added)%list
         /\ (provider_calls added <= Z.to_nat (k - c0))%nat
         /\ warning_logs added =
              map warning_log
                (List.filter (fun c => bool_decide (c ∈ warn_at (self st)))
                   (map (fun i => (c0 + Z.of_nat i)%Z)
                        (seq 1 (Z.to_nat (k - c0))))).
Proof.
  induction fuel as [|fuel IH]; intros st out st' Hrun Hmax; [discriminate|].
  cbn [while_true] in Hrun.
  destruct (loop_body_step provider tools tools_list st)
    as (Hs & (added & Ht & Hc & Hw) & Hn).
  cbv zeta in Hs, Ht, Hw, Hn.
  apply Z.eqb_neq in Hmax as Hmaxb. rewrite Hmaxb, andb_true_r in Hw.
  assert (Hone : forall st1 : state W,
            self st1 = set_iteration_count (self st) (iteration_count (self st) + 1) ->
            trace st1 = (trace st ++ added)%list ->
            let c0 := iteration_count (self st) in
            let k := iteration_count (self st1) in
            max_iterations (self st1) = max_iterations (self st)
            /\ warn_at (self st1) = warn_at (self st)
            /\ (c0 < k)%Z
            /\ (k <= Z.max (c0 + 1) (max_iterations (self st)))%Z
            /\ exists added,
                 trace st1 = (trace st ++ added)%list
                 /\ (provider_calls added <= Z.to_nat (k - c0))%nat
                 /\ warning_logs added =
                      map warning_log
                        (List.filter (fun c => bool_decide (c ∈ warn_at (self st)))
                           (map (fun i => (c0 + Z.of_nat i)%Z)
                                (seq 1 (Z.to_nat (k - c0)))))).
  { intros st1 Hs1 Ht1. cbv zeta. rewrite Hs1. cbn [set_iteration_count
      max_iterations warn_at iteration_count].
    repeat split; try lia. exists added. split; [exact Ht1|].
    replace (iteration_count (self st) + 1 - iteration_count (self st))%Z
      with 1%Z by lia.
    split; [simpl; lia|]. rewrite Hw. simpl.
    destruct (bool_decide _); reflexivity. }
  destruct (loop_body provider tools tools_list st) as [[[text|]|e] st1];
    cbn [fst snd] in *.
  - inversion Hrun; subst. apply Hone; assumption.
  - specialize (Hn eq_refl).
    assert (Hmax1 : max_iterations (self st1) <> 0%Z) by (rewrite Hs; exact Hmax).
    destruct (IH st1 out st' Hrun Hmax1)
      as (Hm' & Hwa' & Hlt & Hle & added' & Ht' & Hc' & Hw').
    rewrite Hs in Hm', Hwa', Hlt, Hle, Hc', Hw'.
    cbn [set_iteration_count max_iterations warn_at iteration_count]
      in Hm', Hwa', Hlt, Hle, Hc', Hw'.
    cbv zeta. repeat split; try assumption; try lia.
    exists (added ++ added')%list. rewrite Ht', Ht, <- app_assoc.
    split; [reflexivity|].
    rewrite provider_calls_app, warning_logs_app, Hw, Hw'.
    replace (Z.to_nat (iteration_count (self st') - iteration_count (self st)))
      with (S (Z.to_nat (iteration_count (self st')
                         - (iteration_count (self st) + 1)))) by lia.
    split; [lia|]. rewrite offsets_step. cbn [List.filter].
    destruct (bool_decide _); reflexivity.
  - inversion Hrun; subst. apply Hone; assumption.
Qed.

Lemma prologue_spec orch w prompt providers tools :
  (exists e,
     execute_prologue prompt providers tools (mkState orch w [])
     = (Raised e, mkState orch w []))
  \/ (exists provider,
        let m := mkMessage "user" (Some (CStr prompt)) None None None in
        execute_prologue prompt providers tools (mkState orch w [])
        = (Returned (provider, build_tools_list tools),
           mkState (set_iteration_count orch 0) (ctx_add_message m w)
                   [AddMessage m])).
Proof.
  unfold execute_prologue, select_provider, bind, get_self. cbn [self].
  destruct (truthy_opt (default_provider_name orch)); cbn [ret].
  - destruct (bool_decide (default "" (default_provider_name orch) ∈ providers));
      [right | left]; eexists; reflexivity.
  - destruct providers as [|first rest]; cbn [ret raise]; [eauto|].
    destruct (bool_decide (first ∈ first :: rest));
      [right | left]; eexists; reflexivity.
Qed.



(** *** The claims about the orchestrator *)

(** C1. With [max_iterations = N > 0], whatever the provider, the hooks
    and the tools do, [execute] comes back within [N] passes of its loop and
    has made at most [N] calls to [provider.complete], the wrap-up call
    included. *)
Theorem execute_provider_calls_bounded
    orch w prompt providers tools (fuel : nat) :
  (0 < max_iterations orch)%Z ->
  (Z.to_nat (max_iterations orch) <= fuel)%nat ->
  exists out st,
    execute fuel orch w prompt providers tools = Some (out, st)
    /\ (Z.of_nat (provider_calls (trace st)) <= max_iterations orch)%Z.
Proof.
  intros Hmax Hfuel. unfold execute.
  destruct (prologue_spec orch w prompt providers tools)
    as [[e He] | [provider Hp]].
  - rewrite He. eexists _, _. split; [reflexivity|].
    change (0 <= max_iterations orch)%Z. lia.
  - cbv zeta in Hp. rewrite Hp.
    match goal with
    | |- context [while_true fuel ?body ?st0] =>
        destruct (while_true_terminates provider tools (build_tools_list tools)
                    fuel st0) as [[out st] Hrun];
          [simpl; lia | lia |];
        destruct (while_true_summary _ _ _ _ _ _ _ Hrun)
          as (_ & _ & _ & Hk & added & Ht & Hc & _); [simpl; lia|]
    end.
    exists out, st. split; [exact Hrun|].
    cbn [self trace set_iteration_count max_iterations iteration_count]
      in Hk, Ht, Hc.
    rewrite Ht, provider_calls_app. simpl. lia.
Qed.

(** C2, as the code has it. At the iteration limit the pass logs the
    limit, emits [orchestrator:limit_reached], appends the termination
    system message and makes exactly one more provider call, with no tools
    in the request. When that call returns, the response is appended and its
    text returned, and [orchestrator:complete] carries the status
    [incomplete]; when it raises [e], nothing is raised: the text returned
    is the fixed failure sentence followed by [e], and
    [orchestrator:complete] carries the status [error]. A pass that finds
    the count at or above [max_iterations] (not 0) takes this branch. *)
Theorem limit_reached_wrap_up s provider tools tools_list :
  (forall st : state W,
     let count := iteration_count (self st) in
     let term := system_message (termination_text (max_iterations (self st))) in
     let r := limit_branch s provider tools_list st in
     exists msgs,
       let request := mkChatRequest msgs None in
       let before :=
         (trace st
          ++ [Log WARNING
                ("Reached max_iterations limit: " ++ str_int (max_iterations s));
              Emit (orchestrator_limit_reached (iteration_count s)
                                               (max_iterations s));
              AddMessage term; GetMessages;
              Emit (provider_request provider msgs count true);
              Complete provider request])%list in
       provider_calls before = S (provider_calls (trace st))
       /\ ((exists response w2,
              fst (provider_complete provider request w2) = inr response
              /\ fst r =
                   Returned (Some (_content_to_string (raw_content_of response)))
              /\ trace (snd r) =
                   (before
                    ++ [Emit (provider_response provider response);
                        AddMessage
                          (mkMessage "assistant"
                             (Some (_serialize_content (raw_content_of response)))
                             None None None);
                        Emit (orchestrator_complete count "incomplete")])%list)
           \/ (exists e w2,
                 fst (provider_complete provider request w2) = inl e
                 /\ fst r =
                      Returned
                        (Some ("Reached iteration limit. Failed to generate summary: "
                               ++ e))
                 /\ trace (snd r) =
                      (before
                       ++ [Log ERROR ("Wrap-up LLM call failed: " ++ e);
                           Emit (orchestrator_complete count "error")])%list)))
  /\ (forall st : state W,
        let c := (iteration_count (self st) + 1)%Z in
        (max_iterations (self st) <= c)%Z ->
        max_iterations (self st) <> 0%Z ->
        exists st1,
          loop_body provider tools tools_list st =
            limit_branch (set_iteration_count (self st) c) provider tools_list
                         st1
          /\ self st1 = set_iteration_count (self st) c).
Proof.
  split.
  - intros st count term r. subst r.
    unfold limit_branch, _handle_limit_reached, bind, try_except, logger,
      hooks_emit_event, get_self, context_add_message,
      context_get_messages_for_request, provider_complete_request, ret.
    cbn [self world trace].
    destruct (hooks_emit (orchestrator_limit_reached _ _) (world st))
      as [hr0 w0].
    cbn [self world trace]. fold term.
    destruct (ctx_get_messages_for_request (ctx_add_message term w0))
      as [msgs w1].
    cbn [self world trace]. fold count.
    destruct (hooks_emit (provider_request provider msgs count true) w1)
      as [hr1 w2].
    cbn [self world trace]. exists msgs. cbv zeta.
    split.
    { rewrite provider_calls_app. unfold provider_calls at 2. simpl. lia. }
    destruct (provider_complete provider (mkChatRequest msgs None) w2)
      as [[e|response] w3] eqn:Hcomplete; cbn [self world trace].
    + right. exists e, w2. rewrite Hcomplete. split; [reflexivity|].
      destruct (hooks_emit (orchestrator_complete count "error") w3).
      cbn [fst snd trace]. split; [reflexivity|].
      rewrite <- !app_assoc. reflexivity.
    + left. exists response, w2. rewrite Hcomplete. split; [reflexivity|].
      destruct (hooks_emit (provider_response provider response) w3)
        as [hr3 w4].
      cbn [self world trace].
      destruct (hooks_emit (orchestrator_complete count "incomplete") _).
      cbn [fst snd trace]. split; [reflexivity|].
      rewrite <- !app_assoc. reflexivity.
  - intros st c Hle Hne. rewrite loop_body_eq. cbv zeta. fold c.
    set (s' := set_iteration_count (self st) c).
    change (iteration_count s') with c.
    change (max_iterations s') with (max_iterations (self st)).
    change (warn_at s') with (warn_at (self st)).
    apply Z.leb_le in Hle. rewrite Hle. unfold bind.
    destruct (bool_decide (c ∈ warn_at (self st))).
    + rewrite inject_warning_spec. cbn [self].
      change (max_iterations s') with (max_iterations (self st)).
      apply Z.eqb_neq in Hne. rewrite Hne. cbv zeta.
      eexists. split; reflexivity.
    + cbn [ret]. eexists. split; reflexivity.
Qed.

(** C7. When the tool is registered and its [execute] returns, the text
    of the tool message is the normalised result: [{stdout: a}] gives [a],
    [{stdout: a, stderr: b}] gives [a], a newline and [stderr: b], [{}]
    gives the empty-output sentinel, and so does a falsy scalar; in general
    a dict gives its non-empty [stdout] and the [stderr:] line of its
    non-empty [stderr], joined by a newline, or the sentinel when both are
    absent or empty. *)
Theorem tool_result_normalization tool_call tools tool (st : state W) result w' :
  tools_get tools (tc_name tool_call) = Some tool ->
  tool_execute (tc_name tool_call) (tc_arguments tool_call) (world st)
  = (inr result, w') ->
  fst (_execute_tool tool_call tools st) = Returned (result_text result)
  /\ result_text (RObject (ODict {[ "stdout" := "a" ]})) = "a"
  /\ result_text (RObject (ODict {[ "stdout" := "a"; "stderr" := "b" ]}))
     = "a" ++ nl ++ "stderr: b"
  /\ result_text (RObject (ODict ∅)) = "(empty output)"
  /\ (forall v, truthy_scalar v = false ->
                result_text (RPlain v) = "(empty output)")
  /\ (forall (d : gmap string string),
        result_text (RObject (ODict d)) =
          match truthy_opt (d !! "stdout"), truthy_opt (d !! "stderr") with
          | true, true =>
              default "" (d !! "stdout") ++ nl ++ "stderr: "
              ++ default "" (d !! "stderr")
          | true, false => default "" (d !! "stdout")
          | false, true => "stderr: " ++ default "" (d !! "stderr")
          | false, false => "(empty output)"
          end).
Proof.
  intros Htool Hexec. split.
  { unfold _execute_tool. rewrite Htool.
    unfold try_except, bind, tool_execute_call, hooks_emit_event.
    rewrite Hexec. cbn [self world trace].
    destruct (hooks_emit _ w'). reflexivity. }
  split; [reflexivity|]. split; [reflexivity|]. split; [reflexivity|].
  split.
  - intros v Hv. unfold result_text. rewrite Hv. reflexivity.
  - intros d. unfold result_text.
    destruct (truthy_opt (d !! "stdout")), (truthy_opt (d !! "stderr"));
      reflexivity.
Qed.

(** C8. When the [tool:pre] hook answers a tool call with the action
    [deny], the tool's [execute] is not called, and the tool message
    appended for the call is the denial sentence followed by the verdict's
    reason. *)
Theorem denied_tool_call_is_not_executed
    tools tool_call (st : state W) pre w' :
  hooks_emit (tool_pre (tc_name tool_call) (tc_arguments tool_call)
                       (tc_id tool_call)) (world st) = (Some pre, w') ->
  action pre = "deny" ->
  let r := dispatch_tool_call tools tool_call st in
  let msg :=
    mkMessage "tool"
      (Some (CStr ("Tool blocked by hook: " ++ default "None" (reason pre))))
      None (Some (tc_name tool_call)) (Some (tc_id tool_call)) in
  fst r = Returned tt
  /\ world (snd r) = ctx_add_message msg w'
  /\ trace (snd r) =
       (trace st
        ++ [Emit (tool_pre (tc_name tool_call) (tc_arguments tool_call)
                           (tc_id tool_call));
            Log INFO ("Tool " ++ tc_name tool_call ++ " denied by hook");
            AddMessage msg])%list
  /\ tool_executions (trace (snd r)) = tool_executions (trace st).
Proof.
  intros Hpre Hdeny r msg. subst r.
  unfold dispatch_tool_call, bind, hooks_emit_event. rewrite Hpre.
  cbn [self world trace]. rewrite Hdeny, String.eqb_refl.
  unfold logger, ret, context_add_message. cbn [fst snd self world trace].
  fold msg. rewrite <- !app_assoc. cbn [app].
  repeat split. rewrite tool_executions_app. cbn. apply app_nil_r.
Qed.

End OrchestratorFacts.

(** *** The claims at concrete collaborators *)

Lemma execute_provider_calls_bounded_witness :
  exists out st,
    @execute nat looping 3 (orchestrator_with 3 []) 0%nat "hi" ["p"]
             [("bash", bash)] = Some (out, st)
    /\ (Z.of_nat (provider_calls (trace st)) <= 3)%Z.
Proof.
  apply (@execute_provider_calls_bounded nat looping (orchestrator_with 3 [])
           0%nat "hi" ["p"] [("bash", bash)] 3%nat).
  - reflexivity.
  - apply le_n.
Defined.

(** With the default thresholds and a provider that never stops asking for
    tools, the run reaches the limit, and the warnings are those of 75 and
    90 under a limit of 100, and that of 75 alone under a limit of 80. *)
Example looping_run_warnings :
  option_map (fun r => (iteration_count (self (snd r)),
                        warning_logs (trace (snd r)),
                        provider_calls (trace (snd r))))
    (@execute nat looping 100 (orchestrator_with 100 [75; 90]%Z) 0%nat "hi"
              ["p"] [("bash", bash)])
  = Some (100%Z, [warning_log 75; warning_log 90], 100%nat)
  /\ option_map (fun r => (iteration_count (self (snd r)),
                           warning_logs (trace (snd r)),
                           provider_calls (trace (snd r))))
       (@execute nat looping 80 (orchestrator_with 80 [75; 90]%Z) 0%nat "hi"
                 ["p"] [("bash", bash)])
     = Some (80%Z, [warning_log 75], 80%nat).
Proof. split; vm_compute; reflexivity. Qed.

(** C2, as stated, fails: when the wrap-up call raises, the status of
    [orchestrator:complete] is [error], not [incomplete]. *)
Lemma wrap_up_failure_status_is_error :
  exists st,
    @execute nat failing 1 (orchestrator_with 1 []) 0%nat "hi" ["p"] []
    = Some (Returned "Reached iteration limit. Failed to generate summary: boom",
            st)
    /\ provider_calls (trace st) = 1%nat
    /\ completion_statuses (trace st) = ["error"]
    /\ ~ In "incomplete" (completion_statuses (trace st)).
Proof.
  eexists. split; [vm_compute; reflexivity|].
  split; [reflexivity|]. split; [reflexivity|].
  simpl. intros [Heq | []]. discriminate Heq.
Qed.

Lemma limit_reached_wrap_up_witness :
  exists st1,
    @loop_body nat failing "p" [] None (mkState (orchestrator_with 1 []) 0%nat [])
    = @limit_branch nat failing (set_iteration_count (orchestrator_with 1 []) 1)
        "p" None st1
    /\ self st1 = set_iteration_count (orchestrator_with 1 []) 1.
Proof.
  apply (proj2 (@limit_reached_wrap_up nat failing
                  (set_iteration_count (orchestrator_with 1 []) 1) "p" [] None)
           (mkState (orchestrator_with 1 []) 0%nat [])).
  - discriminate.
  - discriminate.
Defined.

Lemma tool_result_normalization_witness :
  fst (@_execute_tool nat
         (returning (RObject (ODict {[ "stdout" := "a"; "stderr" := "b" ]})))
         bash_call [("bash", bash)]
         (mkState (orchestrator_with 2 []) 0%nat []))
  = Returned ("a" ++ nl ++ "stderr: b").
Proof.
  exact (proj1 (@tool_result_normalization nat
                  (returning (RObject (ODict {[ "stdout" := "a";
                                                "stderr" := "b" ]})))
                  bash_call [("bash", bash)] bash
                  (mkState (orchestrator_with 2 []) 0%nat [])
                  (RObject (ODict {[ "stdout" := "a"; "stderr" := "b" ]}))
                  0%nat eq_refl eq_refl)).
Defined.

Lemma denied_tool_call_is_not_executed_witness :
  let r := @dispatch_tool_call nat denying [("bash", bash)] bash_call
             (mkState (orchestrator_with 2 []) 0%nat []) in
  fst r = Returned tt
  /\ trace (snd r) =
       [Emit (tool_pre "bash" ∅ "call_1");
        Log INFO "Tool bash denied by hook";
        AddMessage
          (mkMessage "tool" (Some (CStr "Tool blocked by hook: not allowed"))
                     None (Some "bash") (Some "call_1"))]
  /\ tool_executions (trace (snd r)) = [].
Proof.
  intros r.
  destruct (@denied_tool_call_is_not_executed nat denying [("bash", bash)]
              bash_call (mkState (orchestrator_with 2 []) 0%nat [])
              (mkHookResult "deny" (Some "not allowed") None None) 0%nat
              eq_refl eq_refl) as (Hr & _ & Ht & Hx).
  split; [exact Hr|]. split; [exact Ht | exact Hx].
Defined.

(** C9. The two copies of [_execute_tool] do not agree: on a tool that
    returns [None] the current copy gives the empty-output sentinel and the
    earlier copy the text [None]; on a result whose output is the dict
    [{stdout: a}] the current copy gives [a] and the earlier copy the dict
    itself. They agree on a plain non-empty string. *)
Theorem legacy_execute_tool_differs :
  let st := mkState (orchestrator_with 2 []) 0%nat [] in
  let current r :=
    fst (@Orchestrator._execute_tool nat (returning r) bash_call
           [("bash", bash)] st) in
  let earlier r :=
    fst (@Legacy._execute_tool nat (returning r) bash_call
           [("bash", bash)] st) in
  (current (RPlain VNone) = Returned "(empty output)"
   /\ earlier (RPlain VNone) = Returned (OScalar (VStr "None")))
  /\ (current (RObject (ODict {[ "stdout" := "a" ]})) = Returned "a"
      /\ earlier (RObject (ODict {[ "stdout" := "a" ]}))
         = Returned (ODict {[ "stdout" := "a" ]}))
  /\ (current (RPlain (VStr "ok")) = Returned "ok"
      /\ earlier (RPlain (VStr "ok")) = Returned (OScalar (VStr "ok"))).
Proof. repeat split. Qed.

End OrchestratorClaims.

(** * Further properties of the loop detector *)

Section DetectorMore.
Import Py Core Detector Scenario.

Lemma last_five_exist (l : list string) :
  (5 <= length l)%nat -> exists older a b c d e, l = (older ++ [a; b; c; d; e])%list.
Proof.
  intros Hlen. exists (take (length l - 5) l).
  pose proof (take_drop (length l - 5) l) as Hsplit.
  pose proof (length_drop l (length l - 5)) as Hd.
  destruct (drop (length l - 5) l) as [|a [|b [|c [|d [|e [|f rest]]]]]];
    simpl in Hd; try lia.
  exists a, b, c, d, e. symmetry. exact Hsplit.
Qed.

Lemma similarity_le_one s1 s2 : (_calculate_similarity s1 s2 <= 1)%Q.
Proof.
  destruct (similarity_values s1 s2) as [-> | [-> | ->]]; vm_compute; discriminate.
Qed.

Lemma average4_le_one s1 s2 s3 s4 :
  (s1 <= 1 -> s2 <= 1 -> s3 <= 1 -> s4 <= 1 -> average4 s1 s2 s3 s4 <= 1)%Q.
Proof.
  intros H1 H2 H3 H4. rewrite average4_eq.
  apply Qle_shift_div_r; [reflexivity|].
  apply (Qle_trans _ (1 + 1 + 1 + 1)%Q);
    [repeat apply Qplus_le_compat; assumption | vm_compute; discriminate].
Qed.

(** The three cases of [_detect_loop]. *)
Lemma detect_loop_cases self :
  ((length (recent_calls self) < 5)%nat /\ _detect_loop self = (false, ""))
  \/ ((5 <= length (recent_calls self))%nat /\ all_identical (recent_calls self)
      /\ fst (_detect_loop self) = true)
  \/ (exists older a b c d e,
        recent_calls self = (older ++ [a; b; c; d; e])%list
        /\ ~ all_identical (recent_calls self)
        /\ _detect_loop self =
             let avg := average4 (_calculate_similarity a b)
                          (_calculate_similarity b c) (_calculate_similarity c d)
                          (_calculate_similarity d e) in
             if Qle_bool (similarity_threshold self) avg
             then (true, similarity_description (sig_name a) avg)
             else (false, "")).
Proof.
  destruct (Nat.lt_ge_cases (length (recent_calls self)) 5) as [Hlt|Hge].
  { left. split; [exact Hlt | apply detect_loop_short, Hlt]. }
  right.
  destruct (decide (Forall (fun s => s = nth 0 (recent_calls self) "")
                           (recent_calls self))) as [Hall|Hnot].
  - left. split; [exact Hge|]. split; [exact Hall|].
    rewrite (detect_loop_exact self Hge Hall). reflexivity.
  - right. destruct (last_five_exist _ Hge) as (older & a & b & c & d & e & Hrec).
    exists older, a, b, c, d, e. split; [exact Hrec|]. split; [exact Hnot|].
    apply (detect_loop_similarity self older a b c d e Hrec Hnot).
Qed.

Section DetectorWindow.
Context {Value : Type} `{Runtime Value}.

Lemma last_n_length {A} n (l : list A) : (length (last_n n l) <= n)%nat.
Proof. unfold last_n. rewrite length_drop. lia. Qed.

Lemma last_n_all {A} n (l : list A) : (length l <= n)%nat -> last_n n l = l.
Proof. intros Hl. unfold last_n. replace (length l - n)%nat with 0%nat by lia. reflexivity. Qed.

Lemma last_n_snoc {A} n (l : list A) x :
  last_n n (last_n n l ++ [x]) = last_n n (l ++ [x]).
Proof.
  destruct (Nat.le_gt_cases (length l) n) as [Hle|Hgt].
  { rewrite (last_n_all n l Hle). reflexivity. }
  unfold last_n. rewrite !length_app, length_drop. cbn [length].
  destruct n as [|n].
  - rewrite !drop_ge; [reflexivity | |]; rewrite length_app; cbn [length];
      rewrite ?length_drop; lia.
  - replace (length l - (length l - S n) + 1 - S n)%nat with 1%nat by lia.
    replace (length l + 1 - S n)%nat with (S (length l - S n)) by lia.
    rewrite (drop_app_le l [x] (S (length l - S n))) by lia.
    replace (S (length l - S n)) with (length l - S n + 1)%nat by lia.
    rewrite <- drop_drop.
    rewrite drop_app_le; [reflexivity|]. rewrite length_drop. lia.
Qed.

Lemma last_n_app {A} n (l more : list A) :
  last_n n (last_n n l ++ more) = last_n n (l ++ more).
Proof.
  induction more as [|y more IH] using rev_ind.
  - rewrite !app_nil_r. apply last_n_all, last_n_length.
  - rewrite !app_assoc, <- last_n_snoc, IH. apply last_n_snoc.
Qed.

Lemma deque_append_last_n {A} n (l : list A) x :
  (length l <= n)%nat -> deque_append n l x = last_n n (l ++ [x]).
Proof.
  intros Hl. unfold deque_append, last_n. rewrite length_app. simpl.
  destruct (Nat.eqb_spec n 0) as [->|Hn].
  - destruct l; [reflexivity | simpl in Hl; lia].
  - destruct (Nat.leb_spec n (length l)).
    + replace (length l + 1 - n)%nat with 1%nat by lia.
      destruct l; [simpl in *; lia | reflexivity].
    + replace (length l + 1 - n)%nat with 0%nat by lia. reflexivity.
Qed.

Lemma call_fields self event (data : EventData Value) :
  let self' := fst (__call__ self event data) in
  detection_window self' = detection_window self
  /\ apply_to_sub_sessions self' = apply_to_sub_sessions self
  /\ similarity_threshold self' = similarity_threshold self
  /\ action_on_detect self' = action_on_detect self
  /\ recent_calls self' =
       if observed self (event, data)
       then deque_append (detection_window self) (recent_calls self)
                         (_compute_signature data)
       else recent_calls self.
Proof.
  unfold __call__, observed. cbn [fst snd].
  destruct (negb _ && truthy_opt _); cbn [negb andb]; [auto|].
  destruct (event =? "tool:post"); [|auto].
  destruct (_detect_loop _) as [is_loop description].
  destruct (is_loop && negb _); cbn; auto.
Qed.

Lemma deliver_window self (events : list (string * EventData Value)) :
  (length (recent_calls self) <= detection_window self)%nat ->
  let self' := fst (deliver self events) in
  detection_window self' = detection_window self
  /\ apply_to_sub_sessions self' = apply_to_sub_sessions self
  /\ similarity_threshold self' = similarity_threshold self
  /\ action_on_detect self' = action_on_detect self
  /\ recent_calls self' =
       last_n (detection_window self)
              (recent_calls self ++ observed_signatures self events).
Proof.
  revert self. induction events as [|[event data] rest IH]; intros self Hlen.
  - cbn. unfold observed_signatures. cbn. rewrite app_nil_r, last_n_all by lia. auto.
  - cbv zeta. rewrite deliver_cons. cbn [fst].
    destruct (call_fields self event data) as (Hw & Ha & Ht & Hact & Hr).
    cbv zeta in Hw, Ha, Ht, Hact, Hr.
    assert (Hobs : observed_signatures (fst (__call__ self event data)) rest
                   = observed_signatures self rest).
    { unfold observed_signatures, observed. rewrite Ha. reflexivity. }
    assert (Hlen' : (length (recent_calls (fst (__call__ self event data)))
                     <= detection_window (fst (__call__ self event data)))%nat).
    { rewrite Hw, Hr. destruct (observed self (event, data)); [|exact Hlen].
      rewrite deque_append_last_n by exact Hlen. apply last_n_length. }
    destruct (IH _ Hlen') as (Hw' & Ha' & Ht' & Hact' & Hr').
    rewrite Hw', Ha', Ht', Hact', Hr', Hw, Hobs. repeat split; try congruence.
    rewrite Hr. unfold observed_signatures at 2. cbn [List.filter].
    destruct (observed self (event, data)); cbn [map snd].
    + rewrite deque_append_last_n by exact Hlen.
      fold (observed_signatures self rest).
      rewrite last_n_app, <- app_assoc. reflexivity.
    + fold (observed_signatures self rest). reflexivity.
Qed.

Lemma call_result self event (data : EventData Value) :
  snd (__call__ self event data) = HookResult_continue
  \/ (observed self (event, data) = true
      /\ already_warned self = false
      /\ already_warned (fst (__call__ self event data)) = true
      /\ exists description,
           _detect_loop
             (set_recent_calls self
                (deque_append (detection_window self) (recent_calls self)
                              (_compute_signature data)))
           = (true, description)
           /\ snd (__call__ self event data) =
                _handle_detection self description).
Proof.
  unfold __call__, observed. cbn [fst snd].
  destruct (negb _ && truthy_opt _); cbn [negb andb]; [auto|].
  destruct (event =? "tool:post"); [|auto].
  destruct (_detect_loop _) as [is_loop description].
  destruct is_loop; [|auto].
  cbn [already_warned set_recent_calls set_already_warned].
  destruct (already_warned self) eqn:Hw; cbn [negb andb fst snd]; [auto|].
  right. split; [reflexivity|]. split; [reflexivity|]. split; [reflexivity|].
  exists description. split; reflexivity.
Qed.

Lemma handle_detection_shape self description :
  _handle_detection self description = HookResult_continue
  \/ (action_on_detect self = "deny"
      /\ _handle_detection self description =
           mkHookResult "deny"
             (Some ("Loop detected - blocking to prevent infinite execution: "
                    ++ description)) None None)
  \/ (action_on_detect self = "warn"
      /\ _handle_detection self description =
           mkHookResult "inject_context" None
             (Some (detection_message description)) (Some "system")).
Proof.
  unfold _handle_detection.
  destruct (String.eqb_spec (action_on_detect self) "deny"); [auto|].
  destruct (String.eqb_spec (action_on_detect self) "warn"); auto.
Qed.


Lemma deque_append_length {A} n (l : list A) x :
  (length l <= n)%nat -> (length (deque_append n l x) <= n)%nat.
Proof.
  intros Hl. rewrite deque_append_last_n by exact Hl. apply last_n_length.
Qed.

Lemma continue_not_escalated (l : list HookResult) :
  Forall (fun r => r = HookResult_continue) l -> List.filter escalated l = [].
Proof.
  induction 1 as [|r l -> _ IH]; [reflexivity|]. cbn. exact IH.
Qed.

Lemma call_small_window self event (data : EventData Value) :
  (length (recent_calls self) <= detection_window self)%nat ->
  (detection_window self < 5)%nat ->
  snd (__call__ self event data) = HookResult_continue
  /\ already_warned (fst (__call__ self event data)) = already_warned self.
Proof.
  intros Hlen Hw. unfold __call__.
  destruct (negb _ && truthy_opt _); [auto|].
  destruct (event =? "tool:post"); [|auto].
  rewrite detect_loop_short; [cbn; auto|].
  cbn [recent_calls set_recent_calls].
  pose proof (deque_append_length (detection_window self) (recent_calls self)
                (_compute_signature data) Hlen).
  lia.
Qed.

Lemma small_window_quiet self (events : list (string * EventData Value)) :
  (length (recent_calls self) <= detection_window self)%nat ->
  (detection_window self < 5)%nat ->
  Forall (fun r => r = HookResult_continue) (snd (deliver self events))
  /\ already_warned (fst (deliver self events)) = already_warned self.
Proof.
  revert self. induction events as [|[event data] rest IH]; intros self Hlen Hw.
  - cbn. auto.
  - rewrite deliver_cons. cbn [fst snd].
    destruct (call_fields self event data) as (Hdw & _ & _ & _ & Hr).
    cbv zeta in Hdw, Hr.
    assert (Hlen' : (length (recent_calls (fst (__call__ self event data)))
                     <= detection_window (fst (__call__ self event data)))%nat).
    { rewrite Hdw, Hr. destruct (observed self (event, data)); [|exact Hlen].
      apply deque_append_length, Hlen. }
    assert (Hw' : (detection_window (fst (__call__ self event data)) < 5)%nat)
      by (rewrite Hdw; exact Hw).
    destruct (IH _ Hlen' Hw') as [Hrest Hflag].
    destruct (call_small_window self event data Hlen Hw) as [Hc Hf].
    split; [constructor; assumption | congruence].
Qed.

Lemma escalations_bounded self (events : list (string * EventData Value)) :
  (length (List.filter escalated (snd (deliver self events))) <= 1)%nat
  /\ Forall (fun r =>
               r = HookResult_continue
               \/ (action_on_detect self = "deny" /\ action r = "deny"
                   /\ exists description,
                        reason r =
                          Some ("Loop detected - blocking to prevent infinite execution: "
                                ++ description))
               \/ (action_on_detect self = "warn" /\ action r = "inject_context"
                   /\ context_injection_role r = Some "system"
                   /\ exists description,
                        context_injection r = Some (detection_message description)))
            (snd (deliver self events)).
Proof.
  revert self. induction events as [|[event data] rest IH]; intros self.
  - cbn. split; [lia | constructor].
  - rewrite deliver_cons. cbn [fst snd].
    destruct (call_fields self event data) as (_ & _ & _ & Hact & _).
    cbv zeta in Hact.
    destruct (IH (fst (__call__ self event data))) as [Hcount Hshape].
    rewrite Hact in Hshape.
    destruct (call_result self event data)
      as [Hc | (_ & _ & Hflag & description & _ & Hres)].
    + rewrite Hc. cbn [List.filter escalated]. split; [exact Hcount|].
      constructor; [left; reflexivity | exact Hshape].
    + destruct (deliver_warned _ rest Hflag) as [_ Hquiet].
      split.
      * cbn [List.filter]. rewrite (continue_not_escalated _ Hquiet).
        destruct (escalated _); simpl; lia.
      * constructor; [|exact Hshape]. rewrite Hres.
        destruct (handle_detection_shape self description)
          as [-> | [[Hd ->] | [Hwn ->]]]; [left; reflexivity | |].
        -- right; left. cbn. eauto.
        -- right; right. cbn. eauto 6.
Qed.

Lemma string_app_assoc (a b c : string) : (a ++ b) ++ c = a ++ b ++ c.
Proof.
  induction a as [|ch a IH]; [reflexivity|].
  change ((String ch a ++ b) ++ c) with (String ch ((a ++ b) ++ c)).
  rewrite IH. reflexivity.
Qed.

Lemma signature_parts (data : EventData Value) :
  exists fingerprint,
    _compute_signature data
    = default "unknown" (tool_name data) ++ ":" ++ fingerprint
    /\ forall data' : EventData Value,
         tool_input data' = tool_input data ->
         _compute_signature data'
         = default "unknown" (tool_name data') ++ ":" ++ fingerprint.
Proof.
  unfold _compute_signature. eexists. split; [reflexivity|].
  intros data' ->. reflexivity.
Qed.

(** *** Further properties of the detector *)

(** X1. The window of an instance holds the signatures of the most recent
    events it has observed (tool-post events that are not skipped as
    sub-session events), at most [detection_window] of them, oldest first. *)
Theorem window_holds_latest_signatures
    config (events : list (string * EventData Value)) :
  let self := fst (deliver (__init__ config) events) in
  recent_calls self =
    last_n (default 10%nat (cfg_detection_window config))
           (observed_signatures (__init__ config) events)
  /\ (length (recent_calls self) <= default 10%nat (cfg_detection_window config))%nat.
Proof.
  intros self.
  destruct (deliver_window (__init__ config) events) as (_ & _ & _ & _ & Hr);
    [cbn; lia|].
  fold self in Hr. cbn [recent_calls __init__ detection_window app] in Hr.
  split; [exact Hr|]. rewrite Hr. apply last_n_length.
Qed.

(** X2. An instance whose [detection_window] is below 5 never reports
    anything: every call returns the continue result and [already_warned]
    stays false. *)
Theorem small_window_never_detects
    config (events : list (string * EventData Value)) :
  (default 10%nat (cfg_detection_window config) < 5)%nat ->
  Forall (fun r => r = HookResult_continue)
         (snd (deliver (__init__ config) events))
  /\ already_warned (fst (deliver (__init__ config) events)) = false.
Proof.
  intros Hw.
  apply (small_window_quiet (__init__ config) events); [cbn; lia | exact Hw].
Qed.

(** X3. Over the whole life of an instance at most one call returns
    something other than continue; that result is a deny with the reason
    sentence when [action_on_detect] is [deny] and a system-role context
    injection carrying the reminder when it is [warn]; with any other
    [action_on_detect] every call returns continue. *)
Theorem at_most_one_escalation
    self (events : list (string * EventData Value)) :
  (length (List.filter escalated (snd (deliver self events))) <= 1)%nat
  /\ Forall (fun r =>
               r = HookResult_continue
               \/ (action_on_detect self = "deny" /\ action r = "deny"
                   /\ exists description,
                        reason r =
                          Some ("Loop detected - blocking to prevent infinite execution: "
                                ++ description))
               \/ (action_on_detect self = "warn" /\ action r = "inject_context"
                   /\ context_injection_role r = Some "system"
                   /\ exists description,
                        context_injection r = Some (detection_message description)))
            (snd (deliver self events))
  /\ (action_on_detect self <> "deny" -> action_on_detect self <> "warn" ->
      Forall (fun r => r = HookResult_continue) (snd (deliver self events))).
Proof.
  destruct (escalations_bounded self events) as [Hcount Hshape].
  split; [exact Hcount|]. split; [exact Hshape|].
  intros Hd Hw. eapply Forall_impl; [exact Hshape|].
  intros r [Hr | [[Hdeny _] | [Hwarn _]]]; [exact Hr | | ]; contradiction.
Qed.

End DetectorWindow.

(** X4. With a threshold above 1 the classifier reports a pattern exactly
    on windows of at least five signatures that are all identical. *)
Theorem threshold_above_one_needs_exact_repeat self :
  (1 < similarity_threshold self)%Q ->
  fst (_detect_loop self) = true <->
  (5 <= length (recent_calls self))%nat /\ all_identical (recent_calls self).
Proof.
  intros Hthr.
  destruct (detect_loop_cases self)
    as [[Hlt Hd] | [(Hge & Hall & Hd) | (older & a & b & c & d & e & Hrec & Hnot & Hd)]].
  - rewrite Hd. split; [discriminate | intros [Hge _]; lia].
  - rewrite Hd. tauto.
  - rewrite Hd. cbv zeta.
    destruct (Qle_bool _ _) eqn:Hle; cbn [fst]; [|split; [discriminate | tauto]].
    exfalso. apply Qle_bool_iff in Hle.
    apply (Qlt_irrefl 1). eapply Qlt_le_trans; [exact Hthr|].
    eapply Qle_trans; [exact Hle|].
    apply average4_le_one; apply similarity_le_one.
Qed.

(** X5. When the five most recent signatures are one and the same but an
    older entry of the window differs, the verdict is the similarity one,
    with an average of 1.00, for every threshold up to 1. *)
Theorem recent_repeat_in_longer_window self older a name fingerprint :
  recent_calls self = (older ++ [a; a; a; a; a])%list ->
  ~ all_identical (recent_calls self) ->
  split1 ":" a = [name; fingerprint] ->
  (similarity_threshold self <= 1)%Q ->
  _detect_loop self =
    (true, "Repetitive pattern detected: tool '" ++ name ++ "' similarity=1.00").
Proof.
  intros Hrec Hnot Ha Hthr.
  rewrite (detect_loop_similarity self older a a a a a Hrec Hnot). cbv zeta.
  rewrite (similarity_parsed a a _ _ _ _ Ha Ha).
  destruct (decide (name = name)); [|contradiction].
  destruct (decide (fingerprint = fingerprint)); [|contradiction].
  assert (Hle : Qle_bool (similarity_threshold self) (average4 1 1 1 1) = true).
  { apply Qle_bool_iff. eapply Qle_trans; [exact Hthr|]. vm_compute. discriminate. }
  rewrite Hle. unfold similarity_description, sig_name. rewrite Ha. reflexivity.
Qed.

(** X6. Lowering the threshold never loses a pattern: a window reported
    under one threshold is reported under every smaller one. *)
Theorem lower_threshold_keeps_pattern self1 self2 :
  recent_calls self2 = recent_calls self1 ->
  (similarity_threshold self2 <= similarity_threshold self1)%Q ->
  fst (_detect_loop self1) = true ->
  fst (_detect_loop self2) = true.
Proof.
  intros Hrec Hthr Hloop.
  destruct (detect_loop_cases self1)
    as [[Hlt Hd] | [(Hge & Hall & Hd) | (older & a & b & c & d & e & Hr & Hnot & Hd)]].
  - rewrite Hd in Hloop. discriminate.
  - rewrite detect_loop_exact; rewrite Hrec; auto.
  - rewrite Hd in Hloop. cbv zeta in Hloop.
    rewrite <- Hrec in Hr, Hnot.
    rewrite (detect_loop_similarity self2 older a b c d e Hr Hnot). cbv zeta.
    destruct (Qle_bool (similarity_threshold self1) _) eqn:Hle;
      [|discriminate Hloop].
    apply Qle_bool_iff in Hle.
    assert (Hle2 : Qle_bool (similarity_threshold self2)
                     (average4 (_calculate_similarity a b)
                        (_calculate_similarity b c) (_calculate_similarity c d)
                        (_calculate_similarity d e)) = true).
    { apply Qle_bool_iff. eapply Qle_trans; eassumption. }
    rewrite Hle2. reflexivity.
Qed.

Section DetectorSignatures.
Context {Value : Type} `{Runtime Value}.

(** X7. The score of the signatures of two events whose tool names have
    no colon: 0 when the tool names differ, 1 when the tool names and the
    arguments are the same, and 1 or 1/2 when only the tool names are the
    same. An event without a tool name counts as the tool [unknown]. *)
Theorem signature_similarity (data1 data2 : EventData Value) :
  contains_colon (default "unknown" (tool_name data1)) = false ->
  contains_colon (default "unknown" (tool_name data2)) = false ->
  let score :=
    _calculate_similarity (_compute_signature data1)
                          (_compute_signature data2) in
  (default "unknown" (tool_name data1) <> default "unknown" (tool_name data2) ->
   score = 0%Q)
  /\ (default "unknown" (tool_name data1) = default "unknown" (tool_name data2) ->
      (score = 1%Q \/ score = (1 # 2)%Q)
      /\ (tool_input data1 = tool_input data2 -> score = 1%Q)).
Proof.
  intros Hc1 Hc2 score. subst score.
  destruct (signature_parts data1) as (f1 & Hs1 & Hsame).
  destruct (signature_parts data2) as (f2 & Hs2 & _).
  rewrite Hs1, Hs2.
  rewrite (similarity_parsed _ _ _ _ _ _ (split1_prefix _ f1 Hc1)
             (split1_prefix _ f2 Hc2)).
  split.
  - intros Hne. destruct (decide _); [contradiction | reflexivity].
  - intros Heq. destruct (decide _); [|contradiction]. split.
    + destruct (decide (f1 = f2)); auto.
    + intros Hin. specialize (Hsame data2 (eq_sym Hin)).
      rewrite Hs2 in Hsame.
      assert (Hparts : [default "unknown" (tool_name data2); f2]
                       = [default "unknown" (tool_name data2); f1]).
      { rewrite <- (split1_prefix _ f2 Hc2), <- (split1_prefix _ f1 Hc2).
        rewrite Hsame. reflexivity. }
      inversion Hparts; subst. destruct (decide _); [reflexivity | contradiction].
Qed.

(** X8. The signature is cut at the first colon, so two different tools
    whose names agree up to their first colon are scored as one tool: the
    score of their signatures is 1 or 1/2, never 0. *)
Theorem colon_prefix_collision (data1 data2 : EventData Value) prefix rest1 rest2 :
  tool_name data1 = Some (prefix ++ ":" ++ rest1) ->
  tool_name data2 = Some (prefix ++ ":" ++ rest2) ->
  contains_colon prefix = false ->
  let score :=
    _calculate_similarity (_compute_signature data1)
                          (_compute_signature data2) in
  (score = 1%Q \/ score = (1 # 2)%Q)
  /\ sig_name (_compute_signature data1) = prefix
  /\ sig_name (_compute_signature data2) = prefix.
Proof.
  intros Hn1 Hn2 Hc score. subst score.
  destruct (signature_parts data1) as (f1 & Hs1 & _).
  destruct (signature_parts data2) as (f2 & Hs2 & _).
  rewrite Hs1, Hs2, Hn1, Hn2. cbn [default]. unfold id.
  rewrite !string_app_assoc.
  change ((":" ++ rest1) ++ ":" ++ f1) with (":" ++ rest1 ++ ":" ++ f1).
  change ((":" ++ rest2) ++ ":" ++ f2) with (":" ++ rest2 ++ ":" ++ f2).
  pose proof (split1_prefix prefix (rest1 ++ ":" ++ f1) Hc) as Hp1.
  pose proof (split1_prefix prefix (rest2 ++ ":" ++ f2) Hc) as Hp2.
  rewrite (similarity_parsed _ _ _ _ _ _ Hp1 Hp2).
  unfold sig_name. rewrite Hp1, Hp2.
  destruct (decide (prefix = prefix)); [|contradiction].
  destruct (decide _); auto.
Qed.

End DetectorSignatures.

(** *** The further properties at concrete events *)

Lemma small_window_never_detects_witness :
  Forall (fun r => r = HookResult_continue)
    (snd (@deliver nat counting_runtime
            (__init__ (mkConfig (Some 4%nat) None None None))
            [post "bash" 1; post "bash" 1; post "bash" 1; post "bash" 1;
             post "bash" 1; post "bash" 1])).
Proof.
  apply (@small_window_never_detects nat counting_runtime
           (mkConfig (Some 4%nat) None None None)
           [post "bash" 1; post "bash" 1; post "bash" 1; post "bash" 1;
            post "bash" 1; post "bash" 1]).
  cbn. lia.
Defined.

Lemma at_most_one_escalation_witness :
  Forall (fun r => r = HookResult_continue)
    (snd (@deliver nat counting_runtime
            (mkHook 10 default_similarity_threshold "log" false [] false)
            [post "bash" 1; post "bash" 1; post "bash" 1; post "bash" 1;
             post "bash" 1; post "bash" 1])).
Proof.
  apply (@at_most_one_escalation nat counting_runtime
           (mkHook 10 default_similarity_threshold "log" false [] false)
           [post "bash" 1; post "bash" 1; post "bash" 1; post "bash" 1;
            post "bash" 1; post "bash" 1]); discriminate.
Defined.

Lemma threshold_above_one_needs_exact_repeat_witness :
  fst (_detect_loop
         (mkHook 10 (3 # 2) "warn" false
                 ["bash:7"; "bash:7"; "bash:7"; "bash:7"; "bash:7"] false))
  = true.
Proof.
  apply (proj2 (threshold_above_one_needs_exact_repeat
                  (mkHook 10 (3 # 2) "warn" false
                     ["bash:7"; "bash:7"; "bash:7"; "bash:7"; "bash:7"] false)
                  eq_refl)).
  split; [cbn; lia|]. repeat constructor.
Defined.

Lemma recent_repeat_in_longer_window_witness :
  _detect_loop
    (detector_with_window
       ["grep:1"; "bash:7"; "bash:7"; "bash:7"; "bash:7"; "bash:7"])
  = (true, "Repetitive pattern detected: tool 'bash' similarity=1.00").
Proof.
  apply (recent_repeat_in_longer_window
           (detector_with_window
              ["grep:1"; "bash:7"; "bash:7"; "bash:7"; "bash:7"; "bash:7"])
           ["grep:1"] "bash:7" "bash" "7").
  - reflexivity.
  - intros Hall. inversion Hall as [|? ? _ Hrest]. inversion Hrest as [|? ? Hne _].
    discriminate Hne.
  - reflexivity.
  - discriminate.
Defined.

Lemma lower_threshold_keeps_pattern_witness :
  fst (_detect_loop
         (mkHook 10 (1 # 4) "warn" false
                 ["bash:1"; "bash:2"; "bash:1"; "bash:2"; "bash:1"] false))
  = true.
Proof.
  apply (lower_threshold_keeps_pattern
           (mkHook 10 (1 # 2) "warn" false
                   ["bash:1"; "bash:2"; "bash:1"; "bash:2"; "bash:1"] false)
           (mkHook 10 (1 # 4) "warn" false
                   ["bash:1"; "bash:2"; "bash:1"; "bash:2"; "bash:1"] false)).
  - reflexivity.
  - discriminate.
  - reflexivity.
Defined.

Lemma signature_similarity_witness :
  _calculate_similarity
    (@_compute_signature nat counting_runtime (snd (post "bash" 1)))
    (@_compute_signature nat counting_runtime (snd (post "bash" 1)))
  = 1%Q.
Proof.
  apply (@signature_similarity nat counting_runtime (snd (post "bash" 1))
           (snd (post "bash" 1)) eq_refl eq_refl); reflexivity.
Defined.

Lemma colon_prefix_collision_witness :
  sig_name (@_compute_signature nat counting_runtime
              (mkData None (Some "mcp:read") (Some 1%nat))) = "mcp"
  /\ sig_name (@_compute_signature nat counting_runtime
                 (mkData None (Some "mcp:write") (Some 2%nat))) = "mcp".
Proof.
  apply (@colon_prefix_collision nat counting_runtime
           (mkData None (Some "mcp:read") (Some 1%nat))
           (mkData None (Some "mcp:write") (Some 2%nat))
           "mcp" "read" "write"); reflexivity.
Defined.

End DetectorMore.

(** * Further properties of the orchestrator *)

Section OrchestratorMore.
Import Py Core Orchestrator Scenario.

Section OrchestratorRuns.
Context {W : Type} `{Collaborators W}.

Lemma completion_statuses_app t1 t2 :
  completion_statuses (t1 ++ t2) =
  (completion_statuses t1 ++ completion_statuses t2)%list.
Proof.
  induction t1 as [|e t1 IH]; [reflexivity|].
  destruct e as [| |ev| | |]; cbn; try exact IH.
  destruct ev; cbn; try exact IH. by rewrite IH.
Qed.

Lemma provider_requests_app t1 t2 :
  provider_requests (t1 ++ t2) =
  (provider_requests t1 ++ provider_requests t2)%list.
Proof.
  induction t1 as [|e t1 IH]; [reflexivity|].
  destruct e; cbn; try exact IH. by rewrite IH.
Qed.

Lemma tool_replies_app t1 t2 :
  tool_replies (t1 ++ t2) = (tool_replies t1 ++ tool_replies t2)%list.
Proof.
  induction t1 as [|e t1 IH]; [reflexivity|].
  destruct e as [m| | | | |]; cbn; try exact IH.
  destruct m as [? ? ? [n|] [i|]]; cbn; try exact IH. by rewrite IH.
Qed.

Lemma tool_effects_summary added :
  forallb tool_effect added = true ->
  completion_statuses added = [] /\ provider_requests added = []
  /\ provider_calls added = 0%nat.
Proof.
  induction added as [|e added IH]; [auto|].
  cbn [forallb]. intros Hall. apply andb_prop in Hall as [He Hall].
  destruct (IH Hall) as (IH1 & IH2 & IH3).
  destruct e as [| |ev| | |]; try discriminate He; cbn; auto.
  destruct ev; try discriminate He; cbn; auto.
Qed.

(** The provider that [execute] picks: the configured default when it is a
    non-empty name, the first key otherwise. *)
Lemma select_provider_spec providers (st : state W) :
  select_provider providers st =
    (match (if truthy_opt (default_provider_name (self st))
            then Some (default "" (default_provider_name (self st)))
            else head providers) with
     | None => Raised "coroutine raised StopIteration"
     | Some name =>
         if bool_decide (name ∈ providers) then Returned name
         else Raised (repr_str name)
     end, st).
Proof.
  unfold select_provider, bind, get_self. cbn [self].
  destruct (truthy_opt (default_provider_name (self st))); cbn [ret].
  - destruct (bool_decide (_ ∈ providers)); reflexivity.
  - destruct providers as [|first rest]; cbn [raise ret head]; [reflexivity|].
    destruct (bool_decide (first ∈ first :: rest)); reflexivity.
Qed.

Lemma prologue_by_selection orch w prompt providers tools :
  execute_prologue prompt providers tools (mkState orch w []) =
    match fst (select_provider providers (mkState orch w [])) with
    | Returned provider =>
        let m := mkMessage "user" (Some (CStr prompt)) None None None in
        (Returned (provider, build_tools_list tools),
         mkState (set_iteration_count orch 0) (ctx_add_message m w)
                 [AddMessage m])
    | Raised e => (Raised e, mkState orch w [])
    end.
Proof.
  unfold execute_prologue. unfold bind at 1. rewrite select_provider_spec.
  cbn [fst self].
  destruct (if truthy_opt (default_provider_name orch) then _ else _) as [name|];
    [|reflexivity].
  destruct (bool_decide (name ∈ providers)); reflexivity.
Qed.

(** The pass below the limit, up to the provider's answer. *)
Lemma request_branch_eq s provider tools tools_list (st : state W) :
  request_branch s provider tools tools_list st =
    let '(msgs, w1) := ctx_get_messages_for_request (world st) in
    let '(_, w2) :=
      hooks_emit (provider_request provider msgs (iteration_count s) false) w1 in
    let request := mkChatRequest msgs tools_list in
    let asked :=
      (trace st
       ++ [GetMessages;
           Emit (provider_request provider msgs (iteration_count s) false);
           Complete provider request])%list in
    match provider_complete provider request w2 with
    | (inl e, w3) =>
        (Raised e,
         mkState (self st) (snd (hooks_emit (provider_error provider e) w3))
           (asked ++ [Log ERROR ("Provider error: " ++ e);
                      Emit (provider_error provider e)]))
    | (inr response, w3) =>
        handle_response s provider tools response (mkState (self st) w3 asked)
    end.
Proof.
  unfold request_branch, handle_response.
  unfold bind at 1. unfold context_get_messages_for_request.
  destruct (ctx_get_messages_for_request (world st)) as [msgs w1].
  unfold bind at 1. unfold hooks_emit_event at 1. cbn [self world trace].
  destruct (hooks_emit (provider_request provider msgs (iteration_count s) false) w1)
    as [hr w2].
  unfold bind at 1. unfold try_except, provider_complete_request.
  cbn [self world trace].
  destruct (provider_complete provider (mkChatRequest msgs tools_list) w2)
    as [[e|response] w3].
  - unfold bind, logger, hooks_emit_event, raise. cbn [self world trace].
    destruct (hooks_emit (provider_error provider e) w3) as [hr' w4].
    cbn [snd]. rewrite <- !app_assoc. reflexivity.
  - rewrite <- !app_assoc. reflexivity.
Qed.

(** The pass at the limit. *)
Lemma limit_branch_eq s provider tools_list (st : state W) :
  exists msgs tail text status w',
    limit_branch s provider tools_list st =
      (Returned (Some text),
       mkState (self st) w'
         (trace st
          ++ [Log WARNING
                ("Reached max_iterations limit: " ++ str_int (max_iterations s));
              Emit (orchestrator_limit_reached (iteration_count s)
                                               (max_iterations s));
              AddMessage
                (system_message (termination_text (max_iterations (self st))));
              GetMessages;
              Emit (provider_request provider msgs (iteration_count (self st))
                                     true);
              Complete provider (mkChatRequest msgs None)]
          ++ tail
          ++ [Emit (orchestrator_complete (iteration_count (self st)) status)]))
    /\ completion_statuses tail = []
    /\ provider_requests tail = []
    /\ tool_executions tail = []
    /\ tool_replies tail = []
    /\ (status = "incomplete" \/ status = "error").
Proof.
  unfold limit_branch, _handle_limit_reached, bind, try_except, logger,
    hooks_emit_event, get_self, context_add_message,
    context_get_messages_for_request, provider_complete_request, ret.
  cbn [self world trace].
  destruct (hooks_emit (orchestrator_limit_reached _ _) (world st)) as [hr0 w0].
  cbn [self world trace].
  destruct (ctx_get_messages_for_request _) as [msgs w1].
  cbn [self world trace].
  destruct (hooks_emit (provider_request provider msgs _ true) w1) as [hr1 w2].
  cbn [self world trace]. exists msgs.
  destruct (provider_complete provider (mkChatRequest msgs None) w2)
    as [[e|response] w3]; cbn [self world trace].
  - destruct (hooks_emit (orchestrator_complete _ "error") w3) as [hr3 w4].
    exists [Log ERROR ("Wrap-up LLM call failed: " ++ e)].
    eexists _, "error", _.
    rewrite <- !app_assoc. cbn [app].
    split; [reflexivity|]. auto 10.
  - destruct (hooks_emit (provider_response provider response) w3) as [hr3 w4].
    cbn [self world trace].
    destruct (hooks_emit (orchestrator_complete _ "incomplete") _) as [hr4 w5].
    eexists [Emit (provider_response provider response); AddMessage _].
    eexists _, "incomplete", _.
    rewrite <- !app_assoc. cbn [app].
    split; [reflexivity|]. auto 10.
Qed.

Lemma while_true_invariant (Inv : state W -> Prop)
    (Post : outcome string -> state W -> Prop) (body : M W (option string)) :
  (forall st, Inv st ->
     match body st with
     | (Returned None, st') => Inv st'
     | (Returned (Some text), st') => Post (Returned text) st'
     | (Raised e, st') => Post (Raised e) st'
     end) ->
  forall fuel st out st',
    Inv st -> while_true fuel body st = Some (out, st') -> Post out st'.
Proof.
  intros Hbody. induction fuel as [|fuel IH]; intros st out st' Hinv Hrun;
    [discriminate|].
  cbn [while_true] in Hrun. specialize (Hbody st Hinv).
  destruct (body st) as [[[text|]|e] st1].
  - inversion Hrun; subst. exact Hbody.
  - exact (IH st1 out st' Hbody Hrun).
  - inversion Hrun; subst. exact Hbody.
Qed.


(** [_execute_tool], case by case. *)
Lemma execute_tool_cases tool_call tools (st : state W) :
  let name := tc_name tool_call in
  let args := tc_arguments tool_call in
  let r := _execute_tool tool_call tools st in
  self (snd r) = self st
  /\ ((tools_get tools name = None
       /\ fst r = Returned ("Error: Tool '" ++ name ++ "' not found")
       /\ trace (snd r) =
            (trace st
             ++ [Log ERROR ("Tool '" ++ name ++ "' not found");
                 Emit (tool_error name ("Tool '" ++ name ++ "' not found"))])%list)
      \/ (is_Some (tools_get tools name)
          /\ exists result,
               fst (tool_execute name args (world st)) = inr result
               /\ fst r = Returned (result_text result)
               /\ trace (snd r) =
                    (trace st
                     ++ [Execute name args;
                         Emit (tool_post name args result)])%list)
      \/ (is_Some (tools_get tools name)
          /\ exists e,
               fst (tool_execute name args (world st)) = inl e
               /\ fst r = (if stop_on_error (self st) then Raised e
                           else Returned ("Tool execution failed: " ++ e))
               /\ trace (snd r) =
                    (trace st
                     ++ [Execute name args;
                         Log ERROR ("Tool " ++ name ++ " failed: " ++ e);
                         Emit (tool_error name e)])%list)).
Proof.
  intros name args r. subst r. unfold _execute_tool. fold name args.
  destruct (tools_get tools name) as [tool|] eqn:Htool.
  - unfold try_except, bind, tool_execute_call.
    destruct (tool_execute name args (world st)) as [[e|result] w1] eqn:Hexec;
      cbn [fst].
    + unfold logger, hooks_emit_event, get_self. cbn [self world trace].
      destruct (hooks_emit (tool_error name e) w1) as [hr w2].
      cbn [self world trace].
      split; [destruct (stop_on_error (self st)); reflexivity|].
      right; right. split; [eauto|]. exists e. split; [reflexivity|].
      destruct (stop_on_error (self st)); cbn [fst snd trace raise ret];
        rewrite <- !app_assoc; auto.
    + unfold hooks_emit_event. cbn [self world trace].
      destruct (hooks_emit (tool_post name args result) w1) as [hr w2].
      cbn [fst snd self trace ret]. split; [reflexivity|].
      right; left. split; [eauto|]. exists result.
      rewrite <- !app_assoc. auto.
  - unfold bind, logger, hooks_emit_event, ret. cbn [self world trace].
    destruct (hooks_emit _ (world st)) as [hr w1].
    cbn [fst snd self trace]. split; [reflexivity|]. left.
    rewrite <- !app_assoc. auto.
Qed.

(** The body of the loop over the tool calls, up to the tool's run. *)
Lemma dispatch_eq tools tool_call (st : state W) :
  dispatch_tool_call tools tool_call st =
    let pre_event :=
      tool_pre (tc_name tool_call) (tc_arguments tool_call) (tc_id tool_call) in
    let '(pre_result, w1) := hooks_emit pre_event (world st) in
    let reply :=
      bind (_execute_tool tool_call tools)
           (fun text => context_add_message (tool_message tool_call text)) in
    match pre_result with
    | Some pre =>
        if String.eqb (action pre) "deny" then
          let msg :=
            tool_message tool_call
              ("Tool blocked by hook: " ++ default "None" (reason pre)) in
          (Returned tt,
           mkState (self st) (ctx_add_message msg w1)
             (trace st
              ++ [Emit pre_event;
                  Log INFO ("Tool " ++ tc_name tool_call ++ " denied by hook");
                  AddMessage msg]))
        else if String.eqb (action pre) "inject_context" then
          let injected :=
            mkMessage
              (if truthy_opt (context_injection_role pre)
               then default "system" (context_injection_role pre)
               else "system")
              (CStr <$> context_injection pre) None None None in
          reply (mkState (self st) (ctx_add_message injected w1)
                   (trace st ++ [Emit pre_event; AddMessage injected]))
        else reply (mkState (self st) w1 (trace st ++ [Emit pre_event]))
    | None => reply (mkState (self st) w1 (trace st ++ [Emit pre_event]))
    end.
Proof.
  unfold dispatch_tool_call. unfold bind at 1. unfold hooks_emit_event.
  cbv zeta.
  destruct (hooks_emit _ (world st)) as [[pre|] w1]; [|reflexivity].
  destruct (action pre =? "deny").
  { unfold bind, logger, ret, context_add_message, tool_message.
    cbn [self world trace]. rewrite <- !app_assoc. reflexivity. }
  destruct (action pre =? "inject_context"); [|reflexivity].
  unfold bind at 1. unfold bind at 1. unfold context_add_message at 1.
  cbn [self world trace]. rewrite <- !app_assoc. reflexivity.
Qed.

Lemma reply_cases tools tool_call (st : state W) :
  let name := tc_name tool_call in
  let args := tc_arguments tool_call in
  let r :=
    bind (_execute_tool tool_call tools)
         (fun text => context_add_message (tool_message tool_call text)) st in
  self (snd r) = self st
  /\ exists added,
       trace (snd r) = (trace st ++ added)%list
       /\ forallb tool_effect added = true
       /\ (tool_executions added = []
           \/ (tool_executions added = [Execute name args]
               /\ is_Some (tools_get tools name)))
       /\ match fst r with
          | Returned _ => tool_replies added = [(name, tc_id tool_call)]
          | Raised _ =>
              tool_replies added = [] /\ stop_on_error (self st) = true
          end.
Proof.
  intros name args r. subst r. unfold bind.
  destruct (execute_tool_cases tool_call tools st) as [Hs Hcases].
  cbv zeta in Hs, Hcases. fold name args in Hcases.
  destruct (_execute_tool tool_call tools st) as [[text|e] st1];
    cbn [fst snd] in *.
  - unfold context_add_message. cbn [fst snd self trace].
    split; [exact Hs|].
    destruct Hcases as [(_ & _ & Ht) | [(Hreg & result & _ & _ & Ht)
                                       | (Hreg & e & _ & _ & Ht)]];
      rewrite Ht, <- app_assoc; eexists; (split; [reflexivity|]);
      cbn; auto.
  - split; [exact Hs|].
    destruct Hcases as [(_ & Hr & _) | [(_ & result & _ & Hr & _)
                                       | (Hreg & e' & _ & Hr & Ht)]];
      try discriminate Hr.
    destruct (stop_on_error (self st)); [|discriminate Hr].
    rewrite Ht. eexists. split; [reflexivity|]. cbn. auto.
Qed.

Lemma dispatch_cases tools tool_call (st : state W) :
  let name := tc_name tool_call in
  let args := tc_arguments tool_call in
  let r := dispatch_tool_call tools tool_call st in
  self (snd r) = self st
  /\ exists added,
       trace (snd r) = (trace st ++ added)%list
       /\ forallb tool_effect added = true
       /\ (tool_executions added = []
           \/ (tool_executions added = [Execute name args]
               /\ is_Some (tools_get tools name)))
       /\ match fst r with
          | Returned _ => tool_replies added = [(name, tc_id tool_call)]
          | Raised _ =>
              tool_replies added = [] /\ stop_on_error (self st) = true
          end.
Proof.
  intros name args r. subst r. rewrite dispatch_eq. cbv zeta.
  destruct (hooks_emit _ (world st)) as [pre_result w1].
  assert (Hreply : forall (st1 : state W) before,
            self st1 = self st ->
            trace st1 = (trace st ++ before)%list ->
            forallb tool_effect before = true ->
            tool_executions before = [] ->
            tool_replies before = [] ->
            let r :=
              bind (_execute_tool tool_call tools)
                (fun text => context_add_message (tool_message tool_call text))
                st1 in
            self (snd r) = self st
            /\ exists added,
                 trace (snd r) = (trace st ++ added)%list
                 /\ forallb tool_effect added = true
                 /\ (tool_executions added = []
                     \/ (tool_executions added = [Execute name args]
                         /\ is_Some (tools_get tools name)))
                 /\ match fst r with
                    | Returned _ => tool_replies added = [(name, tc_id tool_call)]
                    | Raised _ =>
                        tool_replies added = [] /\ stop_on_error (self st) = true
                    end).
  { intros st1 before Hs1 Ht1 Hb1 Hb2 Hb3. cbv zeta.
    destruct (reply_cases tools tool_call st1)
      as (Hs & added & Ht & Hp & Hx & Hr).
    cbv zeta in Hs, Ht, Hx, Hr. fold name args in Hx, Hr.
    split; [congruence|]. exists (before ++ added)%list.
    rewrite Ht, Ht1, <- app_assoc, forallb_app, Hb1, Hp, tool_executions_app,
      Hb2, tool_replies_app, Hb3, Hs1 in *.
    repeat split; try assumption. }
  destruct pre_result as [pre|].
  - destruct (action pre =? "deny").
    { cbn [fst snd self trace]. split; [reflexivity|].
      eexists. split; [reflexivity|]. cbn. auto. }
    destruct (action pre =? "inject_context").
    + eapply Hreply; [reflexivity | reflexivity | reflexivity | reflexivity
                      | reflexivity].
    + eapply Hreply; reflexivity.
  - eapply Hreply; reflexivity.
Qed.

(** The loop over the tool calls of a response: the calls answered are a
    prefix of the calls made, the whole list unless a tool's exception got
    through. *)
Lemma for_each_dispatch_cases tools calls (st : state W) :
  let r := for_each calls (dispatch_tool_call tools) st in
  self (snd r) = self st
  /\ exists added n,
       trace (snd r) = (trace st ++ added)%list
       /\ forallb tool_effect added = true
       /\ Forall (fun e => exists tc,
                    tc ∈ calls
                    /\ e = Execute (tc_name tc) (tc_arguments tc)
                    /\ is_Some (tools_get tools (tc_name tc)))
                 (tool_executions added)
       /\ tool_replies added =
            map (fun tc => (tc_name tc, tc_id tc)) (take n calls)
       /\ match fst r with
          | Returned _ => n = length calls
          | Raised _ => (n < length calls)%nat /\ stop_on_error (self st) = true
          end.
Proof.
  revert st. induction calls as [|tc calls IH]; intros st; cbn [for_each].
  - cbn [ret fst snd]. split; [reflexivity|]. exists [], 0%nat.
    rewrite app_nil_r. repeat split. constructor.
  - unfold bind.
    destruct (dispatch_cases tools tc st) as (Hs & added & Ht & Hp & Hx & Hr).
    cbv zeta in Hs, Ht, Hx, Hr.
    assert (Hx' : Forall (fun e => exists tc',
                     tc' ∈ tc :: calls
                     /\ e = Execute (tc_name tc') (tc_arguments tc')
                     /\ is_Some (tools_get tools (tc_name tc')))
                  (tool_executions added)).
    { destruct Hx as [-> | [-> Hreg]]; [constructor|].
      constructor; [|constructor]. exists tc. split; [left|]. auto. }
    destruct (dispatch_tool_call tools tc st) as [[[]|e] st1];
      cbn [fst snd] in *.
    + destruct (IH st1) as (Hs2 & added2 & n & Ht2 & Hp2 & Hx2 & Hr2 & Hn).
      cbv zeta in Hs2, Ht2, Hn. split; [congruence|].
      exists (added ++ added2)%list, (S n).
      rewrite Ht2, Ht, <- app_assoc, forallb_app, Hp, Hp2, tool_executions_app,
        tool_replies_app, Hr, Hr2.
      split; [reflexivity|]. split; [reflexivity|].
      split.
      { apply Forall_app. split; [exact Hx'|].
        eapply Forall_impl; [exact Hx2|]. cbv beta.
        intros e (tc' & Hin & He). exists tc'. split; [right; exact Hin|].
        exact He. }
      split; [reflexivity|].
      destruct (fst (for_each calls (dispatch_tool_call tools) st1)).
      * cbn [length]. congruence.
      * destruct Hn as [Hn Hstop]. rewrite <- Hs. cbn [length].
        split; [lia | exact Hstop].
    + destruct Hr as [Hr Hstop]. split; [exact Hs|]. exists added, 0%nat.
      split; [exact Ht|]. split; [exact Hp|]. split; [exact Hx'|].
      split; [exact Hr|]. cbn [length]. split; [lia | exact Hstop].
Qed.


Lemma provider_calls_requests t :
  provider_calls t = length (provider_requests t).
Proof.
  unfold provider_calls. induction t as [|e t IH]; [reflexivity|].
  destruct e; cbn; auto.
Qed.

Lemma handle_response_eq s provider tools response (st : state W) :
  handle_response s provider tools response st =
    let '(_, w1) :=
      hooks_emit (provider_response provider response) (world st) in
    let calls := resp_tool_calls response in
    let assistant_msg :=
      mkMessage "assistant"
        (Some (_serialize_content (raw_content_of response)))
        (match calls with [] => None | _ => Some calls end) None None in
    let st1 :=
      mkState (self st) (ctx_add_message assistant_msg w1)
        (trace st ++ [Emit (provider_response provider response);
                      AddMessage assistant_msg]) in
    match calls with
    | [] =>
        let done := orchestrator_complete (iteration_count s) "success" in
        (Returned (Some (_content_to_string (raw_content_of response))),
         mkState (self st) (snd (hooks_emit done (world st1)))
                 (trace st1 ++ [Emit done]))
    | _ => bind (for_each calls (dispatch_tool_call tools))
                (fun _ => ret None) st1
    end.
Proof.
  unfold handle_response. unfold bind at 1. unfold hooks_emit_event at 1.
  destruct (hooks_emit (provider_response provider response) (world st))
    as [hr w1].
  cbv zeta. unfold bind at 1. unfold context_add_message at 1.
  cbn [self world trace].
  destruct (resp_tool_calls response) as [|tc calls].
  - unfold bind, hooks_emit_event, ret. cbn [self world trace].
    destruct (hooks_emit (orchestrator_complete _ _) _) as [hr2 w2].
    cbn [snd]. rewrite <- !app_assoc. reflexivity.
  - rewrite <- !app_assoc. reflexivity.
Qed.

Lemma handle_response_cases s provider tools response (st : state W) :
  let r := handle_response s provider tools response st in
  let calls := resp_tool_calls response in
  let text := _content_to_string (raw_content_of response) in
  self (snd r) = self st
  /\ ((calls = []
       /\ fst r = Returned (Some text)
       /\ trace (snd r) =
            (trace st
             ++ [Emit (provider_response provider response);
                 AddMessage
                   (mkMessage "assistant"
                      (Some (_serialize_content (raw_content_of response)))
                      None None None);
                 Emit (orchestrator_complete (iteration_count s) "success")])%list)
      \/ (calls <> []
          /\ exists added n,
               trace (snd r) =
                 (trace st
                  ++ [Emit (provider_response provider response);
                      AddMessage
                        (mkMessage "assistant"
                           (Some (_serialize_content (raw_content_of response)))
                           (Some calls) None None)]
                  ++ added)%list
               /\ forallb tool_effect added = true
               /\ Forall (fun e => exists tc,
                            tc ∈ calls
                            /\ e = Execute (tc_name tc) (tc_arguments tc)
                            /\ is_Some (tools_get tools (tc_name tc)))
                         (tool_executions added)
               /\ tool_replies added =
                    map (fun tc => (tc_name tc, tc_id tc)) (take n calls)
               /\ match fst r with
                  | Returned None => n = length calls
                  | Returned (Some _) => False
                  | Raised _ =>
                      (n < length calls)%nat /\ stop_on_error (self st) = true
                  end)).
Proof.
  intros r calls text. subst r. rewrite handle_response_eq.
  destruct (hooks_emit (provider_response provider response) (world st))
    as [hr w1].
  cbv zeta. fold calls.
  destruct calls as [|tc calls'] eqn:Hcalls.
  - cbn [fst snd self trace]. split; [reflexivity|]. left.
    rewrite <- !app_assoc. auto.
  - unfold bind.
    match goal with
    | |- context [for_each ?cs ?body ?st1] =>
        destruct (for_each_dispatch_cases tools cs st1)
          as (Hs & added & n & Ht & Hp & Hx & Hr & Hn);
        cbv zeta in Hs, Ht, Hn;
        destruct (for_each cs body st1) as [[[]|e] st2]
    end; cbn [fst snd self trace ret] in *.
    + split; [exact Hs|]. right. split; [discriminate|].
      exists added, n. rewrite Ht, <- !app_assoc. auto.
    + split; [exact Hs|]. right. split; [discriminate|].
      exists added, n. rewrite Ht, <- !app_assoc. auto.
Qed.

(** What one branch of a pass adds to the trace. *)
Lemma branch_cases s provider tools tools_list (st : state W) :
  self st = s ->
  let c := iteration_count s in
  let r :=
    (if (max_iterations s <=? iteration_count s)%Z
     then limit_branch s provider tools_list
     else request_branch s provider tools tools_list) st in
  self (snd r) = s
  /\ exists added msgs offered,
       trace (snd r) = (trace st ++ added)%list
       /\ provider_requests added = [(provider, mkChatRequest msgs offered)]
       /\ Forall (registered_execution tools) (tool_executions added)
       /\ match fst r with
          | Returned (Some _) =>
              exists before status,
                added = (before ++ [Emit (orchestrator_complete c status)])%list
                /\ completion_statuses before = []
                /\ tool_executions added = []
                /\ ((status = "success" /\ (c < max_iterations s)%Z
                     /\ offered = tools_list)
                    \/ ((status = "incomplete" \/ status = "error")
                        /\ (max_iterations s <= c)%Z /\ offered = None))
          | Returned None =>
              completion_statuses added = [] /\ (c < max_iterations s)%Z
              /\ offered = tools_list
          | Raised _ =>
              completion_statuses added = [] /\ (c < max_iterations s)%Z
              /\ offered = tools_list
          end.
Proof.
  intros Hself c r. subst r.
  destruct (Z.leb_spec (max_iterations s) (iteration_count s)) as [Hle|Hlt].
  - destruct (limit_branch_eq s provider tools_list st)
      as (msgs & tail & text & status & w' & Heq & Hc & Hp & Hx & _ & Hst).
    rewrite Heq. cbn [fst snd self trace]. split; [exact Hself|].
    eexists _, msgs, None. split; [reflexivity|].
    rewrite Hself. fold c.
    split.
    { rewrite !provider_requests_app, Hp. reflexivity. }
    split.
    { rewrite !tool_executions_app, Hx. cbn. constructor. }
    eexists (_ ++ tail)%list, status.
    split; [rewrite <- app_assoc; reflexivity|]. split.
    { rewrite completion_statuses_app, Hc. reflexivity. }
    split.
    { rewrite !tool_executions_app, Hx. reflexivity. }
    right. auto.
  - rewrite request_branch_eq.
    destruct (ctx_get_messages_for_request (world st)) as [msgs w1].
    destruct (hooks_emit _ w1) as [hr w2]. cbv zeta.
    destruct (provider_complete provider (mkChatRequest msgs tools_list) w2)
      as [[e|response] w3].
    + cbn [fst snd self trace]. split; [exact Hself|].
      eexists _, msgs, tools_list. rewrite <- app_assoc.
      split; [reflexivity|]. split; [reflexivity|].
      split; [constructor|]. auto.
    + match goal with
      | |- context [handle_response s provider tools response ?st1] =>
          destruct (handle_response_cases s provider tools response st1)
            as [Hs Hcases];
          cbv zeta in Hs, Hcases; cbn [self trace] in Hs, Hcases;
          destruct (handle_response s provider tools response st1)
            as [out st2]
      end.
      cbn [fst snd] in *. split; [congruence|].
      destruct Hcases as [(Hnil & Hout & Ht)
                         | (Hne & added & n & Ht & Hp & Hx & _ & Hn)].
      * rewrite Hout, Ht, <- app_assoc. eexists _, msgs, tools_list.
        split; [reflexivity|]. split; [reflexivity|].
        split; [constructor|].
        eexists [GetMessages; Emit _; Complete _ _; Emit _; AddMessage _],
          "success".
        split; [reflexivity|]. split; [reflexivity|].
        split; [reflexivity|]. left. auto.
      * destruct (tool_effects_summary _ Hp) as (Hc1 & Hp1 & _).
        rewrite Ht, <- !app_assoc. eexists _, msgs, tools_list.
        split; [reflexivity|].
        split.
        { cbn [app provider_requests]. rewrite Hp1. reflexivity. }
        split.
        { cbn [app tool_executions List.filter is_execute].
          fold (tool_executions added).
          eapply Forall_impl; [exact Hx|]. cbv beta.
          intros e (tc & _ & -> & Hreg). eexists _, _. eauto. }
        destruct out as [[text|]|e]; [destruct Hn | |];
          (split; [|auto]); cbn [app completion_statuses]; exact Hc1.
Qed.


(** The warning step of a pass. *)
Lemma warn_step_cases (st : state W) :
  let s := self st in
  let r :=
    (if bool_decide (iteration_count s ∈ warn_at s)
     then _inject_warning else ret tt) st in
  (max_iterations s = 0%Z /\ iteration_count s ∈ warn_at s
   /\ r = (Raised "division by zero", st))
  \/ (~ (max_iterations s = 0%Z /\ iteration_count s ∈ warn_at s)
      /\ exists w1 added,
           r = (Returned tt, mkState s w1 (trace st ++ added))
           /\ completion_statuses added = []
           /\ provider_requests added = []
           /\ tool_executions added = []
           /\ tool_replies added = []).
Proof.
  intros s r. subst r s.
  destruct (bool_decide (iteration_count (self st) ∈ warn_at (self st)))
    eqn:Hin.
  - apply bool_decide_eq_true in Hin. rewrite inject_warning_spec.
    destruct (Z.eqb_spec (max_iterations (self st)) 0) as [Hz|Hnz].
    + left. auto.
    + right. split; [tauto|]. cbv zeta. eexists _, _.
      split; [reflexivity|]. auto.
  - apply bool_decide_eq_false in Hin. right. split; [tauto|].
    exists (world st), []. rewrite app_nil_r. destruct st. auto.
Qed.

(** What one pass of the loop adds to the trace. *)
Lemma pass_cases provider tools tools_list (st : state W) :
  let c := (iteration_count (self st) + 1)%Z in
  let maxi := max_iterations (self st) in
  let r := loop_body provider tools tools_list st in
  self (snd r) = set_iteration_count (self st) c
  /\ exists added,
       trace (snd r) = (trace st ++ added)%list
       /\ Forall (registered_execution tools) (tool_executions added)
       /\ ((maxi = 0%Z /\ c ∈ warn_at (self st)
            /\ fst r = Raised "division by zero" /\ added = [])
           \/ (~ (maxi = 0%Z /\ c ∈ warn_at (self st))
               /\ exists msgs offered,
                    provider_requests added =
                      [(provider, mkChatRequest msgs offered)]
                    /\ match fst r with
                       | Returned (Some _) =>
                           exists before status,
                             added =
                               (before
                                ++ [Emit (orchestrator_complete c status)])%list
                             /\ completion_statuses before = []
                             /\ tool_executions added = []
                             /\ ((status = "success" /\ (c < maxi)%Z
                                  /\ offered = tools_list)
                                 \/ ((status = "incomplete" \/ status = "error")
                                     /\ (maxi <= c)%Z /\ offered = None))
                       | Returned None =>
                           completion_statuses added = [] /\ (c < maxi)%Z
                           /\ offered = tools_list
                       | Raised _ =>
                           completion_statuses added = [] /\ (c < maxi)%Z
                           /\ offered = tools_list
                       end)).
Proof.
  intros c maxi r. subst r. rewrite loop_body_eq. cbv zeta. fold c.
  set (s := set_iteration_count (self st) c).
  set (st0 := mkState s (world st) (trace st)).
  unfold bind.
  destruct (warn_step_cases st0) as [(Hz & Hin & Hr) | (Hnot & w1 & pre & Hr & Hc & Hp & Hx & _)];
    cbv zeta in Hr; cbn [self st0] in Hr; rewrite Hr.
  - cbn [fst snd self st0 trace]. split; [reflexivity|]. exists [].
    rewrite app_nil_r. split; [reflexivity|]. split; [constructor|].
    left. auto.
  - match goal with
    | |- context [(if (_ <=? _)%Z then _ else _) ?st1] =>
        destruct (branch_cases s provider tools tools_list st1 eq_refl)
          as (Hs & added & msgs & offered & Ht & Hreq & Hexec & Hout);
        cbv zeta in Hs, Ht, Hout;
        destruct ((if (max_iterations s <=? iteration_count s)%Z
                   then limit_branch s provider tools_list
                   else request_branch s provider tools tools_list) st1)
          as [out st2]
    end.
    cbn [fst snd trace] in *. split; [exact Hs|].
    exists (pre ++ added)%list. rewrite Ht, <- app_assoc.
    split; [reflexivity|].
    split; [rewrite tool_executions_app, Hx; exact Hexec|].
    right. split; [exact Hnot|]. exists msgs, offered.
    split; [rewrite provider_requests_app, Hp; exact Hreq|].
    change (iteration_count s) with c in Hout.
    change (max_iterations s) with maxi in Hout.
    destruct out as [[text|]|e].
    + destruct Hout as (before & status & Hadd & Hcb & Hxa & Hst).
      exists (pre ++ before)%list, status.
      rewrite tool_executions_app, Hx, Hxa, Hadd, <- app_assoc.
      split; [reflexivity|]. rewrite completion_statuses_app, Hc, Hcb. auto.
    + rewrite completion_statuses_app, Hc. exact Hout.
    + rewrite completion_statuses_app, Hc. exact Hout.
Qed.

(** What holds of every run of [execute] that gets past the choice of the
    provider. *)
Lemma run_cases orch w prompt providers tools fuel out (st : state W) provider :
  fst (select_provider providers (mkState orch w [])) = Returned provider ->
  execute fuel orch w prompt providers tools = Some (out, st) ->
  let k := iteration_count (self st) in
  let maxi := max_iterations orch in
  let requests := provider_requests (trace st) in
  let offers_tools (pr : string * ChatRequest) :=
    fst pr = provider /\ req_tools (snd pr) = build_tools_list tools in
  max_iterations (self st) = maxi
  /\ Forall (registered_execution tools) (tool_executions (trace st))
  /\ (exists earlier,
        Forall offers_tools earlier
        /\ (requests = earlier
            \/ exists msgs,
                 requests = (earlier ++ [(provider, mkChatRequest msgs None)])%list
                 /\ (maxi <= k)%Z))
  /\ match out with
     | Returned _ =>
         exists before status,
           trace st = (before ++ [Emit (orchestrator_complete k status)])%list
           /\ completion_statuses before = []
           /\ ((status = "success" /\ (k < maxi)%Z)
               \/ ((status = "incomplete" \/ status = "error")
                   /\ (maxi <= k)%Z))
     | Raised _ => completion_statuses (trace st) = []
     end
  /\ ((maxi = 0%Z /\ out = Raised "division by zero" /\ k = 1%Z
       /\ requests = [])
      \/ Z.of_nat (length requests) = k).
Proof.
  intros Hsel Hrun k maxi requests offers_tools. subst k requests.
  unfold execute in Hrun. rewrite prologue_by_selection, Hsel in Hrun.
  cbv beta iota zeta in Hrun.
  set (tools_list := build_tools_list tools) in *.
  match type of Hrun with
  | while_true _ _ ?x = _ => set (st0 := x) in Hrun
  end.
  pose (Inv := fun st1 : state W =>
    max_iterations (self st1) = maxi
    /\ (iteration_count (self st1) = 0 \/ 0 < iteration_count (self st1) < maxi)%Z
    /\ completion_statuses (trace st1) = []
    /\ Forall (registered_execution tools) (tool_executions (trace st1))
    /\ Forall offers_tools (provider_requests (trace st1))
    /\ Z.of_nat (length (provider_requests (trace st1)))
       = iteration_count (self st1)).
  pattern out, st.
  match goal with
  | |- ?Post out st =>
      refine (while_true_invariant Inv Post _ _ fuel st0 out st _ Hrun)
  end.
  2: { subst Inv st0. cbn. repeat split; try constructor. auto. }
  clear Hrun st out. intros st (Hmax & Hpos & Hc & Hx & Hreq & Hlen).
  destruct (pass_cases provider tools tools_list st)
    as (Hs & added & Ht & Hexec & Hcases).
  cbv zeta in Hs, Ht, Hcases. rewrite Hmax in Hcases.
  destruct (loop_body provider tools tools_list st) as [out st1].
  cbn [fst snd] in *.
  assert (Hmax1 : max_iterations (self st1) = maxi) by (rewrite Hs; exact Hmax).
  assert (Hk : iteration_count (self st1) = (iteration_count (self st) + 1)%Z)
    by (rewrite Hs; reflexivity).
  assert (Hx1 : Forall (registered_execution tools) (tool_executions (trace st1))).
  { rewrite Ht, tool_executions_app. apply Forall_app. auto. }
  destruct Hcases as [(Hz & Hin & -> & ->)
                     | (Hnot & msgs & offered & Hadded & Hout)].
  - rewrite app_nil_r in Ht.
    assert (Hzero : iteration_count (self st) = 0%Z) by lia.
    split; [exact Hmax1|]. split; [exact Hx1|]. rewrite Ht.
    split; [exists (provider_requests (trace st)); auto|].
    split; [exact Hc|].
    left. rewrite Hk, Hzero.
    destruct (provider_requests (trace st)); [auto|]. simpl in Hlen. lia.
  - assert (Hreqs : provider_requests (trace st1) =
                    (provider_requests (trace st)
                     ++ [(provider, mkChatRequest msgs offered)])%list).
    { rewrite Ht, provider_requests_app, Hadded. reflexivity. }
    assert (Hlen1 : Z.of_nat (length (provider_requests (trace st1)))
                    = iteration_count (self st1)).
    { rewrite Hreqs, length_app, Hk. simpl. lia. }
    assert (Hoffer : offered = tools_list ->
                     Forall offers_tools (provider_requests (trace st1))).
    { intros ->. rewrite Hreqs. apply Forall_app. split; [exact Hreq|].
      constructor; [|constructor]. split; reflexivity. }
    destruct out as [[text|]|e].
    + destruct Hout as (before & status & -> & Hcb & _ & Hst).
      split; [exact Hmax1|]. split; [exact Hx1|]. rewrite Hk.
      split.
      { destruct Hst as [(_ & _ & ->) | (_ & Hle & ->)].
        - exists (provider_requests (trace st1)). auto.
        - exists (provider_requests (trace st)). split; [exact Hreq|].
          right. exists msgs. auto. }
      split.
      { exists (trace st ++ before)%list, status.
        rewrite Ht, <- app_assoc, completion_statuses_app, Hc, Hcb.
        split; [reflexivity|]. split; [reflexivity|]. tauto. }
      right. rewrite <- Hk. exact Hlen1.
    + destruct Hout as (Hca & Hlt & ->).
      split; [exact Hmax1|]. split; [lia|].
      split; [rewrite Ht, completion_statuses_app, Hc, Hca; reflexivity|].
      split; [exact Hx1|]. split; [auto | exact Hlen1].
    + destruct Hout as (Hca & Hlt & ->).
      split; [exact Hmax1|]. split; [exact Hx1|].
      split; [exists (provider_requests (trace st1)); auto|].
      split; [rewrite Ht, completion_statuses_app, Hc, Hca; reflexivity|].
      right. exact Hlen1.
Qed.

(** The first pass of a run. *)
Lemma execute_first_pass orch w prompt providers tools fuel provider :
  fst (select_provider providers (mkState (W:=W) orch w [])) = Returned provider ->
  let user_msg := mkMessage "user" (Some (CStr prompt)) None None None in
  let st0 :=
    mkState (set_iteration_count orch 0) (ctx_add_message user_msg w)
            [AddMessage user_msg] in
  execute (S fuel) orch w prompt providers tools =
    match loop_body provider tools (build_tools_list tools) st0 with
    | (Returned (Some text), st') => Some (Returned text, st')
    | (Returned None, st') =>
        while_true fuel (loop_body provider tools (build_tools_list tools)) st'
    | (Raised e, st') => Some (Raised e, st')
    end.
Proof.
  intros Hsel user_msg st0. unfold execute.
  rewrite prologue_by_selection, Hsel. reflexivity.
Qed.

(** ** The warnings of a run *)





















Lemma termination_message_is_no_warning max :
  is_warning_message (system_message (termination_text max)) = false.
Proof. reflexivity. Qed.













(** ** More about the orchestrator *)


(** X10. [execute] starts from a counter of 0 whatever the instance's
    counter was: a second invocation on the same instance behaves as the
    first one would, in what it returns, in what it does and in the counter
    it ends with. *)
Theorem execute_resets_the_counter orch n w prompt providers tools fuel provider :
  fst (select_provider providers (mkState (W:=W) orch w [])) = Returned provider ->
  execute fuel (set_iteration_count orch n) w prompt providers tools
  = execute fuel orch w prompt providers tools.
Proof.
  intros Hsel. unfold execute. rewrite !prologue_by_selection.
  rewrite select_provider_spec in Hsel. rewrite !select_provider_spec.
  cbn [fst self] in *.
  change (default_provider_name (set_iteration_count orch n))
    with (default_provider_name orch).
  rewrite Hsel. reflexivity.
Qed.

(** X11. With [max_iterations] at most 1 (0 and negative limits
    included) the first pass is the wrap-up: the run makes one provider
    call, with no tools offered, executes no tool, and returns. *)
Theorem limit_of_one_or_less_wraps_up_at_once
    orch w prompt providers tools fuel provider :
  fst (select_provider providers (mkState (W:=W) orch w [])) = Returned provider ->
  (max_iterations orch <= 1)%Z ->
  ~ (max_iterations orch = 0%Z /\ 1%Z ∈ warn_at orch) ->
  (1 <= fuel)%nat ->
  exists text st msgs,
    execute fuel orch w prompt providers tools = Some (Returned text, st)
    /\ iteration_count (self st) = 1%Z
    /\ provider_requests (trace st) = [(provider, mkChatRequest msgs None)]
    /\ tool_executions (trace st) = []
    /\ (completion_statuses (trace st) = ["incomplete"]
        \/ completion_statuses (trace st) = ["error"]).
Proof.
  intros Hsel Hmax Hnot Hfuel. destruct fuel as [|fuel]; [lia|].
  rewrite (execute_first_pass _ _ _ _ _ _ _ Hsel). cbv zeta.
  match goal with
  | |- context [loop_body provider tools ?tl ?st0] =>
      destruct (pass_cases provider tools tl st0)
        as (Hs & added & Ht & _ & Hcases);
      cbv zeta in Hs, Ht, Hcases;
      destruct (loop_body provider tools tl st0) as [out st1]
  end.
  cbn [fst snd self trace iteration_count set_iteration_count max_iterations
       warn_at] in *.
  change (0 + 1)%Z with 1%Z in *.
  destruct Hcases as [(Hz & Hin & _) | (_ & msgs & offered & Hreq & Hout)];
    [destruct Hnot; auto|].
  destruct out as [[text|]|e]; [|lia|lia].
  destruct Hout as (before & status & Hadd & Hcb & Hx & Hst).
  destruct Hst as [(_ & Hlt & _) | (Hstatus & _ & ->)]; [lia|].
  exists text, st1, msgs. split; [reflexivity|].
  rewrite Hs, Ht. split; [reflexivity|].
  split; [cbn [app provider_requests]; exact Hreq|].
  split; [cbn [app tool_executions List.filter is_execute]; exact Hx|].
  cbn [app completion_statuses].
  rewrite Hadd, completion_statuses_app, Hcb.
  destruct Hstatus as [-> | ->]; auto.
Qed.

(** X12. With [max_iterations = 0] and 1 among the warning thresholds,
    the first pass divides by zero in [_inject_warning]: [execute] raises
    after appending the prompt, before any provider call. *)
Theorem zero_limit_with_warning_at_one_raises
    orch w prompt providers tools fuel provider :
  fst (select_provider providers (mkState (W:=W) orch w [])) = Returned provider ->
  max_iterations orch = 0%Z ->
  1%Z ∈ warn_at orch ->
  (1 <= fuel)%nat ->
  let user_msg := mkMessage "user" (Some (CStr prompt)) None None None in
  execute fuel orch w prompt providers tools
  = Some (Raised "division by zero",
          mkState (set_iteration_count orch 1) (ctx_add_message user_msg w)
                  [AddMessage user_msg]).
Proof.
  intros Hsel Hmax Hin Hfuel user_msg. destruct fuel as [|fuel]; [lia|].
  unfold execute. rewrite prologue_by_selection, Hsel. cbv beta iota zeta.
  cbn [while_true]. rewrite loop_body_eq. cbv zeta.
  cbn [self iteration_count set_iteration_count max_iterations warn_at].
  change (0 + 1)%Z with 1%Z. unfold bind.
  rewrite bool_decide_eq_true_2 by exact Hin.
  rewrite inject_warning_spec.
  cbn [self iteration_count set_iteration_count max_iterations warn_at].
  rewrite Hmax. reflexivity.
Qed.

(** X13. A run that returns has emitted [orchestrator:complete] exactly
    once, as its last effect, with the final iteration count as
    [turn_count]; the status is [success] below the limit and [incomplete]
    or [error] at it. A run that raises has not emitted it. *)
Theorem completion_event_exactly_on_return
    orch w prompt providers tools fuel out (st : state W) :
  execute fuel orch w prompt providers tools = Some (out, st) ->
  let k := iteration_count (self st) in
  match out with
  | Returned _ =>
      exists before status,
        trace st = (before ++ [Emit (orchestrator_complete k status)])%list
        /\ completion_statuses before = []
        /\ completion_statuses (trace st) = [status]
        /\ ((status = "success" /\ (k < max_iterations orch)%Z)
            \/ ((status = "incomplete" \/ status = "error")
                /\ (max_iterations orch <= k)%Z))
  | Raised _ => completion_statuses (trace st) = []
  end.
Proof.
  intros Hrun k. subst k.
  destruct (fst (select_provider providers (mkState orch w []))) as [p|e]
    eqn:Hsel.
  - destruct (run_cases _ _ _ _ _ _ _ _ _ Hsel Hrun) as (_ & _ & _ & Hout & _).
    destruct out as [text|e]; [|exact Hout].
    destruct Hout as (before & status & Ht & Hb & Hst).
    exists before, status. split; [exact Ht|]. split; [exact Hb|].
    split; [|exact Hst]. rewrite Ht, completion_statuses_app, Hb. reflexivity.
  - unfold execute in Hrun. rewrite prologue_by_selection, Hsel in Hrun.
    inversion Hrun. reflexivity.
Qed.

(** X14. Unless the limit is 0, every pass of the loop makes exactly one
    provider call: at the end of a run the iteration count is the number of
    calls made to [provider.complete]. *)
Theorem iteration_count_counts_provider_calls
    orch w prompt providers tools fuel out (st : state W) provider :
  fst (select_provider providers (mkState orch w [])) = Returned provider ->
  max_iterations orch <> 0%Z ->
  execute fuel orch w prompt providers tools = Some (out, st) ->
  Z.of_nat (provider_calls (trace st)) = iteration_count (self st).
Proof.
  intros Hsel Hmax Hrun.
  destruct (run_cases _ _ _ _ _ _ _ _ _ Hsel Hrun)
    as (_ & _ & _ & _ & [(Hz & _) | Hlen]); [contradiction|].
  rewrite provider_calls_requests. exact Hlen.
Qed.


(** X16. A run only executes tools that are registered under the name
    the provider asked for; with no tools registered it executes none. *)
Theorem only_registered_tools_are_executed
    orch w prompt providers tools fuel out (st : state W) :
  execute fuel orch w prompt providers tools = Some (out, st) ->
  Forall (registered_execution tools) (tool_executions (trace st))
  /\ (tools = [] -> tool_executions (trace st) = []).
Proof.
  intros Hrun.
  assert (Hall : Forall (registered_execution tools)
                        (tool_executions (trace st))).
  { destruct (fst (select_provider providers (mkState orch w []))) as [p|e]
      eqn:Hsel.
    - destruct (run_cases _ _ _ _ _ _ _ _ _ Hsel Hrun) as (_ & Hx & _).
      exact Hx.
    - unfold execute in Hrun. rewrite prologue_by_selection, Hsel in Hrun.
      inversion Hrun. constructor. }
  split; [exact Hall|]. intros ->.
  destruct (tool_executions (trace st)) as [|e rest]; [reflexivity|].
  inversion Hall as [|? ? (name & args & _ & [t Ht]) _]. discriminate Ht.
Qed.


(** A pass below the limit, by the provider's answer. *)
Lemma request_pass_cases provider tools tools_list (st : state W) :
  let c := (iteration_count (self st) + 1)%Z in
  (c < max_iterations (self st))%Z ->
  max_iterations (self st) <> 0%Z ->
  exists msgs w' before,
    provider_requests before = []
    /\ completion_statuses before = []
    /\ tool_executions before = []
    /\ let request := mkChatRequest msgs tools_list in
       let asked :=
         [GetMessages; Emit (provider_request provider msgs c false);
          Complete provider request] in
       match fst (provider_complete provider request w') with
       | inl e =>
           exists st',
             loop_body provider tools tools_list st = (Raised e, st')
             /\ self st' = set_iteration_count (self st) c
             /\ trace st' =
                  (trace st ++ before ++ asked
                   ++ [Log ERROR ("Provider error: " ++ e);
                       Emit (provider_error provider e)])%list
       | inr response =>
           resp_tool_calls response = [] ->
           exists st',
             loop_body provider tools tools_list st
             = (Returned (Some (_content_to_string (raw_content_of response))),
                st')
             /\ self st' = set_iteration_count (self st) c
             /\ trace st' =
                  (trace st ++ before ++ asked
                   ++ [Emit (provider_response provider response);
                       AddMessage
                         (mkMessage "assistant"
                            (Some (_serialize_content (raw_content_of response)))
                            None None None);
                       Emit (orchestrator_complete c "success")])%list
       end.
Proof.
  intros c Hlt Hmax. rewrite loop_body_eq. cbv zeta. fold c.
  set (s := set_iteration_count (self st) c).
  set (st0 := mkState s (world st) (trace st)).
  unfold bind.
  destruct (warn_step_cases st0)
    as [(Hz & _) | (_ & w1 & pre & Hr & Hc & Hp & Hx & _)];
    [contradiction|].
  cbv zeta in Hr. cbn [self st0] in Hr. rewrite Hr.
  replace (max_iterations s <=? iteration_count s)%Z with false
    by (symmetry; apply Z.leb_gt; exact Hlt).
  rewrite request_branch_eq. cbn [self world trace st0].
  destruct (ctx_get_messages_for_request w1) as [msgs w2].
  destruct (hooks_emit _ w2) as [hr w3]. cbv zeta.
  exists msgs, w3, pre. split; [exact Hp|]. split; [exact Hc|].
  split; [exact Hx|].
  change (iteration_count s) with c.
  destruct (provider_complete provider (mkChatRequest msgs tools_list) w3)
    as [[e|response] w4]; cbn [fst].
  - eexists. split; [reflexivity|]. cbn [self trace].
    split; [reflexivity|]. rewrite <- !app_assoc. reflexivity.
  - intros Hnil. rewrite handle_response_eq. cbn [self world trace].
    destruct (hooks_emit (provider_response provider response) w4) as [hr4 w5].
    cbv zeta. rewrite Hnil. eexists. split; [reflexivity|].
    cbn [self trace]. split; [reflexivity|].
    rewrite <- !app_assoc. reflexivity.
Qed.

(** The first pass of a run whose limit is above 1, by the provider's
    answer. *)
Lemma first_pass_cases orch w prompt providers tools fuel provider :
  fst (select_provider providers (mkState (W:=W) orch w [])) = Returned provider ->
  (1 < max_iterations orch)%Z ->
  exists msgs w',
    match fst (provider_complete provider
                 (mkChatRequest msgs (build_tools_list tools)) w') with
    | inl e =>
        exists st before,
          execute (S fuel) orch w prompt providers tools = Some (Raised e, st)
          /\ iteration_count (self st) = 1%Z
          /\ provider_requests (trace st)
             = [(provider, mkChatRequest msgs (build_tools_list tools))]
          /\ trace st =
               (before ++ [Log ERROR ("Provider error: " ++ e);
                           Emit (provider_error provider e)])%list
          /\ provider_calls (trace st) = 1%nat
          /\ completion_statuses (trace st) = []
          /\ tool_executions (trace st) = []
    | inr response =>
        resp_tool_calls response = [] ->
        exists st,
          execute (S fuel) orch w prompt providers tools
          = Some (Returned (_content_to_string (raw_content_of response)), st)
          /\ iteration_count (self st) = 1%Z
          /\ provider_calls (trace st) = 1%nat
          /\ completion_statuses (trace st) = ["success"]
          /\ tool_executions (trace st) = []
    end.
Proof.
  intros Hsel Hmax. rewrite (execute_first_pass _ _ _ _ _ _ _ Hsel).
  cbv zeta.
  match goal with
  | |- context [loop_body provider tools ?tl ?x] =>
      destruct (request_pass_cases provider tools tl x)
        as (msgs & w' & pre & Hp & Hc & Hx & Hcases);
      [exact Hmax | cbn; lia |]
  end.
  cbv zeta in Hcases. exists msgs, w'.
  assert (Hcalls : forall t0 t, provider_calls (t0 :: pre ++ t)
                                = (provider_calls [t0] + provider_calls t)%nat).
  { intros t0 t. change (t0 :: pre ++ t) with ([t0] ++ pre ++ t)%list.
    rewrite !provider_calls_app, (provider_calls_requests pre), Hp.
    reflexivity. }
  assert (Hdone : forall t0 t, completion_statuses (t0 :: pre ++ t)
                    = (completion_statuses [t0] ++ completion_statuses t)%list).
  { intros t0 t. change (t0 :: pre ++ t) with ([t0] ++ pre ++ t)%list.
    rewrite !completion_statuses_app, Hc. reflexivity. }
  assert (Hexec : forall t0 t, tool_executions (t0 :: pre ++ t)
                    = (tool_executions [t0] ++ tool_executions t)%list).
  { intros t0 t. change (t0 :: pre ++ t) with ([t0] ++ pre ++ t)%list.
    rewrite !tool_executions_app, Hx. reflexivity. }
  destruct (fst (provider_complete provider
                   (mkChatRequest msgs (build_tools_list tools)) w'))
    as [e|response].
  - destruct Hcases as (st' & -> & Hs & Ht). exists st'.
    eexists (_ :: pre ++ [_; _; _])%list.
    split; [reflexivity|]. rewrite Hs, Ht. cbn [trace app].
    split; [reflexivity|].
    split.
    { cbn [provider_requests]. rewrite provider_requests_app, Hp.
      reflexivity. }
    split.
    { rewrite <- app_assoc. reflexivity. }
    rewrite Hcalls, Hdone, Hexec. auto.
  - intros Hnil. destruct (Hcases Hnil) as (st' & -> & Hs & Ht). exists st'.
    split; [reflexivity|]. rewrite Hs, Ht. cbn [trace app].
    split; [reflexivity|].
    rewrite Hcalls, Hdone, Hexec. auto.
Qed.

(** X17. When the provider's answers carry no tool calls, a run with a
    limit above 1 ends in its first pass: one provider call, no tool
    executed, and either the text of the answer returned with the status
    [success], or the provider's exception raised. *)
Theorem answer_without_tool_calls_ends_the_run
    orch w prompt providers tools fuel provider :
  fst (select_provider providers (mkState (W:=W) orch w [])) = Returned provider ->
  (1 < max_iterations orch)%Z ->
  (forall name request w' response,
     fst (provider_complete name request w') = inr response ->
     resp_tool_calls response = []) ->
  (1 <= fuel)%nat ->
  exists out st,
    execute fuel orch w prompt providers tools = Some (out, st)
    /\ iteration_count (self st) = 1%Z
    /\ provider_calls (trace st) = 1%nat
    /\ tool_executions (trace st) = []
    /\ match out with
       | Returned text =>
           completion_statuses (trace st) = ["success"]
           /\ exists request w' response,
                fst (provider_complete provider request w') = inr response
                /\ text = _content_to_string (raw_content_of response)
       | Raised e =>
           completion_statuses (trace st) = []
           /\ exists request w',
                fst (provider_complete provider request w') = inl e
       end.
Proof.
  intros Hsel Hmax Hquiet Hfuel. destruct fuel as [|fuel]; [lia|].
  destruct (first_pass_cases orch w prompt providers tools fuel provider
              Hsel Hmax) as (msgs & w' & Hcases).
  destruct (fst (provider_complete provider
                   (mkChatRequest msgs (build_tools_list tools)) w'))
    as [e|response] eqn:Hanswer.
  - destruct Hcases
      as (st & before & Hrun & Hk & _ & _ & Hcalls & Hdone & Hexec).
    exists (Raised e), st. repeat split; try assumption. eauto.
  - destruct (Hcases (Hquiet _ _ _ _ Hanswer))
      as (st & Hrun & Hk & Hcalls & Hdone & Hexec).
    eexists _, st. split; [exact Hrun|]. repeat split; try assumption. eauto.
Qed.

(** X18. Below the limit a failure of the provider is fatal: with a
    provider whose calls raise, a run with a limit above 1 makes one call,
    with the tool list built from the registered tools, and raises the
    exception [e] of that very call; it logs the error and emits
    [provider:error] with [e] as its last effect, without emitting
    [orchestrator:complete]. *)
Theorem provider_failure_ends_the_run
    orch w prompt providers tools fuel provider :
  fst (select_provider providers (mkState (W:=W) orch w [])) = Returned provider ->
  (1 < max_iterations orch)%Z ->
  (forall name request w',
     exists e, fst (provider_complete name request w') = inl e) ->
  (1 <= fuel)%nat ->
  exists e st before msgs w',
    execute fuel orch w prompt providers tools = Some (Raised e, st)
    /\ fst (provider_complete provider
              (mkChatRequest msgs (build_tools_list tools)) w') = inl e
    /\ provider_requests (trace st)
       = [(provider, mkChatRequest msgs (build_tools_list tools))]
    /\ trace st =
         (before ++ [Log ERROR ("Provider error: " ++ e);
                     Emit (provider_error provider e)])%list
    /\ provider_calls (trace st) = 1%nat
    /\ completion_statuses (trace st) = []
    /\ tool_executions (trace st) = [].
Proof.
  intros Hsel Hmax Hfail Hfuel. destruct fuel as [|fuel]; [lia|].
  destruct (first_pass_cases orch w prompt providers tools fuel provider
              Hsel Hmax) as (msgs & w' & Hcases).
  destruct (Hfail provider (mkChatRequest msgs (build_tools_list tools)) w')
    as [e He].
  rewrite He in Hcases.
  destruct Hcases
    as (st & before & Hrun & _ & Hreq & Ht & Hcalls & Hdone & Hexec).
  exists e, st, before, msgs, w'. auto 10.
Qed.

(** X19. The loop over the tool calls of a response appends one tool
    message per call, carrying the call's name and id, in the order of the
    calls; it executes only tools that are registered and that one of the
    calls names, with that call's arguments; and it raises only when
    [stop_on_error] is set, in which case the calls after the failing one
    are left unanswered. *)
Theorem tool_calls_are_answered_in_order tools calls (st : state W) :
  let r := for_each calls (dispatch_tool_call tools) st in
  exists added n,
    trace (snd r) = (trace st ++ added)%list
    /\ tool_replies added = map (fun tc => (tc_name tc, tc_id tc)) (take n calls)
    /\ Forall (fun e => exists tc,
                 tc ∈ calls
                 /\ e = Execute (tc_name tc) (tc_arguments tc)
                 /\ is_Some (tools_get tools (tc_name tc)))
              (tool_executions added)
    /\ (fst r = Returned tt -> n = length calls)
    /\ (forall e, fst r = Raised e ->
          (n < length calls)%nat /\ stop_on_error (self st) = true)
    /\ (stop_on_error (self st) = false ->
        fst r = Returned tt
        /\ tool_replies added = map (fun tc => (tc_name tc, tc_id tc)) calls).
Proof.
  intros r. subst r.
  destruct (for_each_dispatch_cases tools calls st)
    as (_ & added & n & Ht & _ & Hx & Hr & Hn).
  cbv zeta in Ht, Hn. exists added, n.
  split; [exact Ht|]. split; [exact Hr|]. split; [exact Hx|].
  destruct (fst (for_each calls (dispatch_tool_call tools) st)) as [[]|e].
  - split; [auto|]. split; [discriminate|]. intros _. split; [reflexivity|].
    rewrite Hr, Hn, firstn_all. reflexivity.
  - split; [discriminate|]. split; [auto|]. destruct Hn as [_ Hstop].
    congruence.
Qed.

(** X20. [_execute_tool] lets an exception through only when
    [stop_on_error] is set, the tool is registered and its [execute]
    raised, and then it is that exception. A tool that is not registered
    gives the not-found text without any execution, [stop_on_error] or not;
    a failing tool gives the failure text when [stop_on_error] is off. The
    event [tool:post] is emitted exactly when the tool ran and returned. *)
Theorem tool_errors_escape_only_on_stop_on_error tool_call tools (st : state W) :
  let name := tc_name tool_call in
  let args := tc_arguments tool_call in
  let r := _execute_tool tool_call tools st in
  (forall e,
     fst r = Raised e <->
     stop_on_error (self st) = true
     /\ is_Some (tools_get tools name)
     /\ fst (tool_execute name args (world st)) = inl e)
  /\ (tools_get tools name = None ->
      fst r = Returned ("Error: Tool '" ++ name ++ "' not found")
      /\ tool_executions (trace (snd r)) = tool_executions (trace st))
  /\ (forall e,
        is_Some (tools_get tools name) ->
        fst (tool_execute name args (world st)) = inl e ->
        stop_on_error (self st) = false ->
        fst r = Returned ("Tool execution failed: " ++ e))
  /\ exists added,
       trace (snd r) = (trace st ++ added)%list
       /\ forall result,
            Emit (tool_post name args result) ∈ added <->
            is_Some (tools_get tools name)
            /\ fst (tool_execute name args (world st)) = inr result.
Proof.
  intros name args r. subst r.
  destruct (execute_tool_cases tool_call tools st) as [_ Hcases].
  cbv zeta in Hcases. fold name args in Hcases.
  destruct Hcases as [(Hnone & Hr & Ht)
                     | [(Hreg & result & Hexec & Hr & Ht)
                       | (Hreg & e & Hexec & Hr & Ht)]].
  - rewrite Hr, Ht, Hnone. split; [|split; [|split]].
    + intros e. split; [discriminate|]. intros (_ & [t Hsome] & _).
      discriminate Hsome.
    + intros _. split; [reflexivity|]. rewrite tool_executions_app.
      cbn. apply app_nil_r.
    + intros e [t Hsome]. discriminate Hsome.
    + eexists. split; [reflexivity|]. intros result. split.
      * intros Hin. repeat (apply elem_of_cons in Hin as [Hin|Hin];
                            [discriminate Hin|]).
        inversion Hin.
      * intros ([t Hsome] & _). discriminate Hsome.
  - rewrite Hr, Ht, Hexec. split; [|split; [|split]].
    + intros e. split; [discriminate|]. intros (_ & _ & He). discriminate He.
    + intros Hnone. destruct Hreg as [t Hsome]. congruence.
    + intros e _ He. discriminate He.
    + eexists. split; [reflexivity|]. intros result'. split.
      * intros Hin. apply elem_of_cons in Hin as [Hin|Hin];
          [discriminate Hin|].
        apply elem_of_cons in Hin as [Hin|Hin]; [|inversion Hin].
        inversion Hin. auto.
      * intros (_ & Heq). inversion Heq. right. left.
  - rewrite Hr, Ht, Hexec. split; [|split; [|split]].
    + intros e'. destruct (stop_on_error (self st)).
      * split.
        -- intros Heq. inversion Heq. auto.
        -- intros (_ & _ & Heq). inversion Heq. reflexivity.
      * split; [discriminate|]. intros (Hstop & _). discriminate Hstop.
    + intros Hnone. destruct Hreg as [t Hsome]. congruence.
    + intros e' _ Heq Hstop. inversion Heq. rewrite Hstop. reflexivity.
    + eexists. split; [reflexivity|]. intros result. split.
      * intros Hin. repeat (apply elem_of_cons in Hin as [Hin|Hin];
                            [discriminate Hin|]).
        inversion Hin.
      * intros (_ & Heq). discriminate Heq.
Qed.


(** X21. The two copies of [_execute_tool] act on the world alike: same
    calls, same events, same final state, and the same exceptions. What
    they return differs exactly when the tool ran and returned something
    other than a truthy plain value or a non-empty string [output]: the
    current copy then gives a text where the earlier copy gives the raw
    output, or the text of a falsy value. *)
Theorem legacy_copy_agrees_on_effects tool_call tools (st : state W) :
  let name := tc_name tool_call in
  let args := tc_arguments tool_call in
  let current := Orchestrator._execute_tool tool_call tools st in
  let earlier := Legacy._execute_tool tool_call tools st in
  snd current = snd earlier
  /\ (forall e, fst current = Raised e <-> fst earlier = Raised e)
  /\ (forall text,
        fst current = Returned text ->
        (fst earlier = Returned (OScalar (VStr text)) <->
         forall result,
           is_Some (tools_get tools name) ->
           fst (tool_execute name args (world st)) = inr result ->
           match result with
           | RPlain v => truthy_scalar v = true
           | RObject (OScalar (VStr s)) => truthy_str s = true
           | RObject _ => False
           end)).
Proof.
  intros name args current earlier. subst current earlier.
  unfold Orchestrator._execute_tool, Legacy._execute_tool. fold name args.
  destruct (tools_get tools name) as [tool|].
  - unfold try_except, bind, tool_execute_call.
    destruct (tool_execute name args (world st)) as [[e|result] w1];
      cbn [fst].
    + unfold logger, hooks_emit_event, get_self. cbn [self world trace].
      destruct (hooks_emit (tool_error name e) w1) as [hr w2].
      cbn [self world trace].
      destruct (stop_on_error (self st)); cbn [fst snd raise ret].
      * split; [reflexivity|].
        split; [intros e'; split; intros Heq; inversion Heq; reflexivity|].
        discriminate.
      * split; [reflexivity|]. split; [split; discriminate|].
        intros text Heq. inversion Heq. split; [|reflexivity].
        intros _ result _ Hr. discriminate Hr.
    + unfold hooks_emit_event. cbn [self world trace].
      destruct (hooks_emit (tool_post name args result) w1) as [hr w2].
      cbn [fst snd ret]. split; [reflexivity|].
      split; [split; discriminate|].
      intros text Heq. inversion Heq as [Htext]. clear Heq. split.
      * intros Hsame result' _ Hr. inversion Hr. subst result'.
        inversion Hsame as [Hout]. clear Hsame.
        destruct result as [v | [v | d]]; [| |discriminate Hout].
        -- cbn [result_text] in Hout.
           destruct (truthy_scalar v) eqn:Hv; [first [exact Hv | reflexivity]|].
           inversion Hout as [Hstr].
           destruct v as [|[]|z|s]; try discriminate Hstr; try discriminate Hv.
           ++ cbn in Hv. apply negb_false_iff, Z.eqb_eq in Hv. subst z.
              discriminate Hstr.
           ++ destruct s; [discriminate Hstr | discriminate Hv].
        -- destruct v as [| |z|s]; try discriminate Hout.
           inversion Hout as [Hstr]. cbn [result_text truthy_scalar] in Hstr.
           destruct (truthy_str s) eqn:Hs; [first [exact Hs | reflexivity]|].
           destruct s; [discriminate Hstr | discriminate Hs].
      * intros Hall. specialize (Hall result (ex_intro _ tool eq_refl) eq_refl).
        destruct result as [v | [v | d]]; [| |contradiction].
        -- cbn [result_text]. rewrite Hall. reflexivity.
        -- destruct v as [| |z|s]; try contradiction.
           cbn [result_text truthy_scalar str_scalar]. rewrite Hall.
           reflexivity.
  - unfold bind, logger, hooks_emit_event, ret. cbn [self world trace].
    destruct (hooks_emit _ (world st)) as [hr w1].
    cbn [fst snd]. split; [reflexivity|]. split; [split; discriminate|].
    intros text Heq. inversion Heq. split; [|reflexivity].
    intros _ result [t Hsome]. discriminate Hsome.
Qed.

(** X22. The text of a response is the text of its [content]: the
    fallback to the empty string for a missing or empty content does not
    show in it. For a list of blocks it is the texts of the blocks in
    order, so that it distributes over concatenation and blocks without a
    text add nothing. *)
Theorem response_text_of_content response bs1 bs2 dump :
  _content_to_string (raw_content_of response)
  = match resp_content response with
    | Some c => _content_to_string c
    | None => ""
    end
  /\ _content_to_string (CBlocks (bs1 ++ bs2))
     = _content_to_string (CBlocks bs1) ++ _content_to_string (CBlocks bs2)
  /\ _content_to_string (CBlocks (bs1 ++ OtherBlock dump :: bs2))
     = _content_to_string (CBlocks (bs1 ++ bs2)).
Proof.
  assert (Hcons : forall x xs,
            String.concat "" (x :: xs) = x ++ String.concat "" xs).
  { intros x [|y xs]; [|reflexivity]. cbn [String.concat].
    induction x as [|ch t IHt]; [reflexivity|].
    change (String ch t = String ch (t ++ "")). f_equal. exact IHt. }
  assert (Happ : forall l1 l2,
            _content_to_string (CBlocks (l1 ++ l2))
            = _content_to_string (CBlocks l1) ++ _content_to_string (CBlocks l2)).
  { intros l1 l2. cbn [_content_to_string].
    induction l1 as [|b l1 IH]; [reflexivity|].
    cbn [app map]. rewrite !Hcons, IH. clear IH.
    generalize (String.concat "" (map block_text l1))
               (String.concat "" (map block_text l2)).
    intros u v. induction (block_text b) as [|ch t IHt]; [reflexivity|].
    change (String ch (t ++ u ++ v) = String ch ((t ++ u) ++ v)).
    f_equal. exact IHt. }
  split; [|split].
  - unfold raw_content_of.
    destruct (resp_content response) as [[s|[|b bs]]|]; try reflexivity.
    destruct s; reflexivity.
  - apply Happ.
  - rewrite !Happ. f_equal.
    change (OtherBlock dump :: bs2) with ([OtherBlock dump] ++ bs2)%list.
    rewrite Happ. reflexivity.
Qed.

(** X23. The tool list offered to the provider is [None] exactly when no
    tool is registered, and otherwise has one spec per registered tool, in
    order, under the tool's own [name]. When every tool is registered under
    its own name, each offered name is found again by [_execute_tool]. *)
Theorem offered_tools_are_found tools :
  (build_tools_list tools = None <-> tools = [])
  /\ (forall specs,
        build_tools_list tools = Some specs ->
        map spec_name specs = map (fun kt => tool_name (snd kt)) tools
        /\ ((forall key tool, (key, tool) ∈ tools -> tool_name tool = key) ->
            Forall (fun spec => is_Some (tools_get tools (spec_name spec)))
                   specs)).
Proof.
  split.
  - destruct tools; cbn; split; intros Heq; try reflexivity; discriminate Heq.
  - intros specs Hspecs.
    assert (Hmap : specs =
                   map (fun kt => mkToolSpec (tool_name (snd kt))
                                   (tool_description (snd kt))
                                   (tool_input_schema (snd kt))) tools).
    { destruct tools; [discriminate Hspecs|]. inversion Hspecs. reflexivity. }
    subst specs. clear Hspecs. rewrite map_map. split; [reflexivity|].
    intros Hkeys. apply Forall_forall. intros spec Hin.
    apply list_elem_of_fmap in Hin as ([key tool] & -> & Hin).
    cbn [spec_name snd]. rewrite (Hkeys key tool Hin).
    clear Hkeys. induction tools as [|[k t] rest IH]; [inversion Hin|].
    cbn [tools_get]. destruct (String.eqb_spec k key) as [->|Hne]; [eauto|].
    apply elem_of_cons in Hin as [Heq|Hin]; [congruence|]. exact (IH Hin).
Qed.

End OrchestratorRuns.

(** *** The further properties at concrete collaborators *)


(** The warning messages of the runs of [looping_run_warnings]: those
    of 75 and 90 under a limit of 100, and that of 75 alone under a limit
    of 80. *)
Example looping_run_warning_messages :
  option_map (fun r => warning_messages (trace (snd r)))
    (@execute nat looping 100 (orchestrator_with 100 [75; 90]%Z) 0%nat "hi"
              ["p"] [("bash", bash)])
  = Some [@warning_message nat looping (orchestrator_with 100 [75; 90]%Z) 75;
          @warning_message nat looping (orchestrator_with 100 [75; 90]%Z) 90]
  /\ option_map (fun r => warning_messages (trace (snd r)))
       (@execute nat looping 80 (orchestrator_with 80 [75; 90]%Z) 0%nat "hi"
                 ["p"] [("bash", bash)])
     = Some [@warning_message nat looping (orchestrator_with 80 [75; 90]%Z) 75].
Proof. split; vm_compute; reflexivity. Qed.


Lemma execute_resets_the_counter_witness :
  @execute nat looping 2 (set_iteration_count (orchestrator_with 2 []) 7)
           0%nat "hi" ["p"] [("bash", bash)]
  = @execute nat looping 2 (orchestrator_with 2 []) 0%nat "hi" ["p"]
             [("bash", bash)].
Proof.
  apply (@execute_resets_the_counter nat looping (orchestrator_with 2 []) 7%Z
           0%nat "hi" ["p"] [("bash", bash)] 2%nat "p").
  reflexivity.
Defined.

Lemma limit_of_one_or_less_wraps_up_at_once_witness :
  exists text st msgs,
    @execute nat looping 1 (orchestrator_with 0 []) 0%nat "hi" ["p"]
             [("bash", bash)] = Some (Returned text, st)
    /\ iteration_count (self st) = 1%Z
    /\ provider_requests (trace st) = [("p", mkChatRequest msgs None)]
    /\ tool_executions (trace st) = []
    /\ (completion_statuses (trace st) = ["incomplete"]
        \/ completion_statuses (trace st) = ["error"]).
Proof.
  apply (@limit_of_one_or_less_wraps_up_at_once nat looping
           (orchestrator_with 0 []) 0%nat "hi" ["p"] [("bash", bash)] 1%nat "p").
  - reflexivity.
  - discriminate.
  - intros [_ Hin]. inversion Hin.
  - apply le_n.
Defined.

Lemma zero_limit_with_warning_at_one_raises_witness :
  exists st,
    @execute nat looping 1 (orchestrator_with 0 [1]%Z) 0%nat "hi" ["p"] []
    = Some (Raised "division by zero", st)
    /\ provider_calls (trace st) = 0%nat.
Proof.
  eexists. split.
  - apply (@zero_limit_with_warning_at_one_raises nat looping
             (orchestrator_with 0 [1]%Z) 0%nat "hi" ["p"] [] 1%nat "p").
    + reflexivity.
    + reflexivity.
    + left.
    + apply le_n.
  - reflexivity.
Defined.

Lemma completion_event_exactly_on_return_witness :
  exists st,
    @execute nat looping 2 (orchestrator_with 2 []) 0%nat "hi" ["p"]
             [("bash", bash)] = Some (Returned "working", st)
    /\ completion_statuses (trace st) = ["incomplete"].
Proof.
  eexists. split; [vm_compute; reflexivity|].
  match goal with
  | |- completion_statuses (trace ?st) = _ =>
      destruct (@completion_event_exactly_on_return nat looping
                  (orchestrator_with 2 []) 0%nat "hi" ["p"] [("bash", bash)]
                  2%nat (Returned "working") st eq_refl)
        as (before & status & _ & _ & Hdone & [[_ Hlt] | [Hstatus _]])
  end.
  - discriminate Hlt.
  - rewrite Hdone. destruct Hstatus as [-> | ->]; [reflexivity|].
    discriminate Hdone.
Defined.

Lemma iteration_count_counts_provider_calls_witness :
  exists out st,
    @execute nat looping 2 (orchestrator_with 2 []) 0%nat "hi" ["p"]
             [("bash", bash)] = Some (out, st)
    /\ Z.of_nat (provider_calls (trace st)) = iteration_count (self st).
Proof.
  assert (Hrun : exists out st,
            @execute nat looping 2 (orchestrator_with 2 []) 0%nat "hi" ["p"]
                     [("bash", bash)] = Some (out, st)).
  { eexists _, _. vm_compute. reflexivity. }
  destruct Hrun as (out & st & Hrun). exists out, st. split; [exact Hrun|].
  apply (@iteration_count_counts_provider_calls nat looping
           (orchestrator_with 2 []) 0%nat "hi" ["p"] [("bash", bash)] 2%nat
           out st "p").
  - reflexivity.
  - discriminate.
  - exact Hrun.
Defined.


Lemma only_registered_tools_are_executed_witness :
  exists out st,
    @execute nat looping 2 (orchestrator_with 2 []) 0%nat "hi" ["p"] []
    = Some (out, st)
    /\ tool_executions (trace st) = [].
Proof.
  assert (Hrun : exists out st,
            @execute nat looping 2 (orchestrator_with 2 []) 0%nat "hi" ["p"] []
            = Some (out, st)).
  { eexists _, _. vm_compute. reflexivity. }
  destruct Hrun as (out & st & Hrun). exists out, st. split; [exact Hrun|].
  apply (proj2 (@only_registered_tools_are_executed nat looping
                  (orchestrator_with 2 []) 0%nat "hi" ["p"] [] 2%nat out st
                  Hrun)).
  reflexivity.
Defined.

Lemma answer_without_tool_calls_ends_the_run_witness :
  exists out st,
    @execute nat (returning (RPlain VNone)) 1 (orchestrator_with 3 []) 0%nat
             "hi" ["p"] [("bash", bash)] = Some (out, st)
    /\ iteration_count (self st) = 1%Z
    /\ provider_calls (trace st) = 1%nat
    /\ tool_executions (trace st) = [].
Proof.
  destruct (@answer_without_tool_calls_ends_the_run nat
              (returning (RPlain VNone)) (orchestrator_with 3 []) 0%nat "hi"
              ["p"] [("bash", bash)] 1%nat "p")
    as (out & st & Hrun & Hk & Hcalls & Hexec & _).
  - reflexivity.
  - reflexivity.
  - intros name request w' response Hanswer. inversion Hanswer. reflexivity.
  - apply le_n.
  - exists out, st. auto.
Defined.

Lemma provider_failure_ends_the_run_witness :
  exists e st before msgs w',
    @execute nat failing 1 (orchestrator_with 3 []) 0%nat "hi" ["p"] []
    = Some (Raised e, st)
    /\ fst (@provider_complete nat failing "p" (mkChatRequest msgs None) w')
       = inl e
    /\ provider_requests (trace st) = [("p", mkChatRequest msgs None)]
    /\ trace st =
         (before ++ [Log ERROR ("Provider error: " ++ e);
                     Emit (provider_error "p" e)])%list
    /\ provider_calls (trace st) = 1%nat
    /\ completion_statuses (trace st) = []
    /\ tool_executions (trace st) = [].
Proof.
  apply (@provider_failure_ends_the_run nat failing (orchestrator_with 3 [])
           0%nat "hi" ["p"] [] 1%nat "p").
  - reflexivity.
  - reflexivity.
  - intros name request w'. exists "boom". reflexivity.
  - apply le_n.
Defined.

Lemma tool_calls_are_answered_in_order_witness :
  let r :=
    @for_each nat _ [bash_call; mkToolCall "call_2" "grep" ∅]
      (@dispatch_tool_call nat looping [("bash", bash)])
      (mkState (orchestrator_with 3 []) 0%nat []) in
  fst r = Returned tt
  /\ exists added,
       trace (snd r) = added
       /\ tool_replies added = [("bash", "call_1"); ("grep", "call_2")].
Proof.
  intros r.
  destruct (@tool_calls_are_answered_in_order nat looping [("bash", bash)]
              [bash_call; mkToolCall "call_2" "grep" ∅]
              (mkState (orchestrator_with 3 []) 0%nat []))
    as (added & n & Ht & _ & _ & _ & _ & Hstop).
  destruct (Hstop eq_refl) as [Hr Hreplies].
  split; [exact Hr|]. exists added. split; [exact Ht | exact Hreplies].
Defined.

Lemma tool_errors_escape_only_on_stop_on_error_witness :
  fst (@_execute_tool nat breaking bash_call [("bash", bash)]
         (mkState stopping_orchestrator 0%nat []))
  = Raised "tool broke"
  /\ fst (@_execute_tool nat breaking bash_call [("bash", bash)]
            (mkState (orchestrator_with 3 []) 0%nat []))
     = Returned "Tool execution failed: tool broke".
Proof.
  split.
  - apply (proj1 (@tool_errors_escape_only_on_stop_on_error nat breaking
                    bash_call [("bash", bash)]
                    (mkState stopping_orchestrator 0%nat []))
                 "tool broke").
    split; [reflexivity|]. split; [exists bash; reflexivity | reflexivity].
  - apply (proj1 (proj2 (proj2
             (@tool_errors_escape_only_on_stop_on_error nat breaking
                bash_call [("bash", bash)]
                (mkState (orchestrator_with 3 []) 0%nat []))))
             "tool broke").
    + exists bash. reflexivity.
    + reflexivity.
    + reflexivity.
Defined.

Lemma legacy_copy_agrees_on_effects_witness :
  fst (@Legacy._execute_tool nat (returning (RPlain (VStr "ok"))) bash_call
         [("bash", bash)] (mkState (orchestrator_with 2 []) 0%nat []))
  = Returned (OScalar (VStr "ok")).
Proof.
  apply (proj2 (proj2 (@legacy_copy_agrees_on_effects nat
                         (returning (RPlain (VStr "ok"))) bash_call
                         [("bash", bash)]
                         (mkState (orchestrator_with 2 []) 0%nat []))) "ok").
  - reflexivity.
  - intros result _ Hresult. inversion Hresult. reflexivity.
Defined.

Lemma offered_tools_are_found_witness :
  Forall (fun spec => is_Some (tools_get [("bash", bash)] (spec_name spec)))
         [mkToolSpec "bash" "run a command" "{}"].
Proof.
  apply (proj2 (proj2 (offered_tools_are_found [("bash", bash)])
                  [mkToolSpec "bash" "run a command" "{}"] eq_refl)).
  intros key tool Hin. apply list_elem_of_singleton in Hin.
  inversion Hin. reflexivity.
Defined.

End OrchestratorMore.
